(** * FasalSetu: the rule evaluations and guard flags of the advisory app

    A shallow embedding of the TypeScript sources
    - [src/lib/user-location.ts]   (location guard flags, [crop-db] and
      [auth-helpers], which the file bundles),
    - [src/lib/location-sync.ts] and [src/services/geolocationService.ts],
    - [src/services/smartAlertService.ts] ([weatherService], which the file
      bundles) and [src/lib/soil-db.ts],
    - [src/services/cropAdvisoryAI.ts]  ([generateAdvice] and its fallback).

    Every [async] function of the source is a value of the free monad [Prog]:
    a finite tree whose nodes are the requests the code sends to its
    environment (the Supabase client, the browser, the generative model, the
    clock, the module-level variables) and whose leaves are [return]s and
    uncaught [throw]s.  [run] interprets a program against any handler and
    records the trace of requests and answers; theorems quantify over all
    handlers.

    Conventions.
    - A JavaScript [number] read from JSON is a rational ([Q]); every
      comparison of the source is then exact.
    - A [TIMESTAMPTZ] column and an ISO-8601 instant are the number of
      milliseconds since the epoch ([Z]); [toISOString] and [new Date(s)]
      are the identity on them.
    - [console.log] and friends are dropped. *)

From Stdlib Require Import ZArith QArith Qround List Sorted String DecimalString Bool Lia.
From Stdlib Require Import Permutation.
Import ListNotations.

Local Open Scope string_scope.
Local Open Scope list_scope.
Local Open Scope Z_scope.

(** ** Values shared by the modules *)

(** [PostgrestError]: the [error] member of a Supabase response. *)
Record PostgrestError : Type := mkPgError {
  pg_message : string;
  pg_code : string
}.

(** What a [throw] or a rejected promise carries. *)
Inductive Exn : Type :=
| JsError (message : string)
| PgThrown (e : PostgrestError).

(** How an awaited request settles. *)
Inductive result (R : Type) : Type :=
| Resolved (v : R)
| Rejected (e : Exn).
Arguments Resolved {R} v.
Arguments Rejected {R} e.

(** [{ data, error }], the shape of every Supabase query response. *)
Record PgResponse (T : Type) : Type := mkPgResponse {
  data : option T;
  error : option PostgrestError
}.
Arguments mkPgResponse {T} data error.
Arguments data {T} p.
Arguments error {T} p.

(** The user object of [supabase.auth.getUser()]. *)
Record SupabaseUser : Type := mkSupabaseUser {
  su_id : string;
  su_phone : option string;
  su_created_at : string
}.

(** [AuthUser] of [auth-helpers]. *)
Record AuthUser : Type := mkAuthUser {
  id : string;
  phone : string;
  created_at : string
}.

(** ['healthy' | 'attention' | 'critical']. *)
Inductive CropStatus : Type := healthy | attention | critical.

(** The [CHECK] constraint on [disease_logs.severity]. *)
Inductive Severity : Type := mild | moderate | severe | unknown.

Definition Severity_eqb (a b : Severity) : bool :=
  match a, b with
  | mild, mild | moderate, moderate | severe, severe | unknown, unknown => true
  | _, _ => false
  end.

(** [CropCycle] of [crop-db], with the two columns that
    [ADD_MANUAL_STATUS_COLUMNS.sql] adds to the table. *)
Record CropCycle : Type := mkCropCycle {
  crop_id : Z;
  crop_name : string;
  sowing_date : string;
  expected_harvest_date : option string;
  current_stage : string;
  predicted_yield : option Q;
  is_active : bool;
  user_id : string;
  manual_status : option CropStatus;
  manual_status_updated_at : option Z
}.

(** The columns [select('manual_status, manual_status_updated_at')] returns. *)
Record ManualStatusRow : Type := mkManualStatusRow {
  ms_manual_status : option CropStatus;
  ms_manual_status_updated_at : option Z
}.

(** A row of [disease_logs]. *)
Record DiseaseLog : Type := mkDiseaseLog {
  dl_user_id : string;
  crop_cycle_id : option Z;
  disease_name : string;
  severity : option Severity;
  detection_date : Z
}.

(** [LocationData] of [geolocationService]. *)
Record LocationData : Type := mkLocationData {
  latitude : Q;
  longitude : Q;
  accuracy : Q;
  city : option string;
  state : option string;
  country : option string
}.

(** [UserLocation] of [location-sync]. *)
Record UserLocation : Type := mkUserLocation {
  ul_latitude : Q;
  ul_longitude : Q;
  ul_accuracy : option Q;
  ul_city : option string;
  ul_state : option string;
  ul_country : option string;
  location_updated_at : option Z
}.

(** ** Weather, soil and advisory records *)

(** The members of [ForecastDay.day] that the alert rules read (the
    interface also carries the imperial duplicates and the snow fields). *)
Record DayStats : Type := mkDayStats {
  maxtemp_c : Q;
  mintemp_c : Q;
  avgtemp_c : Q;
  maxwind_kph : Q;
  totalprecip_mm : Q;
  avghumidity : Q;
  daily_chance_of_rain : Q;
  condition_text : string;
  uv : Q
}.

Record ForecastDay : Type := mkForecastDay {
  date : string;
  date_epoch : Z;
  day : DayStats
}.

(** [DetailedWeatherForecast]: only [forecast.forecastday] is read. *)
Record DetailedWeatherForecast : Type := mkForecast {
  location_name : string;
  forecastday : list ForecastDay
}.

(** What [fetch] resolves to: [response.ok], [response.status] and the
    outcome of [await response.json()]. *)
Record HttpReply (T : Type) : Type := mkHttpReply {
  ok : bool;
  status : Z;
  json : result T
}.
Arguments mkHttpReply {T} ok status json.
Arguments ok {T} h.
Arguments status {T} h.
Arguments json {T} h.

(** [DBSoilData] of [soil-db]: a row of [farm_soil_data]. *)
Record DBSoilData : Type := mkDBSoilData {
  sd_user_id : string;
  sd_latitude : Q;
  sd_longitude : Q;
  ph_level : option Q;
  total_nitrogen : option Q;
  organic_carbon : option Q;
  cec : option Q;
  clay_pct : option Q;
  sand_pct : option Q;
  silt_pct : option Q;
  bulk_density : option Q;
  soil_type_name : option string;
  sample_depth : string;
  recorded_at : Z
}.

(** [SoilData] of [soil-db]: what [getSoilDataFromDatabase] hands out. *)
Record SoilData : Type := mkSoilData {
  pH : Q;
  nitrogen : Q;
  organicCarbon : Q;
  soil_cec : Q;
  clay : Q;
  sand : Q;
  silt : Q;
  bulkDensity : Q;
  soilType : string;
  depth : string;
  soil_latitude : Q;
  soil_longitude : Q
}.

(** ['hi' | 'mr' | 'te' | 'ta' | 'en' | 'mixed']. *)
Inductive Language : Type := hi | mr | te | ta | en | mixed.

(** The columns [fetchFarmContext] selects from [users]. *)
Record UserProfileRow : Type := mkUserProfileRow {
  up_latitude : option Q;
  up_longitude : option Q;
  up_city : option string;
  up_state : option string;
  up_country : option string;
  preferred_language : option Language
}.

(** The columns [saveLocationToDatabase] writes to [users]. *)
Record LocationUpdate : Type := mkLocationUpdate {
  lu_latitude : Q;
  lu_longitude : Q;
  lu_location_accuracy : Q;
  lu_city : option string;
  lu_state : option string;
  lu_country : option string;
  lu_location_updated_at : Z
}.

(** What the browser's [getCurrentPosition] reports. *)
Inductive GeoOutcome : Type :=
| GeoUnsupported                         (* [!navigator.geolocation] *)
| GeoPosition (lat lon acc : Q)          (* success callback *)
| GeoPositionError (code : Z).           (* error callback *)

(** [data.address] of a Nominatim reverse-geocoding reply. *)
Record NominatimAddress : Type := mkNominatimAddress {
  addr_city : option string;
  addr_town : option string;
  addr_village : option string;
  addr_county : option string;
  addr_state : option string;
  addr_country : option string
}.

(** The generative model object held in [this.model]. *)
Record Model : Type := mkModel { model_name : string }.

(** [contents] of a [generateContent] call: the prompt and, for a
    multimodal request, the inline JPEG. *)
Record Contents : Type := mkContents {
  prompt_text : string;
  inline_image : option string
}.

(** What the generation settles to: [result.response] may be missing, and
    [response.text()] returns or throws. *)
Record GenerateContentResult : Type := mkGenResult {
  response : option (result string)
}.

(** ** Operations and requests

    [Op]: what a function does on the spot and cannot fail, reading or
    writing a module-level variable or a field of [this], or reading the
    clock.  [Req]: what goes to the outside and may fail. *)

Inductive Op : Type :=
(* module-level variables of user-location.ts *)
| GetLocationUpdateInProgress
| SetLocationUpdateInProgress (b : bool)
| GetPermissionDenied
| SetPermissionDenied (b : bool)
| GetLastPermissionCheck
| SetLastPermissionCheck (t : Z)
(* the clock *)
| DateNow                                  (* [Date.now()], [new Date()] *)
| NewDateMinusDays (n : Z)                 (* [d = new Date(); d.setDate(d.getDate() - n)] *)
(* the fields of the CropAdvisoryAI instance *)
| GetIsInitialized
| SetIsInitialized (b : bool)
| GetModel
| SetModel (m : Model)
| GetApiKey.

Definition OpResp (op : Op) : Type :=
  match op with
  | GetLocationUpdateInProgress => bool
  | SetLocationUpdateInProgress _ => unit
  | GetPermissionDenied => bool
  | SetPermissionDenied _ => unit
  | GetLastPermissionCheck => Z
  | SetLastPermissionCheck _ => unit
  | DateNow => Z
  | NewDateMinusDays _ => Z
  | GetIsInitialized => bool
  | SetIsInitialized _ => unit
  | GetModel => option Model
  | SetModel _ => unit
  | GetApiKey => string
  end.

Inductive Req : Type :=
(* the auth provider and the browser *)
| AuthGetUser                              (* [supabase.auth.getUser()] *)
| NavigatorGeolocation                     (* [navigator.geolocation.getCurrentPosition] *)
| NominatimReverse (lat lon : Q)           (* [fetch] of the reverse-geocoding URL *)
| Atob (base64 : string)
(* Supabase queries, one per query shape of the source *)
| Users_UpdateLocation (uid : string) (u : LocationUpdate)
| Users_SelectProfile (uid : string)
| CropCycles_SelectActive (uid : string)
| CropCycles_SelectLatestActive (uid : string)
| CropCycles_UpdateInactive (cropId : Z) (uid : string)
| CropCycles_SelectManualStatus (cropId : Z)   (* [.eq('crop_id', id).single()] *)
| CropCycles_UpdateManualStatus (cropId : Z) (uid : string) (s : CropStatus) (at_ : Z)
| DiseaseLogs_SelectForCrop (cropId : Z) (since : Z)
| DiseaseLogs_SelectForUser (uid : string) (since : Z)
| FarmSoil_SelectLatest (uid : string)
| Storage_Upload (filename : string) (bytes : string)
| Storage_GetPublicUrl (filename : string)
(* the weather API *)
| WeatherApiForecast (location : Q * Q) (days : Z)
(* the generative model *)
| GetGenerativeModel (apiKey : string)
| GenerateContent (m : Model) (c : Contents) (timeout_ms : Z).

(** The type of the answer to each request. *)
Definition Resp (q : Req) : Type :=
  match q with
  | AuthGetUser => option SupabaseUser
  | NavigatorGeolocation => GeoOutcome
  | NominatimReverse _ _ => HttpReply (option NominatimAddress)
  | Atob _ => string
  | Users_UpdateLocation _ _ => PgResponse unit
  | Users_SelectProfile _ => PgResponse UserProfileRow
  | CropCycles_SelectActive _ => PgResponse (list CropCycle)
  | CropCycles_SelectLatestActive _ => PgResponse (list CropCycle)
  | CropCycles_UpdateInactive _ _ => PgResponse unit
  | CropCycles_SelectManualStatus _ => PgResponse ManualStatusRow
  | CropCycles_UpdateManualStatus _ _ _ _ => PgResponse unit
  | DiseaseLogs_SelectForCrop _ _ => PgResponse (list DiseaseLog)
  | DiseaseLogs_SelectForUser _ _ => PgResponse (list DiseaseLog)
  | FarmSoil_SelectLatest _ => PgResponse (list DBSoilData)
  | Storage_Upload _ _ => PgResponse unit
  | Storage_GetPublicUrl _ => string
  | WeatherApiForecast _ _ => HttpReply DetailedWeatherForecast
  | GetGenerativeModel _ => Model
  | GenerateContent _ _ _ => GenerateContentResult
  end.

(** ** Programs *)

(** A function body: it returns, throws, performs an operation and goes on
    with its value, or sends a request and goes on with the way the request
    settled. *)
Inductive Prog (A : Type) : Type :=
| Ret (a : A)
| Throw (e : Exn)
| Do (op : Op) (k : OpResp op -> Prog A)
| Vis (q : Req) (k : result (Resp q) -> Prog A).
Arguments Ret {A} a.
Arguments Throw {A} e.
Arguments Do {A} op k.
Arguments Vis {A} q k.

Fixpoint bind {A B : Type} (p : Prog A) (f : A -> Prog B) : Prog B :=
  match p with
  | Ret a => f a
  | Throw e => Throw e
  | Do op k => Do op (fun v => bind (k v) f)
  | Vis q k => Vis q (fun r => bind (k r) f)
  end.

Declare Scope prog_scope.
Delimit Scope prog_scope with prog.
Notation "x <- p ;; k" := (bind p (fun x => k))
  (at level 61, p at next level, right associativity) : prog_scope.
Notation "p ;; k" := (bind p (fun _ => k))
  (at level 61, right associativity) : prog_scope.
Local Open Scope prog_scope.

Definition perform (op : Op) : Prog (OpResp op) := Do op (fun v => Ret v).

(** [await q]: a rejection becomes a [throw] at the await. *)
Definition await (q : Req) : Prog (Resp q) :=
  Vis q (fun r => match r with
                  | Resolved v => Ret v
                  | Rejected e => Throw e
                  end).

(** [try { p } catch (e) { h e }]. *)
Fixpoint try_catch {A : Type} (p : Prog A) (h : Exn -> Prog A) : Prog A :=
  match p with
  | Ret a => Ret a
  | Throw e => h e
  | Do op k => Do op (fun v => try_catch (k v) h)
  | Vis q k => Vis q (fun r => try_catch (k r) h)
  end.

(** [try { p } finally { f }]: [f] runs on the way out of [p], whether [p]
    returned or threw, and the way out is kept. *)
Fixpoint try_finally {A : Type} (p : Prog A) (f : Prog unit) : Prog A :=
  match p with
  | Ret a => f ;; Ret a
  | Throw e => f ;; Throw e
  | Do op k => Do op (fun v => try_finally (k v) f)
  | Vis q k => Vis q (fun r => try_finally (k r) f)
  end.

(** ** Running a program against an environment *)

Inductive Outcome (A : Type) : Type :=
| Returned (a : A)
| Threw (e : Exn).
Arguments Returned {A} a.
Arguments Threw {A} e.

(** One exchange with the environment. *)
Inductive Event : Type :=
| Did (op : Op) (v : OpResp op)
| Asked (q : Req) (r : result (Resp q)).

(** An environment with state [W] answers every operation and request. *)
Record Handler (W : Type) : Type := mkHandler {
  on_op : forall op : Op, W -> OpResp op * W;
  on_req : forall q : Req, W -> result (Resp q) * W
}.
Arguments mkHandler {W} on_op on_req.
Arguments on_op {W} h op w.
Arguments on_req {W} h q w.

Record Run (W A : Type) : Type := mkRun {
  outcome : Outcome A;
  final : W;
  trace : list Event
}.
Arguments mkRun {W A} outcome final trace.
Arguments outcome {W A} r.
Arguments final {W A} r.
Arguments trace {W A} r.

Fixpoint run {W A : Type} (h : Handler W) (p : Prog A) (w : W) : Run W A :=
  match p with
  | Ret a => mkRun (Returned a) w []
  | Throw e => mkRun (Threw e) w []
  | Do op k =>
      let (v, w') := on_op h op w in
      let rest := run h (k v) w' in
      mkRun (outcome rest) (final rest) (Did op v :: trace rest)
  | Vis q k =>
      let (r, w') := on_req h q w in
      let rest := run h (k r) w' in
      mkRun (outcome rest) (final rest) (Asked q r :: trace rest)
  end.

(** ** Postconditions over every environment

    [Post p Phi]: whatever the environment answers, the trace and the
    outcome of [p] satisfy [Phi]. *)

Fixpoint Post {A : Type} (p : Prog A) (Phi : list Event -> Outcome A -> Prop) : Prop :=
  match p with
  | Ret a => Phi [] (Returned a)
  | Throw e => Phi [] (Threw e)
  | Do op k => forall v, Post (k v) (fun tr o => Phi (Did op v :: tr) o)
  | Vis q k => forall r, Post (k r) (fun tr o => Phi (Asked q r :: tr) o)
  end.

(** The last exchange of a trace. *)
Fixpoint last_event (tr : list Event) : option Event :=
  match tr with
  | [] => None
  | [ev] => Some ev
  | _ :: tr' => last_event tr'
  end.

(** [Total p]: no environment makes [p] throw. *)
Definition Total {A : Type} (p : Prog A) : Prop :=
  Post p (fun _ o => exists a, o = Returned a).

(** [Ensures p P]: the outcome of [p] satisfies [P], whatever the trace. *)
Definition Ensures {A : Type} (p : Prog A) (P : Outcome A -> Prop) : Prop :=
  Post p (fun _ o => P o).

(** ** auth-helpers *)

Definition orEmpty (s : option string) : string :=
  match s with
  | Some v => v
  | None => ""
  end.

Definition getCurrentUser : Prog (option AuthUser) :=
  user <- await AuthGetUser ;;
  match user with
  | None => Ret None
  | Some u => Ret (Some (mkAuthUser (su_id u) (orEmpty (su_phone u)) (su_created_at u)))
  end.

(** ** crop-db *)

Definition notAuthenticated : Exn := JsError "User not authenticated".

(** [data || []]. *)
Definition orNil {T : Type} (d : option (list T)) : list T :=
  match d with
  | Some l => l
  | None => []
  end.

Definition getActiveCrops : Prog (list CropCycle) :=
  try_catch
    (user <- getCurrentUser ;;
     match user with
     | None => Throw notAuthenticated
     | Some u =>
         r <- await (CropCycles_SelectActive (id u)) ;;
         match error r with
         | Some e => Throw (PgThrown e)
         | None => Ret (orNil (data r))
         end
     end)
    (fun _ => Ret []).

Definition markCropAsHarvested (cropId : Z) : Prog bool :=
  try_catch
    (user <- getCurrentUser ;;
     match user with
     | None => Throw notAuthenticated
     | Some u =>
         r <- await (CropCycles_UpdateInactive cropId (id u)) ;;
         match error r with
         | Some e => Throw (PgThrown e)
         | None => Ret true
         end
     end)
    (fun _ => Ret false).

(** [d.severity === s]. *)
Definition hasSeverity (s : Severity) (d : DiseaseLog) : bool :=
  match severity d with
  | Some s' => Severity_eqb s' s
  | None => false
  end.

(** Lines 478-516 of [getCropStatus]: the status from the rows the
    disease-log query returned. *)
Definition statusFromLogs (diseaseLogs : option (list DiseaseLog)) : CropStatus :=
  match diseaseLogs with
  | None => healthy
  | Some logs =>
      if Nat.eqb (List.length logs) 0 then healthy
      else
        let severeDiseases := List.length (filter (hasSeverity severe) logs) in
        let moderateDiseases := List.length (filter (hasSeverity moderate) logs) in
        let mildDiseases := List.length (filter (hasSeverity mild) logs) in
        let totalDiseases := List.length logs in
        if Nat.leb 2 totalDiseases then critical
        else if Nat.ltb 0 severeDiseases then critical
        else if Nat.ltb 0 moderateDiseases || Nat.ltb 0 mildDiseases then attention
        else healthy
  end.

(** The manual override of [getCropStatus]: the stored status when it was
    set after the instant seven days back, nothing otherwise. *)
Definition manualOverride (manualStatus : option ManualStatusRow) : Prog (option CropStatus) :=
  match manualStatus with
  | Some row =>
      match ms_manual_status row, ms_manual_status_updated_at row with
      | Some s, Some statusDate =>
          sevenDaysAgo <- perform (NewDateMinusDays 7) ;;
          if sevenDaysAgo <? statusDate then Ret (Some s) else Ret None
      | _, _ => Ret None
      end
  | None => Ret None
  end.

Definition getCropStatus (crop : CropCycle) : Prog CropStatus :=
  try_catch
    (m <- await (CropCycles_SelectManualStatus (crop_id crop)) ;;
     override <- manualOverride (data m) ;;
     match override with
     | Some s => Ret s
     | None =>
         thirtyDaysAgo <- perform (NewDateMinusDays 30) ;;
         r <- await (DiseaseLogs_SelectForCrop (crop_id crop) thirtyDaysAgo) ;;
         match error r with
         | Some _ => Ret healthy
         | None => Ret (statusFromLogs (data r))
         end
     end)
    (fun _ => Ret healthy).

Definition updateCropStatus (cropId : Z) (status : CropStatus) : Prog bool :=
  try_catch
    (user <- getCurrentUser ;;
     match user with
     | None => Throw notAuthenticated
     | Some u =>
         now <- perform DateNow ;;
         r <- await (CropCycles_UpdateManualStatus cropId (id u) status now) ;;
         match error r with
         | Some e => Throw (PgThrown e)
         | None => Ret true
         end
     end)
    (fun _ => Ret false).

(** ** geolocationService *)

(** Truthiness of an optional string: defined and not empty. *)
Definition truthy (s : option string) : bool :=
  match s with
  | Some "" => false
  | Some _ => true
  | None => false
  end.

(** [a || b] on optional strings. *)
Definition jsOr (a b : option string) : option string :=
  if truthy a then a else b.

(** The [{ city, state, country }] object of [reverseGeocode]. *)
Record AddressParts : Type := mkAddressParts {
  ap_city : option string;
  ap_state : option string;
  ap_country : option string
}.

Definition noAddress : NominatimAddress :=
  mkNominatimAddress None None None None None None.

Definition reverseGeocode (lat lon : Q) : Prog AddressParts :=
  try_catch
    (reply <- await (NominatimReverse lat lon) ;;
     if negb (ok reply) then Throw (JsError "Geocoding failed")
     else
       match json reply with
       | Rejected e => Throw e
       | Resolved d =>
           let address := match d with Some a => a | None => noAddress end in
           Ret (mkAddressParts
                  (jsOr (addr_city address)
                     (jsOr (addr_town address)
                        (jsOr (addr_village address) (addr_county address))))
                  (addr_state address)
                  (addr_country address))
       end)
    (fun _ => Ret (mkAddressParts None None None)).

Definition getCurrentLocation : Prog (option LocationData) :=
  g <- await NavigatorGeolocation ;;
  match g with
  | GeoUnsupported => Ret None
  | GeoPositionError _ => Ret None
  | GeoPosition lat lon acc =>
      let locationData := mkLocationData lat lon acc None None None in
      located <- try_catch
                   (address <- reverseGeocode lat lon ;;
                    Ret (mkLocationData lat lon acc
                           (ap_city address) (ap_state address) (ap_country address)))
                   (fun _ => Ret locationData) ;;
      Ret (Some located)
  end.

(** ** location-sync *)

(** [s || null]. *)
Definition orNull (s : option string) : option string :=
  if truthy s then s else None.

Definition saveLocationToDatabase (locationData : LocationData) : Prog bool :=
  try_catch
    (user <- getCurrentUser ;;
     match user with
     | None => Ret false
     | Some u =>
         now <- perform DateNow ;;
         r <- await (Users_UpdateLocation (id u)
                       (mkLocationUpdate
                          (latitude locationData)
                          (longitude locationData)
                          (accuracy locationData)
                          (orNull (city locationData))
                          (orNull (state locationData))
                          (orNull (country locationData))
                          now)) ;;
         match error r with
         | Some _ => Ret false
         | None => Ret true
         end
     end)
    (fun _ => Ret false).

(** ** user-location *)

Definition PERMISSION_CHECK_COOLDOWN : Z := 60000.

(** The Delhi coordinates substituted when the browser gives no position. *)
Definition fallbackLocation : LocationData :=
  mkLocationData 28.6872 77.2140 1000 (Some "Delhi") (Some "Delhi") (Some "India").

(** The object literal both branches of [updateUserLocation] return. *)
Definition toUserLocation (l : LocationData) (stamp : Z) : UserLocation :=
  mkUserLocation (latitude l) (longitude l) (Some (accuracy l))
    (city l) (state l) (country l) (Some stamp).

(** [permissionDenied && (now - lastPermissionCheck) < PERMISSION_CHECK_COOLDOWN]:
    the right operand is read only when the left one holds. *)
Definition cooldownActive (now : Z) : Prog bool :=
  denied <- perform GetPermissionDenied ;;
  if denied
  then lastPermissionCheck <- perform GetLastPermissionCheck ;;
       Ret (now - lastPermissionCheck <? PERMISSION_CHECK_COOLDOWN)
  else Ret false.

(** The [try] block of [updateUserLocation]. *)
Definition locateAndSave (now : Z) : Prog (option UserLocation) :=
  perform (SetLocationUpdateInProgress true) ;;
  perform (SetLastPermissionCheck now) ;;
  user <- getCurrentUser ;;
  match user with
  | None => Ret None
  | Some _ =>
      location <- getCurrentLocation ;;
      match location with
      | None =>
          perform (SetPermissionDenied true) ;;
          saved <- saveLocationToDatabase fallbackLocation ;;
          if negb saved then Ret None
          else stamp <- perform DateNow ;;
               Ret (Some (toUserLocation fallbackLocation stamp))
      | Some l =>
          perform (SetPermissionDenied false) ;;
          saved <- saveLocationToDatabase l ;;
          if negb saved then Ret None
          else stamp <- perform DateNow ;;
               Ret (Some (toUserLocation l stamp))
      end
  end.

Definition updateUserLocation : Prog (option UserLocation) :=
  inProgress <- perform GetLocationUpdateInProgress ;;
  if inProgress then Ret None
  else
    now <- perform DateNow ;;
    skip <- cooldownActive now ;;
    if skip then Ret None
    else
      try_finally
        (try_catch (locateAndSave now) (fun _ => Ret None))
        (perform (SetLocationUpdateInProgress false) ;; Ret tt).

Definition resetPermissionDenied : Prog unit :=
  perform (SetPermissionDenied false) ;;
  perform (SetLastPermissionCheck 0) ;;
  Ret tt.

(** A whole number in decimal. *)
Definition zText (z : Z) : string := NilZero.string_of_int (Z.to_int z).

(** ** Arrays *)

(** [Array.prototype.sort(cmp)]: the stable sort, here by insertion; an
    element goes in front of the first one it does not compare greater
    than. *)
Fixpoint insertWith {T : Type} (cmp : T -> T -> Z) (x : T) (l : list T) : list T :=
  match l with
  | [] => [x]
  | y :: l' => if cmp x y <=? 0 then x :: y :: l' else y :: insertWith cmp x l'
  end.

Fixpoint sortWith {T : Type} (cmp : T -> T -> Z) (l : list T) : list T :=
  match l with
  | [] => []
  | x :: l' => insertWith cmp x (sortWith cmp l')
  end.

(** ** weatherService and soil-db *)

Definition getDetailedForecast (location : Q * Q) (days : Z)
    : Prog (option DetailedWeatherForecast) :=
  try_catch
    (reply <- await (WeatherApiForecast location days) ;;
     if negb (ok reply) then Throw (JsError "Weather API failed")
     else
       match json reply with
       | Resolved d => Ret (Some d)
       | Rejected e => Throw e
       end)
    (fun _ => Ret None).

Definition getDetailedForecastByCoordinates (latitude longitude : Q) (days : Z)
    : Prog (option DetailedWeatherForecast) :=
  getDetailedForecast (latitude, longitude) days.

(** [x || d] on an optional number: [null], [undefined] and [0] give [d]. *)
Definition numOr (x : option Q) (d : Q) : Q :=
  match x with
  | Some v => if Qeq_bool v 0 then d else v
  | None => d
  end.

(** [x || d] on an optional string. *)
Definition strOr (x : option string) (d : string) : string :=
  match x with
  | Some "" => d
  | Some v => v
  | None => d
  end.

Definition getSoilDataFromDatabase : Prog (option SoilData) :=
  try_catch
    (user <- getCurrentUser ;;
     match user with
     | None => Ret None
     | Some u =>
         r <- await (FarmSoil_SelectLatest (id u)) ;;
         match error r with
         | Some _ => Ret None
         | None =>
             match data r with
             | None => Ret None
             | Some [] => Ret None
             | Some (record :: _) =>
                 Ret (Some (mkSoilData
                              (numOr (ph_level record) 7)
                              (numOr (total_nitrogen record) 0)
                              (numOr (organic_carbon record) 0)
                              (numOr (cec record) 0)
                              (numOr (clay_pct record) 0)
                              (numOr (sand_pct record) 0)
                              (numOr (silt_pct record) 0)
                              (numOr (bulk_density record) 0)
                              (strOr (soil_type_name record) "Unknown")
                              (sample_depth record)
                              (sd_latitude record)
                              (sd_longitude record)))
             end
         end
     end)
    (fun _ => Ret None).

(** ** smartAlertService *)

Inductive AlertType : Type :=
| weather | irrigation | fertilizer | pest | harvest | disease | soil.

(** ['critical' | 'high' | 'medium' | 'low']. *)
Inductive Priority : Type := Critical | High | Medium | Low.

Record SmartAlert : Type := mkSmartAlert {
  alert_id : string;
  alert_type : AlertType;
  title : string;
  description : string;
  priority : Priority;
  actionRequired : string;
  affectedCrops : list string;
  alert_date : string;
  forecastDay : option ForecastDay
}.

(** [const priorityOrder = { critical: 0, high: 1, medium: 2, low: 3 }]. *)
Definition priorityOrder (p : Priority) : Z :=
  match p with
  | Critical => 0
  | High => 1
  | Medium => 2
  | Low => 3
  end.

(** [a > b] and [a < b] on numbers. *)
Definition jsGt (a b : Q) : bool := negb (Qle_bool a b).
Definition jsLt (a b : Q) : bool := negb (Qle_bool b a).

(** [Math.round] and [Math.ceil]. *)
Definition mathRound (x : Q) : Z := Qfloor (x + (1 # 2)).
Definition mathCeil (x : Q) : Z := Qceiling x.

(** Concatenation of the pieces of a template literal. *)
Definition template (pieces : list string) : string := String.concat "" pieces.

(** The property [name] of the object [getSoilDataFromDatabase] returned;
    a name the object does not have reads as [undefined]. *)
Definition soilProperty (s : SoilData) (name : string) : option Q :=
  if String.eqb name "pH" then Some (pH s)
  else if String.eqb name "nitrogen" then Some (nitrogen s)
  else if String.eqb name "organicCarbon" then Some (organicCarbon s)
  else if String.eqb name "cec" then Some (soil_cec s)
  else if String.eqb name "clay" then Some (clay s)
  else if String.eqb name "sand" then Some (sand s)
  else if String.eqb name "silt" then Some (silt s)
  else if String.eqb name "bulkDensity" then Some (bulkDensity s)
  else if String.eqb name "latitude" then Some (soil_latitude s)
  else if String.eqb name "longitude" then Some (soil_longitude s)
  else None.

(** The [Date] and number formatting of the JavaScript runtime, as they
    stand during one synchronous pass. *)
Record JsRuntime : Type := mkJsRuntime {
  JsDate : Type;
  js_newDate : string -> JsDate;            (* [new Date(s)] *)
  js_today : JsDate;                        (* [new Date()] *)
  js_plusDays : JsDate -> Z -> JsDate;      (* [setDate(getDate() + n)] *)
  js_atMidnight : JsDate -> JsDate;         (* [setHours(0, 0, 0, 0)] *)
  js_getTime : JsDate -> option Z;          (* [None] is [NaN] *)
  js_toDateString : JsDate -> string;
  js_toLocaleShort : JsDate -> string;      (* [toLocaleDateString('en-US', ...)] *)
  js_isoDay : JsDate -> string;             (* [toISOString().split('T')[0]] *)
  js_numText : option Q -> string;          (* a number in a template; [None] is [NaN] *)
  js_toFixed : nat -> Q -> string           (* [toFixed(digits)] *)
}.

Section SmartAlertService.

Variable rt : JsRuntime.

Local Abbreviation newDate := (js_newDate rt).
Local Abbreviation today := (js_today rt).
Local Abbreviation plusDays := (js_plusDays rt).
Local Abbreviation atMidnight := (js_atMidnight rt).
Local Abbreviation getTime := (js_getTime rt).
Local Abbreviation toDateString := (js_toDateString rt).
Local Abbreviation toLocaleShort := (js_toLocaleShort rt).
Local Abbreviation isoDay := (js_isoDay rt).
Local Abbreviation numText := (js_numText rt).
Local Abbreviation toFixed := (js_toFixed rt).

Definition formatDate (dateString : string) : string :=
  let date := newDate dateString in
  let tomorrow := plusDays today 1 in
  if String.eqb (toDateString date) (toDateString today) then "Today"
  else if String.eqb (toDateString date) (toDateString tomorrow) then "Tomorrow"
  else toLocaleShort date.

(** [(a.getTime() - b.getTime()) / (1000 * 60 * 60 * 24)]. *)
Definition daysBetween (a b : JsDate rt) : option Q :=
  match getTime a, getTime b with
  | Some t1, Some t2 => Some (inject_Z (t1 - t2) / 86400000)%Q
  | _, _ => None
  end.

Definition getDaysAway (dateString : string) : option Z :=
  option_map mathRound
    (daysBetween (atMidnight (newDate dateString)) (atMidnight today)).

Definition intText (z : option Z) : string := numText (option_map inject_Z z).

Definition cropNames (crops : list CropCycle) : list string := map crop_name crops.

Definition generateRainAlert (d : ForecastDay) (crops : list CropCycle) : SmartAlert :=
  let daysAway := getDaysAway (date d) in
  let timing :=
    match daysAway with
    | Some 0 => "today"
    | Some 1 => "tomorrow"
    | _ => template ["in "; intText daysAway; " days"]
    end in
  mkSmartAlert
    (template ["rain-"; date d])
    weather
    (template ["Rain Expected "; formatDate (date d)])
    (template [numText (Some (daily_chance_of_rain (day d))); "% chance of rain "; timing;
               " ("; intText (Some (mathRound (totalprecip_mm (day d)))); "mm expected). ";
               condition_text (day d); "."])
    (if jsGt (totalprecip_mm (day d)) 20 then High else Medium)
    "Delay pesticide/fungicide application. Postpone irrigation. Ensure proper drainage."
    (cropNames crops)
    (date d)
    (Some d).

Definition generateHeavyRainAlert (d : ForecastDay) (crops : list CropCycle) : SmartAlert :=
  mkSmartAlert
    (template ["heavy-rain-"; date d])
    weather
    (template ["Heavy Rain Alert - "; formatDate (date d)])
    (template ["Heavy rainfall expected: "; numText (Some (totalprecip_mm (day d)));
               "mm. Risk of waterlogging and soil erosion."])
    Critical
    "Check drainage systems. Protect young plants. Avoid field operations. Monitor for fungal diseases."
    (cropNames crops)
    (date d)
    (Some d).

Definition generateHeatAlert (d : ForecastDay) (crops : list CropCycle) : SmartAlert :=
  mkSmartAlert
    (template ["heat-"; date d])
    weather
    (template ["High Temperature Alert - "; formatDate (date d)])
    (template ["Maximum temperature: "; numText (Some (maxtemp_c (day d)));
               "°C. Heat stress risk for crops."])
    (if jsGt (maxtemp_c (day d)) 40 then Critical else High)
    "Increase irrigation frequency. Apply mulch. Provide shade for sensitive crops. Monitor for heat stress."
    (cropNames crops)
    (date d)
    (Some d).

Definition generateColdAlert (d : ForecastDay) (crops : list CropCycle) : SmartAlert :=
  mkSmartAlert
    (template ["cold-"; date d])
    weather
    (template ["Low Temperature Alert - "; formatDate (date d)])
    (template ["Minimum temperature: "; numText (Some (mintemp_c (day d)));
               "°C. Risk of frost damage."])
    (if jsLt (mintemp_c (day d)) 5 then Critical else High)
    "Protect sensitive crops. Consider frost covers. Delay sowing if planned. Monitor for frost damage."
    (cropNames crops)
    (date d)
    (Some d).

Definition generateWindAlert (d : ForecastDay) (crops : list CropCycle) : SmartAlert :=
  mkSmartAlert
    (template ["wind-"; date d])
    weather
    (template ["High Wind Alert - "; formatDate (date d)])
    (template ["Strong winds expected: "; numText (Some (maxwind_kph (day d)));
               " km/h. Risk of crop lodging."])
    (if jsGt (maxwind_kph (day d)) 60 then Critical else High)
    "Stake tall plants. Secure greenhouse structures. Avoid spraying operations. Check for lodging."
    (cropNames crops)
    (date d)
    (Some d).

Definition generateDiseaseRiskAlert (d : ForecastDay) (crops : list CropCycle)
    (diseases : list DiseaseLog) : SmartAlert :=
  let diseaseNames := String.concat ", " (map disease_name diseases) in
  mkSmartAlert
    (template ["disease-risk-"; date d])
    disease
    (template ["Disease Risk Alert - "; formatDate (date d)])
    (template ["High humidity ("; numText (Some (avghumidity (day d)));
               "%) + recent diseases detected. Favorable conditions for disease spread."])
    High
    (template ["Monitor for "; diseaseNames;
               ". Apply preventive fungicides. Improve air circulation. Remove infected plants."])
    (cropNames crops)
    (date d)
    (Some d).

Definition generateIrrigationAlert (d : ForecastDay) (crops : list CropCycle)
    (soilData : option SoilData) : SmartAlert :=
  let sandContent :=
    numOr (match soilData with
           | Some s => soilProperty s "sand_pct"
           | None => None
           end) 0 in
  let drainageSpeed :=
    if jsGt sandContent 60 then "fast"
    else if jsGt sandContent 40 then "moderate" else "slow" in
  mkSmartAlert
    "irrigation-needed"
    irrigation
    "Irrigation Recommended"
    (template ["No significant rain expected for next several days. Soil moisture may be low, especially for ";
               drainageSpeed; "-draining soils."])
    Medium
    (template ["Check soil moisture and water crops if needed. ";
               if String.eqb drainageSpeed "fast"
               then "Water deeply and frequently" else "Water moderately";
               "."])
    (cropNames crops)
    (date d)
    (Some d).

Definition generateUVAlert (d : ForecastDay) : SmartAlert :=
  mkSmartAlert
    (template ["uv-"; date d])
    weather
    (template ["High UV Index - "; formatDate (date d)])
    (template ["UV index: "; numText (Some (uv (day d))); ". Very high sun exposure."])
    Low
    "Wear protective clothing. Apply sunscreen. Work during early morning or late evening."
    []
    (date d)
    (Some d).

Definition generateFertilizerAlert (soilData : SoilData) (crops : list CropCycle)
    : option SmartAlert :=
  let nitrogen := numOr (soilProperty soilData "total_nitrogen") 0 in
  let organicCarbon := numOr (soilProperty soilData "organic_carbon") 0 in
  if jsLt nitrogen (1 # 10) || jsLt organicCarbon 5
  then Some (mkSmartAlert
               "fertilizer-alert"
               fertilizer
               "Soil Nutrient Alert"
               (template ["Low soil nutrients detected. Nitrogen: ";
                          toFixed 1%nat (nitrogen * 1000); " g/kg, Organic Carbon: ";
                          toFixed 1%nat organicCarbon; " g/kg."])
               High
               "Apply nitrogen fertilizer (Urea/DAP). Add organic matter (compost/manure). Consider soil testing."
               (cropNames crops)
               (isoDay today)
               None)
  else None.

Definition harvestAlertFor (crop : CropCycle) : list SmartAlert :=
  if truthy (expected_harvest_date crop)
  then
    let harvestDay := orEmpty (expected_harvest_date crop) in
    match option_map mathCeil (daysBetween (newDate harvestDay) today) with
    | Some daysUntilHarvest =>
        if (0 <? daysUntilHarvest) && (daysUntilHarvest <=? 14)
        then [mkSmartAlert
                (template ["harvest-"; intText (Some (crop_id crop))])
                harvest
                (template ["Harvest Approaching - "; crop_name crop])
                (template ["Expected harvest in "; intText (Some daysUntilHarvest);
                           " days ("; formatDate harvestDay; ")."])
                (if daysUntilHarvest <=? 7 then High else Medium)
                "Prepare harvesting equipment. Arrange labor. Check market prices. Plan storage."
                [crop_name crop]
                harvestDay
                None]
        else []
    | None => []
    end
  else [].

Definition generateHarvestAlerts (crops : list CropCycle) : list SmartAlert :=
  flat_map harvestAlertFor crops.

(** [fillers.push(a)] under [if (fillers.length < needed && cond)]. *)
Definition pushIf (needed : Z) (cond : bool) (a : SmartAlert)
    (fillers : list SmartAlert) : list SmartAlert :=
  if (Z.of_nat (List.length fillers) <? needed) && cond then fillers ++ [a] else fillers.

Definition typeError (what : string) : Exn :=
  JsError (template ["TypeError: Cannot read properties of undefined (reading '"; what; "')"]).

(** [forecast.forecast.forecastday.reduce((sum, day) => sum + day.day.totalprecip_mm, 0)]. *)
Definition weekRainTotal (days : list ForecastDay) : Q :=
  fold_left (fun sum d => sum + totalprecip_mm (day d))%Q days 0%Q.

(** Informational alerts that fill the list up; reading [.day] of a
    missing first or second forecast day throws. *)
Definition generateFillerAlerts (forecast : DetailedWeatherForecast)
    (crops : list CropCycle) (soilData : option SoilData) (currentCount : Z)
    : Prog (list SmartAlert) :=
  let needed := Z.max 0 (4 - currentCount) in
  if needed =? 0 then Ret []
  else
    match forecastday forecast with
    | [] => Throw (typeError "day")
    | [_] => Throw (typeError "day")
    | today_ :: tomorrow :: _ =>
        let fillers := [] in
        let fillers :=
          pushIf needed true
            (mkSmartAlert
               "weather-summary"
               weather
               "Weather Outlook"
               (template ["Current: "; intText (Some (mathRound (avgtemp_c (day today_))));
                          "°C, "; condition_text (day today_);
                          ". Tomorrow: "; intText (Some (mathRound (avgtemp_c (day tomorrow))));
                          "°C, "; condition_text (day tomorrow); "."])
               Low
               "Plan field activities based on weather conditions. Check forecast daily."
               (cropNames crops)
               (date today_)
               (Some today_))
            fillers in
        let fillers :=
          match soilData with
          | Some s =>
              let ph := numOr (soilProperty s "ph_h2o") 7 in
              let phStatus :=
                if jsLt ph 6 then "acidic" else if jsGt ph 8 then "alkaline" else "neutral" in
              pushIf needed true
                (mkSmartAlert
                   "soil-monitoring"
                   soil
                   "Soil Health Check"
                   (template ["Soil pH: "; toFixed 1%nat ph; " ("; phStatus;
                              "). Regular monitoring helps optimize crop growth."])
                   Low
                   "Monitor soil moisture levels. Consider soil testing if crop performance declines."
                   (cropNames crops)
                   (isoDay today)
                   None)
                fillers
          | None => fillers
          end in
        let fillers :=
          pushIf needed (Nat.ltb 0 (List.length crops))
            (mkSmartAlert
               "crop-monitoring"
               pest
               "Regular Crop Inspection"
               (template ["Monitor your "; String.concat ", " (cropNames crops);
                          " for signs of pests, diseases, or nutrient deficiencies."])
               Low
               "Walk through fields daily. Check leaves, stems, and soil. Use AI disease detection for suspicious symptoms."
               (cropNames crops)
               (isoDay today)
               None)
            fillers in
        let fillers :=
          let avgTemp := ((avgtemp_c (day today_) + avgtemp_c (day tomorrow)) / 2)%Q in
          let avgHumidity := ((avghumidity (day today_) + avghumidity (day tomorrow)) / 2)%Q in
          pushIf needed true
            (mkSmartAlert
               "optimal-conditions"
               weather
               "Favorable Growing Conditions"
               (template ["Temperature: "; intText (Some (mathRound avgTemp));
                          "°C, Humidity: "; intText (Some (mathRound avgHumidity));
                          "%. Good conditions for crop growth."])
               Low
               "Good time for routine maintenance, weeding, and field inspections."
               (cropNames crops)
               (date today_)
               (Some today_))
            fillers in
        let fillers :=
          pushIf needed true
            (mkSmartAlert
               "weekly-planning"
               irrigation
               "Week Ahead Planning"
               (template ["Expected rainfall this week: ";
                          intText (Some (mathRound (weekRainTotal (forecastday forecast))));
                          "mm. Plan irrigation and field work accordingly."])
               Low
               "Schedule field activities during dry periods. Prepare for any expected rain."
               (cropNames crops)
               (date today_)
               None)
            fillers in
        Ret (firstn (Z.to_nat needed) fillers)
    end.

(** What one turn of the forecast loop pushes for day [i]. *)
Definition dayAlerts (i : nat) (d : ForecastDay) (crops : list CropCycle)
    (recentDiseases : list DiseaseLog) : list SmartAlert :=
  (if jsGt (totalprecip_mm (day d)) 50 then [generateHeavyRainAlert d crops]
   else if jsGt (daily_chance_of_rain (day d)) 70 && jsGt (totalprecip_mm (day d)) 5
        then [generateRainAlert d crops]
        else [])
  ++ (if jsGt (maxtemp_c (day d)) 35 then [generateHeatAlert d crops] else [])
  ++ (if jsLt (mintemp_c (day d)) 10 then [generateColdAlert d crops] else [])
  ++ (if jsGt (maxwind_kph (day d)) 40 then [generateWindAlert d crops] else [])
  ++ (if Nat.eqb i 0 && jsGt (avghumidity (day d)) 80
         && Nat.ltb 0 (List.length recentDiseases)
      then [generateDiseaseRiskAlert d crops recentDiseases] else [])
  ++ (if Nat.ltb i 2 && jsGt (uv (day d)) 8 then [generateUVAlert d] else []).

(** The variables the forecast loop updates. *)
Record LoopState : Type := mkLoopState {
  alerts : list SmartAlert;
  hasRainInForecast : bool;
  daysWithoutRain : Z
}.

Definition loopBody (i : nat) (d : ForecastDay) (crops : list CropCycle)
    (recentDiseases : list DiseaseLog) (st : LoopState) : LoopState :=
  let rainy := jsGt (daily_chance_of_rain (day d)) 30 || jsGt (totalprecip_mm (day d)) 1 in
  mkLoopState
    (alerts st ++ dayAlerts i d crops recentDiseases)
    (if rainy then true else hasRainInForecast st)
    (if rainy then daysWithoutRain st else daysWithoutRain st + 1).

(** [for (let i = 0; i < forecastday.length; i++)], from index [i] on. *)
Fixpoint forecastLoop (i : nat) (days : list ForecastDay) (crops : list CropCycle)
    (recentDiseases : list DiseaseLog) (st : LoopState) : LoopState :=
  match days with
  | [] => st
  | d :: rest =>
      forecastLoop (S i) rest crops recentDiseases (loopBody i d crops recentDiseases st)
  end.

(** The alerts before the list is topped up, sorted and cut. *)
Definition ruleAlerts (forecast : DetailedWeatherForecast) (crops : list CropCycle)
    (soilData : option SoilData) (recentDiseases : list DiseaseLog) : list SmartAlert :=
  let st := forecastLoop 0 (forecastday forecast) crops recentDiseases
              (mkLoopState [] false 0) in
  let alerts1 := alerts st in
  let alerts2 :=
    if 3 <=? daysWithoutRain st
    then match find (fun d => jsLt (daily_chance_of_rain (day d)) 20
                              && jsLt (totalprecip_mm (day d)) 2)
                    (forecastday forecast) with
         | Some nextDryDay => alerts1 ++ [generateIrrigationAlert nextDryDay crops soilData]
         | None => alerts1
         end
    else alerts1 in
  let alerts3 :=
    match soilData with
    | Some s =>
        match generateFertilizerAlert s crops with
        | Some fertilizerAlert => alerts2 ++ [fertilizerAlert]
        | None => alerts2
        end
    | None => alerts2
    end in
  alerts3 ++ generateHarvestAlerts crops.

(** [alerts.sort((a, b) => priorityOrder[a.priority] - priorityOrder[b.priority])]. *)
Definition sortByPriority (l : list SmartAlert) : list SmartAlert :=
  sortWith (fun a b => priorityOrder (priority a) - priorityOrder (priority b)) l.

Definition sevenDaysMs : Z := 7 * 24 * 60 * 60 * 1000.

Definition generateSmartAlerts (latitude longitude : Q) : Prog (list SmartAlert) :=
  try_catch
    (forecast <- getDetailedForecastByCoordinates latitude longitude 7 ;;
     match forecast with
     | None => Ret []
     | Some forecast =>
         crops <- getActiveCrops ;;
         soilData <- getSoilDataFromDatabase ;;
         user <- getCurrentUser ;;
         recentDiseases <-
           match user with
           | Some u =>
               now <- perform DateNow ;;
               r <- await (DiseaseLogs_SelectForUser (id u) (now - sevenDaysMs)) ;;
               Ret (orNil (data r))
           | None => Ret []
           end ;;
         let alerts := ruleAlerts forecast crops soilData recentDiseases in
         alerts <-
           (if Z.of_nat (List.length alerts) <? 3
            then fillerAlerts <- generateFillerAlerts forecast crops soilData
                                   (Z.of_nat (List.length alerts)) ;;
                 Ret (alerts ++ fillerAlerts)
            else Ret alerts) ;;
         let finalAlerts := firstn 6 (sortByPriority alerts) in
         Ret finalAlerts
     end)
    (fun _ => Ret []).

End SmartAlertService.

(** ** cropAdvisoryAI *)

(** A member marked [?] of an object literal: left out, or present and
    holding [undefined] ([None]) or a value.  A spread copies the members
    that are present, also those holding [undefined]. *)
Inductive Member (T : Type) : Type :=
| Absent
| Present (v : option T).
Arguments Absent {T}.
Arguments Present {T} v.

(** Reading a member: a member left out reads as [undefined]. *)
Definition valueOf {T : Type} (m : Member T) : option T :=
  match m with
  | Absent => None
  | Present v => v
  end.

(** [{ ...base, ...over }], for one member. *)
Definition spread {T : Type} (base over : Member T) : Member T :=
  match over with
  | Absent => base
  | Present _ => over
  end.

Record FarmerProfile : Type := mkFarmerProfile {
  fp_name : Member string;
  fp_location : Member string;
  fp_farmSize : Member Q;
  preferredLanguage : Member Language;
  experienceLevel : Member string
}.

Record SoilNPK : Type := mkSoilNPK {
  npk_nitrogen : Q;
  npk_phosphorus : Q;
  npk_potassium : Q
}.

Record SoilTexture : Type := mkSoilTexture {
  tx_clay : Q;
  tx_sand : Q;
  tx_silt : Q
}.

Record FarmData : Type := mkFarmData {
  fd_farmSize : option Q;
  fd_soilType : option string;
  soilPH : option Q;
  soilNPK : option SoilNPK;
  currentCrop : option string;
  cropStage : option string;
  irrigationType : option string;
  soilOrganicCarbon : option Q;
  soilCEC : option Q;
  soilTexture : option SoilTexture;
  soilBulkDensity : option Q
}.

Record WeatherContext : Type := mkWeatherContext {
  wc_temperature : option Q;
  wc_humidity : option Q;
  wc_rainfall : option Q;
  wc_forecast : option string
}.

(** [FarmerContext].  In the farm data [None] stands for a member that is
    left out or holds [undefined]: the merge of [generateAdvice] drops the
    members of the UI that are [undefined], and nothing downstream spreads
    the farm data again. *)
Record FarmerContext : Type := mkFarmerContext {
  farmerId : string;
  sessionId : string;
  farmerProfile : FarmerProfile;
  farmData : FarmData;
  weatherData : option WeatherContext;
  conversationHistory : option (list (string * string))
}.

(** [Partial<FarmerContext>] as [fetchFarmContext] builds it: empty, or the
    identifier, the profile and the farm data. *)
Record DbContext : Type := mkDbContext {
  db_farmerId : option string;
  db_farmerProfile : option FarmerProfile;
  db_farmData : option FarmData
}.

Definition emptyDbContext : DbContext := mkDbContext None None None.

Record SuggestedAction : Type := mkSuggestedAction {
  action : string;
  action_priority : string;
  timing : string
}.

Record CropAdvisoryResponse : Type := mkCropAdvisoryResponse {
  message : string;
  detectedLanguage : string;
  category : string;
  suggestedActions : list SuggestedAction;
  quickTips : list string;
  followUpQuestions : list string;
  alertLevel : string;
  confidence : Q
}.

Definition languageCode (l : Language) : string :=
  match l with
  | hi => "hi"
  | mr => "mr"
  | te => "te"
  | ta => "ta"
  | en => "en"
  | mixed => "mixed"
  end.

(** The [fallbackMessages] table of [getFallbackResponse]. *)
Definition fallbackMessages (l : Language) : string :=
  match l with
  | hi => "नमस्ते! मैं आपकी खेती में मदद करने के लिए यहाँ हूँ। कृपया अपना सवाल फिर से पूछें।"
  | mr => "नमस्कार! मी तुमच्या शेतीसाठी मदत करण्यासाठी येथे आहे। कृपया तुमचा प्रश्न पुन्हा विचारा।"
  | te => "నమస్కారం! నేను మీ వ్యవసాయంలో సహాయం చేయడానికి ఇక్కడ ఉన్నాను। దయచేసి మీ ప్రశ్నను మళ్లీ అడగండి।"
  | ta => "வணக்கம்! உங்கள் விவசாயத்தில் உதவ நான் இங்கே இருக்கிறேன். தயவுசெய்து உங்கள் கேள்வியை மீண்டும் கேளுங்கள்."
  | en => "Hello! I am here to help with your farming. Please ask your question again."
  | mixed => "नमस्ते! मैं आपकी farming में help करने के लिए यहाँ हूँ। Please ask your question again।"
  end.

(** [context.farmerProfile?.preferredLanguage || 'mixed']. *)
Definition languageOf (context : FarmerContext) : Language :=
  match valueOf (preferredLanguage (farmerProfile context)) with
  | Some l => l
  | None => mixed
  end.

Definition getFallbackResponse (context : FarmerContext) : CropAdvisoryResponse :=
  let language := languageOf context in
  mkCropAdvisoryResponse
    (strOr (Some (fallbackMessages language)) (fallbackMessages mixed))
    (languageCode language)
    "general"
    [mkSuggestedAction "मिट्टी की जांच करें / Check soil health" "medium" "this_week"]
    ["नियमित रूप से खेत का निरीक्षण करें"; "मौसम की जानकारी रखें"]
    ["आप कौन सी फसल उगाना चाहते हैं?"; "आपकी मिट्टी का प्रकार क्या है?"]
    "info"
    (6 # 10).

(** [a ?? b] member by member: what a spread of [b] then [a] leaves. *)
Definition orElse {T : Type} (a b : option T) : option T :=
  match a with
  | Some _ => a
  | None => b
  end.

(** [x || undefined] on an optional number. *)
Definition numOrUndefined (x : option Q) : option Q :=
  match x with
  | Some v => if Qeq_bool v 0 then None else Some v
  | None => None
  end.

(** The merge at the head of [generateAdvice].  The profile is the
    spread of the database profile and then of the profile of the UI, with
    the language set apart ([ui || db || 'mixed']); the farm data are those
    of the database overwritten by the members of the UI that are not
    [undefined]; the identifier is the one of the database when it has
    one. *)
Definition enrichContext (context : FarmerContext) (dbContext : DbContext) : FarmerContext :=
  let dbProfile := db_farmerProfile dbContext in
  let fromDb {T : Type} (f : FarmerProfile -> Member T) : Member T :=
    match dbProfile with Some p => f p | None => Absent end in
  let dbFarm := db_farmData dbContext in
  let farmDb {T : Type} (f : FarmData -> option T) : option T :=
    match dbFarm with Some d => f d | None => None end in
  let ui := farmerProfile context in
  let farm := farmData context in
  mkFarmerContext
    (match db_farmerId dbContext with Some i => i | None => farmerId context end)
    (sessionId context)
    (mkFarmerProfile
       (spread (fromDb fp_name) (fp_name ui))
       (spread (fromDb fp_location) (fp_location ui))
       (spread (fromDb fp_farmSize) (fp_farmSize ui))
       (Present (Some (match orElse (valueOf (preferredLanguage ui))
                               (valueOf (fromDb preferredLanguage)) with
                       | Some l => l
                       | None => mixed
                       end)))
       (spread (fromDb experienceLevel) (experienceLevel ui)))
    (mkFarmData
       (orElse (fd_farmSize farm) (farmDb fd_farmSize))
       (orElse (fd_soilType farm) (farmDb fd_soilType))
       (orElse (soilPH farm) (farmDb soilPH))
       (orElse (soilNPK farm) (farmDb soilNPK))
       (orElse (currentCrop farm) (farmDb currentCrop))
       (orElse (cropStage farm) (farmDb cropStage))
       (orElse (irrigationType farm) (farmDb irrigationType))
       (orElse (soilOrganicCarbon farm) (farmDb soilOrganicCarbon))
       (orElse (soilCEC farm) (farmDb soilCEC))
       (orElse (soilTexture farm) (farmDb soilTexture))
       (orElse (soilBulkDensity farm) (farmDb soilBulkDensity)))
    (weatherData context)
    (conversationHistory context).

(** [imageBase64.includes(',') ? imageBase64.split(',')[1] : imageBase64]. *)
Definition base64Payload (imageBase64 : string) : string :=
  match String.index 0 "," imageBase64 with
  | Some i =>
      let rest := String.substring (S i) (String.length imageBase64 - S i) imageBase64 in
      match String.index 0 "," rest with
      | Some j => String.substring 0 j rest
      | None => rest
      end
  | None => imageBase64
  end.

Definition initializeService : Prog unit :=
  initialized <- perform GetIsInitialized ;;
  if initialized then Ret tt
  else
    try_catch
      (key <- perform GetApiKey ;;
       if String.eqb key "" then perform (SetIsInitialized true) ;; Ret tt
       else
         m <- await (GetGenerativeModel key) ;;
         perform (SetModel m) ;;
         perform (SetIsInitialized true) ;;
         Ret tt)
      (fun _ => perform (SetIsInitialized true) ;; Ret tt).

Definition uploadImageToSupabase (imageBase64 userId : string) : Prog (option string) :=
  try_catch (A := option string)
    (bytes <- await (Atob (base64Payload imageBase64)) ;;
     timestamp <- perform DateNow ;;
     let filename := template ["crop-images/"; userId; "/"; zText timestamp; ".jpg"] in
     r <- await (Storage_Upload filename bytes) ;;
     match error r with
     | Some _ => Ret None
     | None =>
         publicUrl <- await (Storage_GetPublicUrl filename) ;;
         Ret (Some (publicUrl : string))
     end)
    (fun _ => Ret None).

Section CropAdvisoryAI.

Variable rt : JsRuntime.

(** The prompt builders and the reply parser of the class, and
    [String.prototype.trim]; a builder may throw. *)
Variable buildImageAnalysisPrompt : string -> FarmerContext -> result string.
Variable buildFarmingPrompt : string -> FarmerContext -> option string -> result string.
Variable parseResponse : string -> FarmerContext -> CropAdvisoryResponse.
Variable trim : string -> string.

Definition fetchFarmContext : Prog DbContext :=
  try_catch
    (user <- getCurrentUser ;;
     match user with
     | None => Ret emptyDbContext
     | Some u =>
         userReply <- await (Users_SelectProfile (id u)) ;;
         soilReply <- await (FarmSoil_SelectLatest (id u)) ;;
         let latestSoil :=
           match data soilReply with
           | Some (row :: _) => Some row
           | _ => None
           end in
         cropReply <- await (CropCycles_SelectLatestActive (id u)) ;;
         let activeCrop :=
           match data cropReply with
           | Some (row :: _) => Some row
           | _ => None
           end in
         let location :=
           match data userReply with
           | None => "Unknown"
           | Some userData =>
               let locationParts :=
                 (if truthy (up_city userData) then [orEmpty (up_city userData)] else [])
                 ++ (if truthy (up_state userData) then [orEmpty (up_state userData)] else [])
                 ++ (if truthy (up_country userData) then [orEmpty (up_country userData)] else []) in
               if Nat.ltb 0 (List.length locationParts) then String.concat ", " locationParts
               else
                 match numOrUndefined (up_latitude userData),
                       numOrUndefined (up_longitude userData) with
                 | Some la, Some lo =>
                     template [js_toFixed rt 4 la; ", "; js_toFixed rt 4 lo]
                 | _, _ => "Unknown"
                 end
           end in
         let soilField {T : Type} (f : DBSoilData -> option T) : option T :=
           match latestSoil with Some row => f row | None => None end in
         Ret (mkDbContext
                (Some (id u))
                (Some (mkFarmerProfile
                         (Present (Some "Farmer"))
                         (Present (Some location))
                         (Present None)
                         (Present (Some (match data userReply with
                                         | Some userData =>
                                             match preferred_language userData with
                                             | Some l => l
                                             | None => mixed
                                             end
                                         | None => mixed
                                         end)))
                         (Present (Some "intermediate"))))
                (Some (mkFarmData
                         None
                         (Some (strOr (soilField soil_type_name) "Unknown"))
                         (numOrUndefined (soilField ph_level))
                         (Some (mkSoilNPK (numOr (soilField total_nitrogen) 0) 45 180))
                         (match activeCrop with
                          | Some c => orNull (Some (crop_name c))
                          | None => None
                          end)
                         (Some (match activeCrop with
                                | Some c => strOr (Some (current_stage c)) "planning"
                                | None => "planning"
                                end))
                         (Some "drip")
                         (numOrUndefined (soilField organic_carbon))
                         (numOrUndefined (soilField cec))
                         (match latestSoil with
                          | Some row => Some (mkSoilTexture (numOr (clay_pct row) 0)
                                                (numOr (sand_pct row) 0)
                                                (numOr (silt_pct row) 0))
                          | None => None
                          end)
                         (numOrUndefined (soilField bulk_density)))))
     end)
    (fun _ => Ret emptyDbContext).

(** The upload step of [generateAdvice]: the lookup of the user is not
    inside a [try]. *)
Definition storeImage (imageBase64 : option string) : Prog (option string) :=
  if truthy imageBase64
  then user <- getCurrentUser ;;
       match user with
       | Some u => uploadImageToSupabase (orEmpty imageBase64) (id u)
       | None => Ret None
       end
  else Ret None.

(** A builder's result inside the [try]. *)
Definition built (r : result string) : Prog string :=
  match r with
  | Resolved text => Ret text
  | Rejected e => Throw e
  end.

(** Lines 383-477 of [generateAdvice]: the fallback mode and the guarded
    call of the model. *)
Definition adviseWithModel (userQuestion : string) (enrichedContext : FarmerContext)
    (tableSchema imageBase64 : option string) : Prog CropAdvisoryResponse :=
  m <- perform GetModel ;;
  match m with
  | None => Ret (getFallbackResponse enrichedContext)
  | Some m =>
      key <- perform GetApiKey ;;
      if String.eqb key "" then Ret (getFallbackResponse enrichedContext)
      else
        try_catch
          (content <-
             (if truthy imageBase64
              then imagePrompt <- built (buildImageAnalysisPrompt userQuestion enrichedContext) ;;
                   Ret (mkContents imagePrompt imageBase64)
              else textPrompt <- built (buildFarmingPrompt userQuestion enrichedContext tableSchema) ;;
                   Ret (mkContents textPrompt None)) ;;
           generated <- await (GenerateContent m content 25000) ;;
           match response generated with
           | None => Throw (JsError "No response from model")
           | Some (Rejected e) => Throw e
           | Some (Resolved generatedText) =>
               if String.eqb generatedText "" || String.eqb (trim generatedText) ""
               then Throw (JsError "Empty response from model")
               else Ret (parseResponse generatedText enrichedContext)
           end)
          (fun _ => Ret (getFallbackResponse enrichedContext))
  end.

Definition generateAdvice (userQuestion : string) (context : FarmerContext)
    (tableSchema imageBase64 : option string) : Prog CropAdvisoryResponse :=
  initialized <- perform GetIsInitialized ;;
  (if negb initialized then initializeService else Ret tt) ;;
  dbContext <- fetchFarmContext ;;
  let enrichedContext := enrichContext context dbContext in
  imageUrl <- storeImage imageBase64 ;;
  adviseWithModel userQuestion enrichedContext tableSchema imageBase64.

End CropAdvisoryAI.

(** ** A reference environment

    [World] is one environment among all: the tables behind the Supabase
    client with their row-level security, the session, a clock that stands
    still during a call, the module variables, the browser's answer to a
    geolocation request and the forecast the weather API serves.  It has no
    route to the geocoder, the storage bucket or the generative model: those
    requests are rejected. *)

(** [.order(column, { ascending: false })] on a numeric or timestamp column. *)
Definition orderDesc {T : Type} (column : T -> Z) (rows : list T) : list T :=
  sortWith (fun a b => column b - column a) rows.

(** The same on a text or date column. *)
Definition orderDescText {T : Type} (column : T -> string) (rows : list T) : list T :=
  sortWith (fun a b => match String.compare (column b) (column a) with
                       | Lt => -1
                       | Eq => 0
                       | Gt => 1
                       end) rows.

Record World : Type := mkWorld {
  session : option SupabaseUser;
  clock : Z;
  crop_cycles : list CropCycle;
  disease_logs : list DiseaseLog;
  farm_soil_data : list DBSoilData;
  users_profile : option UserProfileRow;   (* the session user's row of [users] *)
  users_location : option LocationUpdate;  (* its location columns *)
  db_error : option PostgrestError;        (* when set, every query is answered with it *)
  geolocation : GeoOutcome;
  weather_feed : option DetailedWeatherForecast;  (* what the weather API serves, if reachable *)
  locationUpdateInProgress : bool;
  permissionDenied : bool;
  lastPermissionCheck : Z;
  isInitialized : bool;
  model : option Model;
  apiKey : string
}.

Definition msPerDay : Z := 86400000.

(** [auth.uid() = owner], the [USING] clause of every policy. *)
Definition visibleTo (w : World) (owner : string) : bool :=
  match session w with
  | Some u => String.eqb (su_id u) owner
  | None => false
  end.

Definition setInactive (c : CropCycle) : CropCycle :=
  mkCropCycle (crop_id c) (crop_name c) (sowing_date c) (expected_harvest_date c)
    (current_stage c) (predicted_yield c) false (user_id c)
    (manual_status c) (manual_status_updated_at c).

Definition setManualStatus (s : CropStatus) (t : Z) (c : CropCycle) : CropCycle :=
  mkCropCycle (crop_id c) (crop_name c) (sowing_date c) (expected_harvest_date c)
    (current_stage c) (predicted_yield c) (is_active c) (user_id c)
    (Some s) (Some t).

(** [update_updated_at_column()] of [supabase-setup.sql], which the
    trigger [update_crop_cycles_updated_at] runs BEFORE UPDATE for each row
    of [crop_cycles]: [NEW.updated_at = NOW(); RETURN NEW].  No declaration
    of [crop_cycles] in the repository has a column [updated_at] (the
    [CREATE TABLE] of supabase-setup.sql, ADD_MANUAL_STATUS_COLUMNS.sql,
    the [CropCycle] interface, the documented schema), so the assignment
    raises and the row is not handed back. *)
Definition update_updated_at_column (new : CropCycle) : PostgrestError + CropCycle :=
  inl (mkPgError "record new has no field updated_at" "42703").

(** The rows of an [UPDATE ... SET ... WHERE ...]: on each row the
    [WHERE] clause and the policy let through, the [SET] clause and then the
    trigger; an error raised on the way aborts the statement. *)
Fixpoint updateRows (selected : CropCycle -> bool) (set : CropCycle -> CropCycle)
    (rows : list CropCycle) : PostgrestError + list CropCycle :=
  match rows with
  | [] => inr []
  | c :: rest =>
      if selected c
      then match update_updated_at_column (set c) with
           | inl e => inl e
           | inr c' =>
               match updateRows selected set rest with
               | inl e => inl e
               | inr rest' => inr (c' :: rest')
               end
           end
      else match updateRows selected set rest with
           | inl e => inl e
           | inr rest' => inr (c :: rest')
           end
  end.

(** [UPDATE crop_cycles SET ... WHERE crop_id = cropId AND user_id = uid],
    under the update policy and the trigger. *)
Definition updateCropCycles (w : World) (cropId : Z) (uid : string)
    (f : CropCycle -> CropCycle) : PostgrestError + list CropCycle :=
  updateRows (fun c => visibleTo w (user_id c) && (crop_id c =? cropId)
                       && String.eqb (user_id c) uid)
    f (crop_cycles w).

Definition withCropCycles (w : World) (rows : list CropCycle) : World :=
  mkWorld (session w) (clock w) rows (disease_logs w) (farm_soil_data w)
    (users_profile w) (users_location w) (db_error w) (geolocation w) (weather_feed w)
    (locationUpdateInProgress w) (permissionDenied w) (lastPermissionCheck w)
    (isInitialized w) (model w) (apiKey w).

Definition withUsersLocation (w : World) (u : LocationUpdate) : World :=
  mkWorld (session w) (clock w) (crop_cycles w) (disease_logs w) (farm_soil_data w)
    (users_profile w) (Some u) (db_error w) (geolocation w) (weather_feed w)
    (locationUpdateInProgress w) (permissionDenied w) (lastPermissionCheck w)
    (isInitialized w) (model w) (apiKey w).

Definition withLocationVars (w : World) (inProgress denied : bool) (lastCheck : Z) : World :=
  mkWorld (session w) (clock w) (crop_cycles w) (disease_logs w) (farm_soil_data w)
    (users_profile w) (users_location w) (db_error w) (geolocation w) (weather_feed w)
    inProgress denied lastCheck
    (isInitialized w) (model w) (apiKey w).

Definition withService (w : World) (init : bool) (m : option Model) : World :=
  mkWorld (session w) (clock w) (crop_cycles w) (disease_logs w) (farm_soil_data w)
    (users_profile w) (users_location w) (db_error w) (geolocation w) (weather_feed w)
    (locationUpdateInProgress w) (permissionDenied w) (lastPermissionCheck w)
    init m (apiKey w).

(** [.single()]: the row when exactly one matches, an error otherwise. *)
Definition single {T : Type} (rows : list T) : PgResponse T :=
  match rows with
  | [r] => mkPgResponse (Some r) None
  | _ => mkPgResponse None
           (Some (mkPgError "JSON object requested, multiple (or no) rows returned" "PGRST116"))
  end.

Definition firstRow {T : Type} (rows : list T) : list T :=
  match rows with
  | [] => []
  | r :: _ => [r]
  end.

Definition world_op (op : Op) (w : World) : OpResp op * World :=
  match op as op' return OpResp op' * World with
  | GetLocationUpdateInProgress => (locationUpdateInProgress w, w)
  | SetLocationUpdateInProgress b =>
      (tt, withLocationVars w b (permissionDenied w) (lastPermissionCheck w))
  | GetPermissionDenied => (permissionDenied w, w)
  | SetPermissionDenied b =>
      (tt, withLocationVars w (locationUpdateInProgress w) b (lastPermissionCheck w))
  | GetLastPermissionCheck => (lastPermissionCheck w, w)
  | SetLastPermissionCheck t =>
      (tt, withLocationVars w (locationUpdateInProgress w) (permissionDenied w) t)
  | DateNow => (clock w, w)
  | NewDateMinusDays n => (clock w - n * msPerDay, w)
  | GetIsInitialized => (isInitialized w, w)
  | SetIsInitialized b => (tt, withService w b (model w))
  | GetModel => (model w, w)
  | SetModel m => (tt, withService w (isInitialized w) (Some m))
  | GetApiKey => (apiKey w, w)
  end.

Definition offline {R : Type} : result R := Rejected (JsError "Failed to fetch").

(** A query against the tables: refused with [db_error] when it is set. *)
Definition query {T : Type} (w : World) (answer : option T) (w' : World)
    : result (PgResponse T) * World :=
  match db_error w with
  | Some e => (Resolved (mkPgResponse None (Some e)), w)
  | None => (Resolved (mkPgResponse answer None), w')
  end.

(** An update of [crop_cycles]: refused with [db_error] when it is set,
    failed with the error the statement raised, done otherwise. *)
Definition cropCyclesUpdate (w : World) (rows : PostgrestError + list CropCycle)
    : result (PgResponse unit) * World :=
  match db_error w with
  | Some e => (Resolved (mkPgResponse None (Some e)), w)
  | None =>
      match rows with
      | inl e => (Resolved (mkPgResponse None (Some e)), w)
      | inr rows' => (Resolved (mkPgResponse None None), withCropCycles w rows')
      end
  end.

Definition world_req (q : Req) (w : World) : result (Resp q) * World :=
  match q as q' return result (Resp q') * World with
  | AuthGetUser => (Resolved (session w), w)
  | NavigatorGeolocation => (Resolved (geolocation w), w)
  | NominatimReverse _ _ => (offline, w)
  | Atob _ => (offline, w)
  | Users_UpdateLocation uid u =>
      query w None (if visibleTo w uid then withUsersLocation w u else w)
  | Users_SelectProfile uid =>
      match db_error w with
      | Some e => (Resolved (mkPgResponse None (Some e)), w)
      | None =>
          (Resolved (single (if visibleTo w uid
                             then match users_profile w with Some r => [r] | None => [] end
                             else [])), w)
      end
  | CropCycles_SelectActive uid =>
      query w (Some (orderDesc crop_id
                       (filter (fun c => visibleTo w (user_id c)
                                         && String.eqb (user_id c) uid
                                         && is_active c)
                               (crop_cycles w)))) w
  | CropCycles_SelectLatestActive uid =>
      query w (Some (firstRow
                       (orderDescText sowing_date
                          (filter (fun c => visibleTo w (user_id c)
                                            && String.eqb (user_id c) uid
                                            && is_active c)
                                  (crop_cycles w))))) w
  | CropCycles_UpdateInactive cropId uid =>
      cropCyclesUpdate w (updateCropCycles w cropId uid setInactive)
  | CropCycles_SelectManualStatus cropId =>
      match db_error w with
      | Some e => (Resolved (mkPgResponse None (Some e)), w)
      | None =>
          (Resolved (single
                       (map (fun c => mkManualStatusRow (manual_status c)
                                        (manual_status_updated_at c))
                            (filter (fun c => visibleTo w (user_id c)
                                              && (crop_id c =? cropId))
                                    (crop_cycles w)))), w)
      end
  | CropCycles_UpdateManualStatus cropId uid s t =>
      cropCyclesUpdate w (updateCropCycles w cropId uid (setManualStatus s t))
  | DiseaseLogs_SelectForCrop cropId since =>
      query w (Some (orderDesc detection_date
                       (filter (fun d => visibleTo w (dl_user_id d)
                                         && match crop_cycle_id d with
                                            | Some c => c =? cropId
                                            | None => false
                                            end
                                         && (since <=? detection_date d))
                               (disease_logs w)))) w
  | DiseaseLogs_SelectForUser uid since =>
      query w (Some (orderDesc detection_date
                       (filter (fun d => visibleTo w (dl_user_id d)
                                         && String.eqb (dl_user_id d) uid
                                         && (since <=? detection_date d))
                               (disease_logs w)))) w
  | FarmSoil_SelectLatest uid =>
      query w (Some (firstRow
                       (orderDesc recorded_at
                          (filter (fun r => visibleTo w (sd_user_id r)
                                            && String.eqb (sd_user_id r) uid)
                                  (farm_soil_data w))))) w
  | Storage_Upload _ _ => (offline, w)
  | Storage_GetPublicUrl _ => (offline, w)
  | WeatherApiForecast _ _ =>
      match weather_feed w with
      | Some f => (Resolved (mkHttpReply true 200 (Resolved f)), w)
      | None => (offline, w)
      end
  | GetGenerativeModel _ => (offline, w)
  | GenerateContent _ _ _ => (offline, w)
  end.

Definition world : Handler World := mkHandler world_op world_req.

(** ** Reading a trace *)

(** The first exchange of a trace that [f] recognises. *)
Fixpoint observe {T : Type} (f : Event -> option T) (tr : list Event) : option T :=
  match tr with
  | [] => None
  | ev :: tr' =>
      match f ev with
      | Some t => Some t
      | None => observe f tr'
      end
  end.

(** Some exchange of the trace satisfies [P]. *)
Fixpoint occurs (P : Event -> Prop) (tr : list Event) : Prop :=
  match tr with
  | [] => False
  | ev :: tr' => P ev \/ occurs P tr'
  end.

(** The response to the manual-status query. *)
Definition manualStatusReply (ev : Event) : option (PgResponse ManualStatusRow) :=
  match ev with
  | Asked q r =>
      match q as q' return result (Resp q') -> option (PgResponse ManualStatusRow) with
      | CropCycles_SelectManualStatus _ =>
          fun r => match r with Resolved m => Some m | Rejected _ => None end
      | _ => fun _ => None
      end r
  | Did _ _ => None
  end.

(** The instant [n] days back that the code computed. *)
Definition daysAgoRead (n : Z) (ev : Event) : option Z :=
  match ev with
  | Did op v =>
      match op as op' return OpResp op' -> option Z with
      | NewDateMinusDays m => fun v => if m =? n then Some v else None
      | _ => fun _ => None
      end v
  | Asked _ _ => None
  end.

(** How the disease-log query of [getCropStatus] settled. *)
Definition diseaseLogsAnswer (ev : Event) : option (result (PgResponse (list DiseaseLog))) :=
  match ev with
  | Asked q r =>
      match q as q' return result (Resp q') -> option (result (PgResponse (list DiseaseLog))) with
      | DiseaseLogs_SelectForCrop _ _ => fun r => Some r
      | _ => fun _ => None
      end r
  | Did _ _ => None
  end.

(** The manual status in force during a run: the stored status, when it
    was stamped after the instant seven days back. *)
Definition manualStatusInForce (tr : list Event) : option CropStatus :=
  match observe manualStatusReply tr with
  | Some m =>
      match data m with
      | Some row =>
          match ms_manual_status row, ms_manual_status_updated_at row,
                observe (daysAgoRead 7) tr with
          | Some s, Some statusDate, Some sevenDaysAgo =>
              if sevenDaysAgo <? statusDate then Some s else None
          | _, _, _ => None
          end
      | None => None
      end
  | None => None
  end.

(** The disease-log query of a run failed: it came back with an
    error member, or the call itself threw. *)
Definition diseaseLogsFailed (tr : list Event) : Prop :=
  match observe diseaseLogsAnswer tr with
  | Some (Resolved reply) => error reply <> None
  | Some (Rejected _) => True
  | None => False
  end.

(** The browser gave no position: geolocation is unsupported or the
    error callback fired. *)
Definition noPosition (ev : Event) : Prop :=
  match ev with
  | Asked q r =>
      match q as q' return result (Resp q') -> Prop with
      | NavigatorGeolocation =>
          fun r => match r with
                   | Resolved GeoUnsupported => True
                   | Resolved (GeoPositionError _) => True
                   | _ => False
                   end
      | _ => fun _ => False
      end r
  | Did _ _ => False
  end.

(** The columns written to [users] and how the update settled. *)
Definition locationSave (ev : Event) : option (LocationUpdate * result (PgResponse unit)) :=
  match ev with
  | Asked q r =>
      match q as q' return result (Resp q') -> option (LocationUpdate * result (PgResponse unit)) with
      | Users_UpdateLocation _ u => fun r => Some (u, r)
      | _ => fun _ => None
      end r
  | Did _ _ => None
  end.

(** The update of [users] came back without an error. *)
Definition locationSaved (tr : list Event) : Prop :=
  match observe locationSave tr with
  | Some (_, Resolved reply) => error reply = None
  | _ => False
  end.

(** ** The event loop around [updateUserLocation]

    JavaScript runs a function without interruption up to its next
    [await]; there it parks the rest of the function until the awaited
    request settles.  Between two such stretches other calls may start and
    other parked functions may resume.  The module variables live in the
    [World]; what the outside answers is arbitrary. *)

(** Where a stretch of execution stops. *)
Inductive Status (A : Type) : Type :=
| Done (o : Outcome A)
| Waiting (q : Req) (k : result (Resp q) -> Prog A).
Arguments Done {A} o.
Arguments Waiting {A} q k.

(** Run up to the next request. *)
Fixpoint advance {A : Type} (p : Prog A) (w : World) : Status A * World :=
  match p with
  | Ret a => (Done (Returned a), w)
  | Throw e => (Done (Threw e), w)
  | Do op k => let (v, w') := world_op op w in advance (k v) w'
  | Vis q k => (Waiting q k, w)
  end.

(** A parked call of [updateUserLocation]: the request it waits for and
    what it does next. *)
Record Task : Type := mkTask {
  awaited : Req;
  resume : result (Resp awaited) -> Prog (option UserLocation)
}.

Record Machine : Type := mkMachine {
  store : World;
  inflight : list Task
}.

(** What a stretch leaves behind: nothing when the call is over, the
    parked rest otherwise. *)
Definition parked (st : Status (option UserLocation)) : list Task :=
  match st with
  | Done _ => []
  | Waiting q k => [mkTask q k]
  end.

(** The outside changed, the module variables did not. *)
Definition sameVars (w w' : World) : Prop :=
  locationUpdateInProgress w' = locationUpdateInProgress w /\
  permissionDenied w' = permissionDenied w /\
  lastPermissionCheck w' = lastPermissionCheck w.

Inductive step : Machine -> Machine -> Prop :=
| step_call (w : World) (ts : list Task) :
    (* somebody calls [updateUserLocation()] *)
    step (mkMachine w ts)
         (mkMachine (snd (advance updateUserLocation w))
                    (ts ++ parked (fst (advance updateUserLocation w))))
| step_settle (w : World) (pre post : list Task) (t : Task)
              (r : result (Resp (awaited t))) :
    (* the request a parked call waits for settles, in whatever way *)
    step (mkMachine w (pre ++ t :: post))
         (mkMachine (snd (advance (resume t r) w))
                    (pre ++ parked (fst (advance (resume t r) w)) ++ post))
| step_reset (w : World) (ts : list Task) :
    (* somebody calls [resetPermissionDenied()] *)
    step (mkMachine w ts) (mkMachine (snd (advance resetPermissionDenied w)) ts)
| step_outside (w w' : World) (ts : list Task) :
    (* time passes, tables and session change *)
    sameVars w w' ->
    step (mkMachine w ts) (mkMachine w' ts).

(** The module is loaded with the flag down and nothing in flight. *)
Inductive reachable : Machine -> Prop :=
| reach_load (w : World) :
    locationUpdateInProgress w = false -> reachable (mkMachine w [])
| reach_step (m m' : Machine) :
    reachable m -> step m m' -> reachable m'.

(** The program is over. *)
Definition Finished {A : Type} (p : Prog A) : Prop :=
  match p with
  | Ret _ | Throw _ => True
  | _ => False
  end.

(** [Holding p]: [p] leaves the in-progress flag alone until it lowers it,
    and lowering it is the last thing it does. *)
Fixpoint Holding {A : Type} (p : Prog A) : Prop :=
  match p with
  | Ret _ => False
  | Throw _ => False
  | Do op k =>
      match op as op' return (OpResp op' -> Prop) -> (OpResp op' -> Prop) -> Prop with
      | SetLocationUpdateInProgress b =>
          fun _ finished => if b then False else forall v, finished v
      | _ => fun holding _ => forall v, holding v
      end (fun v => Holding (k v)) (fun v => Finished (k v))
  | Vis q k => forall r, Holding (k r)
  end.

(** The generative-AI call failed, as seen in the last exchange of a run
    of [generateAdvice]: [this.model] or [this.apiKey] was found unset at
    the fallback check, the generation was rejected (the 25 s timeout or an
    error thrown by the call), it settled without a response, reading the
    text threw, or the text was empty or blank. *)
Definition modelFailure (trim : string -> string) (ev : Event) : Prop :=
  match ev with
  | Did op v =>
      match op as op' return OpResp op' -> Prop with
      | GetModel => fun v => v = None
      | GetApiKey => fun v => v = ""
      | _ => fun _ => False
      end v
  | Asked q r =>
      match q as q' return result (Resp q') -> Prop with
      | GenerateContent _ _ _ =>
          fun r => match r with
                   | Rejected _ => True
                   | Resolved g =>
                       match response g with
                       | None => True
                       | Some (Rejected _) => True
                       | Some (Resolved text) => text = "" \/ trim text = ""
                       end
                   end
      | _ => fun _ => False
      end r
  end.

(** What holds in every reachable state: the flag is up exactly while one
    call is parked, and that call only gives the flag up at its end. *)
Definition OneInFlight (m : Machine) : Prop :=
  (locationUpdateInProgress (store m) = false /\ inflight m = []) \/
  (locationUpdateInProgress (store m) = true /\
   exists t, inflight m = [t] /\ forall r, Holding (resume t r)).

(** ** Sample data *)

Definition farmer : SupabaseUser :=
  mkSupabaseUser "farmer-1" (Some "+919800000001") "2025-01-01T00:00:00Z".

Definition wheat : CropCycle :=
  mkCropCycle 1 "Wheat" "2026-08-01" (Some "2026-11-29") "growing" None true
    "farmer-1" None None.

Definition rice : CropCycle :=
  mkCropCycle 2 "Rice" "2026-07-15" (Some "2026-11-12") "flowering" None true
    "farmer-1" None None.

(** 2026-11-02T12:00:00Z. *)
Definition noon : Z := 1793620800000.

Definition leafRust (s : Severity) (daysBack : Z) : DiseaseLog :=
  mkDiseaseLog "farmer-1" (Some 1) "Leaf Rust" (Some s) (noon - daysBack * msPerDay).

(** A signed-in farmer with two crops, the given disease logs, and a
    browser without geolocation. *)
Definition farm (logs : list DiseaseLog) : World :=
  mkWorld (Some farmer) noon [wheat; rice] logs [] None None None
    GeoUnsupported None false false 0 true None "".

(** The same farm with the database refusing every query. *)
Definition farmDown (logs : list DiseaseLog) : World :=
  mkWorld (Some farmer) noon [wheat; rice] logs [] None None
    (Some (mkPgError "connection refused" "08006"))
    GeoUnsupported None false false 0 true None "".

(** The list is in the order of the priority map. *)
Definition byPriority (a b : SmartAlert) : Prop :=
  priorityOrder (priority a) <= priorityOrder (priority b).

(** The order the claim speaks of, priority by priority: critical before
    high before medium before low. *)
Definition moreUrgent (p q : Priority) : Prop :=
  match p, q with
  | Critical, High | Critical, Medium | Critical, Low => True
  | High, Medium | High, Low => True
  | Medium, Low => True
  | _, _ => False
  end.

(** What every list handed out by [generateSmartAlerts] satisfies. *)
Definition sortedAndCut (l : list SmartAlert) : Prop :=
  StronglySorted byPriority l /\ (List.length l <= 6)%nat.

(** A runtime for the examples: it knows the calendar of the sample week,
    prints whole numbers in decimal and other numbers rounded. *)

(** 2026-11-02T00:00:00Z. *)
Definition midnight : Z := 1793577600000.

Definition sampleCalendar : list (string * Z) :=
  [("2026-11-02", 0); ("2026-11-03", 1); ("2026-11-04", 2); ("2026-11-05", 3);
   ("2026-11-06", 4); ("2026-11-07", 5); ("2026-11-08", 6); ("2026-11-12", 10);
   ("2026-11-29", 27)].

Fixpoint dayNumber (s : string) (calendar : list (string * Z)) : option Z :=
  match calendar with
  | [] => None
  | (name, n) :: rest => if String.eqb s name then Some n else dayNumber s rest
  end.

Definition dayText (d : option Z) : string :=
  match d with
  | Some t => zText ((t - midnight) / msPerDay)
  | None => "Invalid Date"
  end.

Definition sampleRuntime : JsRuntime :=
  mkJsRuntime
    (option Z)
    (fun s => option_map (fun n => midnight + n * msPerDay) (dayNumber s sampleCalendar))
    (Some noon)
    (fun d n => option_map (fun t => t + n * msPerDay) d)
    (fun d => option_map (fun t => t - (t - midnight) mod msPerDay) d)
    (fun d => d)
    dayText
    dayText
    dayText
    (fun q => match q with Some v => zText (mathRound v) | None => "NaN" end)
    (fun _ q => zText (mathRound q)).

Definition sampleDay (name : string) (maxtemp mintemp wind precip humidity chance uvIndex : Q)
    : ForecastDay :=
  mkForecastDay name 0
    (mkDayStats maxtemp mintemp ((maxtemp + mintemp) / 2) wind precip humidity chance
       "Partly cloudy" uvIndex).

(** A day of heavy rain: 60 mm with an 80 % chance. *)
Definition stormy : ForecastDay := sampleDay "2026-11-02" 30 22 20 60 70 80 3.

(** A week of storms, heat and wind. *)
Definition roughWeek : DetailedWeatherForecast :=
  mkForecast "Delhi"
    [sampleDay "2026-11-02" 42 22 65 60 70 80 9;
     sampleDay "2026-11-03" 41 22 62 55 70 90 9;
     sampleDay "2026-11-04" 36 22 45 10 60 75 5;
     sampleDay "2026-11-05" 36 22 20 0 40 10 5;
     sampleDay "2026-11-06" 30 22 20 0 40 10 5;
     sampleDay "2026-11-07" 30 22 20 0 40 10 5;
     sampleDay "2026-11-08" 30 8 20 0 40 10 5].

(** The sample farm with the weather API serving [forecast]. *)
Definition farmWithWeather (forecast : DetailedWeatherForecast) : World :=
  mkWorld (Some farmer) noon [wheat; rice] [] [] None None None
    GeoUnsupported (Some forecast) false false 0 true None "".

(** Stand-ins for the prompt builders, the reply parser and [trim] in the
    examples: the prompt is the question, the reply is the message. *)
Definition questionAsPrompt (userQuestion : string) (_ : FarmerContext) : result string :=
  Resolved userQuestion.

Definition questionAsTextPrompt (userQuestion : string) (_ : FarmerContext)
    (_ : option string) : result string :=
  Resolved userQuestion.

Definition replyAsMessage (generatedText : string) (context : FarmerContext)
    : CropAdvisoryResponse :=
  mkCropAdvisoryResponse generatedText (languageCode (languageOf context)) "general"
    [] [] [] "none" 1.

Definition noTrim (s : string) : string := s.

(** A Tamil-speaking farmer asking from the UI. *)
Definition tamilFarmer : FarmerContext :=
  mkFarmerContext "farmer-1" "session-1"
    (mkFarmerProfile Absent Absent Absent (Present (Some ta)) Absent)
    (mkFarmData None None None None (Some "Rice") None None None None None None)
    None None.

(** The sample farm with the generative model configured; the model itself
    is out of reach. *)
Definition farmWithModel : World :=
  mkWorld (Some farmer) noon [wheat; rice] [] [] None None None
    GeoUnsupported None false false 0 true
    (Some (mkModel "gemini-2.0-flash-exp")) "sample-key".

(** The same farm with Tamil stored as the farmer's language. *)
Definition tamilFarm : World :=
  mkWorld (Some farmer) noon [wheat; rice] [] []
    (Some (mkUserProfileRow None None None None None (Some ta))) None None
    GeoUnsupported None false false 0 true
    (Some (mkModel "gemini-2.0-flash-exp")) "sample-key".

(** A farmer who chose no language in the UI. *)
Definition silentFarmer : FarmerContext :=
  mkFarmerContext "farmer-1" "session-1"
    (mkFarmerProfile Absent Absent Absent Absent Absent)
    (mkFarmData None None None None (Some "Rice") None None None None None None)
    None None.

(** ** Further readings of the reference environment *)

Definition withDiseaseLogs (w : World) (logs : list DiseaseLog) : World :=
  mkWorld (session w) (clock w) (crop_cycles w) logs (farm_soil_data w)
    (users_profile w) (users_location w) (db_error w) (geolocation w) (weather_feed w)
    (locationUpdateInProgress w) (permissionDenied w) (lastPermissionCheck w)
    (isInitialized w) (model w) (apiKey w).

(** Time passes and nothing else changes. *)
Definition withClock (w : World) (t : Z) : World :=
  mkWorld (session w) t (crop_cycles w) (disease_logs w) (farm_soil_data w)
    (users_profile w) (users_location w) (db_error w) (geolocation w) (weather_feed w)
    (locationUpdateInProgress w) (permissionDenied w) (lastPermissionCheck w)
    (isInitialized w) (model w) (apiKey w).

(** The rows the disease-log query of [getCropStatus] selects for a crop:
    the visible logs of that crop cycle from the last 30 days, newest
    first. *)
Definition recentLogs (w : World) (cropId : Z) : list DiseaseLog :=
  orderDesc detection_date
    (filter (fun d => visibleTo w (dl_user_id d)
                      && match crop_cycle_id d with
                         | Some c => c =? cropId
                         | None => false
                         end
                      && (clock w - 30 * msPerDay <=? detection_date d))
            (disease_logs w)).

(** How bad a status is. *)
Definition statusRank (s : CropStatus) : nat :=
  match s with
  | healthy => 0
  | attention => 1
  | critical => 2
  end.

(** The requests a run sent, in order. *)
Definition asked (tr : list Event) : list Req :=
  flat_map (fun ev => match ev with
                      | Asked q _ => [q]
                      | Did _ _ => []
                      end) tr.

(** The sample farm seen without a session. *)
Definition visitor : World :=
  mkWorld None noon [wheat; rice] [] [] None None None
    GeoUnsupported None false false 0 true None "".

(** The user lookup found nobody: it resolved with [null] or was rejected. *)
Definition noUser (r : result (option SupabaseUser)) : Prop :=
  match r with
  | Resolved None => True
  | Resolved (Some _) => False
  | Rejected _ => True
  end.

(** The exchange writes [b] to [locationUpdateInProgress]. *)
Definition flagSet (b : bool) (ev : Event) : Prop :=
  match ev with
  | Did op _ =>
      match op with
      | SetLocationUpdateInProgress b' => b' = b
      | _ => False
      end
  | Asked _ _ => False
  end.

(** How the browser answered the geolocation request of a run. *)
Definition geolocationAnswer (ev : Event) : option (result GeoOutcome) :=
  match ev with
  | Asked q r =>
      match q as q' return result (Resp q') -> option (result GeoOutcome) with
      | NavigatorGeolocation => fun r => Some r
      | _ => fun _ => None
      end r
  | Did _ _ => None
  end.

(** ** Display of a location *)

(** [formatLocation] of [user-location]. *)
Definition formatLocation (rt : JsRuntime) (location : UserLocation) : string :=
  let parts :=
    (if truthy (ul_city location) then [orEmpty (ul_city location)] else [])
    ++ (if truthy (ul_state location) then [orEmpty (ul_state location)] else [])
    ++ (if truthy (ul_country location) then [orEmpty (ul_country location)] else []) in
  if Nat.ltb 0 (List.length parts) then String.concat ", " parts
  else template [js_toFixed rt 4 (ul_latitude location); ", ";
                 js_toFixed rt 4 (ul_longitude location)].

(** [GeolocationService.formatLocation]: [parts.join(', ') || coordinates]. *)
Definition GeolocationService_formatLocation (rt : JsRuntime) (location : LocationData)
    : string :=
  let parts :=
    (if truthy (city location) then [orEmpty (city location)] else [])
    ++ (if truthy (state location) then [orEmpty (state location)] else [])
    ++ (if truthy (country location) then [orEmpty (country location)] else []) in
  strOr (Some (String.concat ", " parts))
    (template [js_toFixed rt 4 (latitude location); ", ";
               js_toFixed rt 4 (longitude location)]).

(** The reverse geocoder did not deliver: the request was rejected, the
    reply was not [ok], or its body could not be read. *)
Definition geocoderFailed (ev : Event) : Prop :=
  match ev with
  | Asked q r =>
      match q as q' return result (Resp q') -> Prop with
      | NominatimReverse _ _ =>
          fun r => match r with
                   | Rejected _ => True
                   | Resolved reply =>
                       ok reply = false \/ exists e, json reply = Rejected e
                   end
      | _ => fun _ => False
      end r
  | Did _ _ => False
  end.

(** ** Readings of the alert rules *)

Definition Priority_eqb (a b : Priority) : bool :=
  match a, b with
  | Critical, Critical | High, High | Medium, Medium | Low, Low => true
  | _, _ => false
  end.

(** The alerts of one priority, in the order of the list. *)
Definition ofPriority (p : Priority) (l : list SmartAlert) : list SmartAlert :=
  filter (fun a => Priority_eqb (priority a) p) l.

(** The weather request brought no forecast: it was rejected, the reply
    was not [ok], or its body could not be read. *)
Definition noForecast (r : result (HttpReply DetailedWeatherForecast)) : Prop :=
  match r with
  | Rejected _ => True
  | Resolved reply => ok reply = false \/ exists e, json reply = Rejected e
  end.

(** A day the forecast loop counts as without rain. *)
Definition withoutRain (d : ForecastDay) : bool :=
  negb (jsGt (daily_chance_of_rain (day d)) 30 || jsGt (totalprecip_mm (day d)) 1).

(** A day the irrigation rule takes as dry. *)
Definition dryDay (d : ForecastDay) : bool :=
  jsLt (daily_chance_of_rain (day d)) 20 && jsLt (totalprecip_mm (day d)) 2.

(** ** Readings of the crop requests *)

(** The user the lookup of a run found. *)
Definition userFound (ev : Event) : option string :=
  match ev with
  | Asked q r =>
      match q as q' return result (Resp q') -> option string with
      | AuthGetUser =>
          fun r => match r with
                   | Resolved (Some u) => Some (su_id u)
                   | _ => None
                   end
      | _ => fun _ => None
      end r
  | Did _ _ => None
  end.

(** An update of [crop_cycles]: the crop and the user it names, and how
    it settled. *)
Definition cropWrite (ev : Event) : option (Z * string * result (PgResponse unit)) :=
  match ev with
  | Asked q r =>
      match q as q' return result (Resp q') -> option (Z * string * result (PgResponse unit)) with
      | CropCycles_UpdateInactive cropId uid => fun r => Some (cropId, uid, r)
      | CropCycles_UpdateManualStatus cropId uid _ _ => fun r => Some (cropId, uid, r)
      | _ => fun _ => None
      end r
  | Did _ _ => None
  end.

(** The update of a run came back without an error. *)
Definition cropWritten (tr : list Event) : Prop :=
  match observe cropWrite tr with
  | Some (_, _, Resolved reply) => error reply = None
  | _ => False
  end.

(** The status and the time a run wrote. *)
Definition statusWrite (ev : Event) : option (CropStatus * Z) :=
  match ev with
  | Asked q _ =>
      match q with
      | CropCycles_UpdateManualStatus _ _ s t => Some (s, t)
      | _ => None
      end
  | Did _ _ => None
  end.

(** What [Date.now()] gave. *)
Definition nowRead (ev : Event) : option Z :=
  match ev with
  | Did op v =>
      match op as op' return OpResp op' -> option Z with
      | DateNow => fun v => Some v
      | _ => fun _ => None
      end v
  | Asked _ _ => None
  end.

(** The exchange leaves the advisory service initialized. *)
Definition initialized (ev : Event) : Prop :=
  match ev with
  | Did op v =>
      match op as op' return OpResp op' -> Prop with
      | GetIsInitialized => fun v => v = true
      | SetIsInitialized b => fun _ => b = true
      | _ => fun _ => False
      end v
  | Asked _ _ => False
  end.

(** ** Readings of the advisory service *)

(** Lines 318-320 of [generateAdvice]:
    [if (!this.isInitialized) await this.initializeService()]. *)
Definition ensureInitialized : Prog unit :=
  initialized <- perform GetIsInitialized ;;
  if negb initialized then initializeService else Ret tt.

(** The farmer's preferred language: the one chosen in the UI, else the
    one the database context carries, else mixed. *)
Definition preferredOf (context : FarmerContext) (dbContext : DbContext) : Language :=
  match valueOf (preferredLanguage (farmerProfile context)) with
  | Some l => l
  | None =>
      match db_farmerProfile dbContext with
      | Some p =>
          match valueOf (preferredLanguage p) with
          | Some l => l
          | None => mixed
          end
      | None => mixed
      end
  end.

(** How the query for the user's row settled. *)
Definition profileAnswer (ev : Event) : option (result (PgResponse UserProfileRow)) :=
  match ev with
  | Asked q r =>
      match q as q' return result (Resp q') -> option (result (PgResponse UserProfileRow)) with
      | Users_SelectProfile _ => fun r => Some r
      | _ => fun _ => None
      end r
  | Did _ _ => None
  end.

(** The language stored for the user, as a run read it: the column
    [preferred_language] of the row, mixed when there is no row or no
    value. *)
Definition storedLanguage (tr : list Event) : Language :=
  match observe profileAnswer tr with
  | Some (Resolved reply) =>
      match data reply with
      | Some row =>
          match preferred_language row with
          | Some l => l
          | None => mixed
          end
      | None => mixed
      end
  | _ => mixed
  end.

(** The exchange is the generation, settled with this text. *)
Definition modelReplied (text : string) (ev : Event) : Prop :=
  match ev with
  | Asked q r =>
      match q as q' return result (Resp q') -> Prop with
      | GenerateContent _ _ _ =>
          fun r => match r with
                   | Resolved g => response g = Some (Resolved text)
                   | Rejected _ => False
                   end
      | _ => fun _ => False
      end r
  | Did _ _ => False
  end.

(** What the answer of a run is, read at its last exchange. *)
Definition answered (parseResponse : string -> FarmerContext -> CropAdvisoryResponse)
    (trim : string -> string) (imageBase64 : option string) (enriched : FarmerContext)
    (ev : Event) (o : Outcome CropAdvisoryResponse) : Prop :=
  match o with
  | Returned a =>
      a = getFallbackResponse enriched \/
      exists text, modelReplied text ev /\ text <> "" /\ trim text <> "" /\
                   a = parseResponse text enriched
  | Threw e => truthy imageBase64 = true /\ ev = Asked AuthGetUser (Rejected e)
  end.

(** [merged] is the context of the UI laid over the context from the
    database, member by member: a profile member the UI has, also one
    holding [undefined], is the UI's, and any other is the database's; a
    farm-data member the UI defines is the UI's, and any other is the
    database's; the language is the farmer's preferred one; the identifier
    is the database's when it has one; the rest is the UI's. *)
Definition mergedOver (context : FarmerContext) (dbContext : DbContext)
    (merged : FarmerContext) : Prop :=
  let profile {T : Type} (member : FarmerProfile -> Member T) : Prop :=
    member (farmerProfile merged)
    = match member (farmerProfile context) with
      | Present v => Present v
      | Absent =>
          match db_farmerProfile dbContext with
          | Some p => member p
          | None => Absent
          end
      end in
  let farm {T : Type} (member : FarmData -> option T) : Prop :=
    member (farmData merged)
    = match member (farmData context) with
      | Some v => Some v
      | None =>
          match db_farmData dbContext with
          | Some d => member d
          | None => None
          end
      end in
  farmerId merged = match db_farmerId dbContext with
                    | Some i => i
                    | None => farmerId context
                    end /\
  sessionId merged = sessionId context /\
  preferredLanguage (farmerProfile merged) = Present (Some (preferredOf context dbContext)) /\
  profile fp_name /\ profile fp_location /\ profile fp_farmSize /\ profile experienceLevel /\
  farm fd_farmSize /\ farm fd_soilType /\ farm soilPH /\ farm soilNPK /\
  farm currentCrop /\ farm cropStage /\ farm irrigationType /\
  farm soilOrganicCarbon /\ farm soilCEC /\ farm soilTexture /\ farm soilBulkDensity /\
  weatherData merged = weatherData context /\
  conversationHistory merged = conversationHistory context.

(** * Properties *)

(** ** The postcondition calculus *)

Lemma Post_run {W A : Type} (h : Handler W) (p : Prog A) :
  forall (Phi : list Event -> Outcome A -> Prop) (w : W),
    Post p Phi -> Phi (trace (run h p w)) (outcome (run h p w)).
Proof.
  induction p as [a | e | op k IH | q k IH]; intros Phi w HP; simpl in *.
  - exact HP.
  - exact HP.
  - destruct (on_op h op w) as [v w']. simpl.
    apply (IH v (fun tr o => Phi (Did op v :: tr) o)). apply HP.
  - destruct (on_req h q w) as [r w']. simpl.
    apply (IH r (fun tr o => Phi (Asked q r :: tr) o)). apply HP.
Qed.

Lemma Post_mono {A : Type} (p : Prog A) :
  forall (Phi Psi : list Event -> Outcome A -> Prop),
    (forall tr o, Phi tr o -> Psi tr o) -> Post p Phi -> Post p Psi.
Proof.
  induction p as [a | e | op k IH | q k IH]; intros Phi Psi Himp HP; simpl in *.
  - auto.
  - auto.
  - intros v. eapply IH; [| apply HP]. intros tr o. apply Himp.
  - intros r. eapply IH; [| apply HP]. intros tr o. apply Himp.
Qed.

(** Sequencing: the continuation runs after a return and extends the trace;
    a throw of the first part is the throw of the whole. *)
Lemma Post_bind {A B : Type} (p : Prog A) (f : A -> Prog B) :
  forall (Phi : list Event -> Outcome B -> Prop),
    Post p (fun tr1 o1 =>
              match o1 with
              | Returned a => Post (f a) (fun tr2 o2 => Phi (tr1 ++ tr2) o2)
              | Threw e => Phi tr1 (Threw e)
              end) ->
    Post (bind p f) Phi.
Proof.
  induction p as [a | e | op k IH | q k IH]; intros Phi HP; simpl in *.
  - exact HP.
  - exact HP.
  - intros v. apply IH. exact (HP v).
  - intros r. apply IH. exact (HP r).
Qed.

Lemma Post_try_catch {A : Type} (p : Prog A) (h : Exn -> Prog A) :
  forall (Phi : list Event -> Outcome A -> Prop),
    Post p (fun tr1 o1 =>
              match o1 with
              | Returned a => Phi tr1 (Returned a)
              | Threw e => Post (h e) (fun tr2 o2 => Phi (tr1 ++ tr2) o2)
              end) ->
    Post (try_catch p h) Phi.
Proof.
  induction p as [a | e | op k IH | q k IH]; intros Phi HP; simpl in *.
  - exact HP.
  - exact HP.
  - intros v. apply IH. exact (HP v).
  - intros r. apply IH. exact (HP r).
Qed.

Lemma Post_try_finally {A : Type} (p : Prog A) (f : Prog unit) :
  forall (Phi : list Event -> Outcome A -> Prop),
    Post p (fun tr1 o1 =>
              Post f (fun tr2 o2 =>
                        match o2 with
                        | Returned _ => Phi (tr1 ++ tr2) o1
                        | Threw e => Phi (tr1 ++ tr2) (Threw e)
                        end)) ->
    Post (try_finally p f) Phi.
Proof.
  induction p as [a | e | op k IH | q k IH]; intros Phi HP; simpl in *.
  - apply Post_bind. eapply Post_mono; [| exact HP].
    intros tr [[] | e]; simpl; auto. rewrite app_nil_r. auto.
  - apply Post_bind. eapply Post_mono; [| exact HP].
    intros tr [[] | e']; simpl; auto. rewrite app_nil_r. auto.
  - intros v. apply IH. exact (HP v).
  - intros r. apply IH. exact (HP r).
Qed.

(** Any program satisfies the trivial postcondition. *)
Lemma Post_top {A : Type} (p : Prog A) : Post p (fun _ _ => True).
Proof.
  induction p as [a | e | op k IH | q k IH]; simpl; auto.
Qed.

(** ** getCropStatus *)

Lemma statusFromLogs_critical (d : option (list DiseaseLog)) :
  (2 <= List.length (orNil d))%nat \/ Exists (fun l => severity l = Some severe) (orNil d) ->
  statusFromLogs d = critical.
Proof.
  destruct d as [logs |]; simpl.
  - intros [Hlen | Hsev].
    + destruct logs as [| a [| b l]]; simpl in *; try lia. reflexivity.
    + destruct logs as [| a [| b l]]; simpl.
      * inversion Hsev.
      * inversion Hsev as [x l' Ha | x l' Ha]; subst.
        -- unfold hasSeverity. rewrite Ha. reflexivity.
        -- inversion Ha.
      * reflexivity.
  - intros [Hlen | Hsev]; [lia | inversion Hsev].
Qed.

Lemma statusFromLogs_attention (d : option (list DiseaseLog)) (l : DiseaseLog) :
  orNil d = [l] -> severity l = Some mild \/ severity l = Some moderate ->
  statusFromLogs d = attention.
Proof.
  destruct d as [logs |]; simpl; intros Hl Hs; [subst logs | discriminate].
  simpl. unfold hasSeverity. destruct Hs as [Hs | Hs]; rewrite Hs; reflexivity.
Qed.

Lemma statusFromLogs_healthy (d : option (list DiseaseLog)) :
  orNil d = [] -> statusFromLogs d = healthy.
Proof.
  destruct d as [logs |]; simpl; intros Hl; [subst logs |]; reflexivity.
Qed.

Lemma getCropStatus_post (crop : CropCycle) :
  Post (getCropStatus crop)
    (fun tr o =>
       match manualStatusInForce tr with
       | Some s => o = Returned s /\ observe diseaseLogsAnswer tr = None
       | None =>
           match observe diseaseLogsAnswer tr with
           | Some (Resolved reply) =>
               match error reply with
               | None => o = Returned (statusFromLogs (data reply))
               | Some _ => o = Returned healthy
               end
           | _ => o = Returned healthy
           end
       end).
Proof.
  unfold getCropStatus, manualStatusInForce. simpl.
  intros [m | e]; simpl; [| reflexivity].
  destruct (data m) as [row |]; simpl.
  - destruct (ms_manual_status row) as [s |]; simpl.
    + destruct (ms_manual_status_updated_at row) as [t |]; simpl.
      * intros d. destruct (d <? t); simpl; [split; reflexivity |].
        intros d30 [r | e]; simpl; [| reflexivity].
        destruct (error r); reflexivity.
      * intros d30 [r | e]; simpl; [| reflexivity].
        destruct (error r); reflexivity.
    + intros d30 [r | e]; simpl; [| reflexivity].
      destruct (error r); reflexivity.
  - intros d30 [r | e]; simpl; [| reflexivity].
    destruct (error r); reflexivity.
Qed.

(** C1.  For a crop with no unexpired manual status, [getCropStatus]
    classifies by thresholds on the rows the disease-log query (last 30
    days) returned: critical for at least two rows or a severe one,
    attention for exactly one row that is mild or moderate, healthy for no
    row. *)
Theorem getCropStatus_thresholds
    (W : Type) (h : Handler W) (w : W) (crop : CropCycle)
    (reply : PgResponse (list DiseaseLog)) :
  let r := run h (getCropStatus crop) w in
  manualStatusInForce (trace r) = None ->
  observe diseaseLogsAnswer (trace r) = Some (Resolved reply) ->
  error reply = None ->
  let logs := orNil (data reply) in
  ((2 <= List.length logs)%nat \/ Exists (fun d => severity d = Some severe) logs ->
   outcome r = Returned critical) /\
  (forall d, logs = [d] -> severity d = Some mild \/ severity d = Some moderate ->
   outcome r = Returned attention) /\
  (logs = [] -> outcome r = Returned healthy).
Proof.
  intros r Hmanual Hlogs Herr logs.
  pose proof (Post_run h (getCropStatus crop) _ w (getCropStatus_post crop)) as HP.
  fold r in HP. cbv beta in HP.
  rewrite Hmanual, Hlogs, Herr in HP. rewrite HP.
  split; [| split].
  - intros H. f_equal. apply statusFromLogs_critical. exact H.
  - intros d Hd Hs. f_equal. eapply statusFromLogs_attention; eauto.
  - intros Hnil. f_equal. apply statusFromLogs_healthy. exact Hnil.
Qed.

(** C5.  When the disease-log query fails, [getCropStatus] returns
    [healthy], whatever the crop and the error. *)
Theorem getCropStatus_query_failure
    (W : Type) (h : Handler W) (w : W) (crop : CropCycle) :
  let r := run h (getCropStatus crop) w in
  diseaseLogsFailed (trace r) -> outcome r = Returned healthy.
Proof.
  intros r Hfail.
  pose proof (Post_run h (getCropStatus crop) _ w (getCropStatus_post crop)) as HP.
  fold r in HP. cbv beta in HP. unfold diseaseLogsFailed in Hfail.
  destruct (manualStatusInForce (trace r)) as [s |].
  - destruct HP as [_ Hnone]. rewrite Hnone in Hfail. contradiction.
  - destruct (observe diseaseLogsAnswer (trace r)) as [[reply | e] |]; try assumption.
    + destruct (error reply); [assumption | congruence].
Qed.

(** C4, as amended.  With no unexpired manual status in force, two runs
    whose disease-log queries settle alike return the same status, whatever
    else differs; an unexpired manual status is returned as it is. *)
Theorem getCropStatus_depends_on_logs_unless_overridden
    (W1 W2 : Type) (h1 : Handler W1) (h2 : Handler W2) (w1 : W1) (w2 : W2)
    (crop : CropCycle) :
  let r1 := run h1 (getCropStatus crop) w1 in
  let r2 := run h2 (getCropStatus crop) w2 in
  (manualStatusInForce (trace r1) = None ->
   manualStatusInForce (trace r2) = None ->
   observe diseaseLogsAnswer (trace r1) = observe diseaseLogsAnswer (trace r2) ->
   outcome r1 = outcome r2) /\
  (forall s, manualStatusInForce (trace r1) = Some s -> outcome r1 = Returned s).
Proof.
  intros r1 r2.
  pose proof (Post_run h1 (getCropStatus crop) _ w1 (getCropStatus_post crop)) as HP1.
  pose proof (Post_run h2 (getCropStatus crop) _ w2 (getCropStatus_post crop)) as HP2.
  fold r1 in HP1. fold r2 in HP2. cbv beta in HP1, HP2.
  split.
  - intros H1 H2 Heq. rewrite H1 in HP1. rewrite H2 in HP2. rewrite <- Heq in HP2.
    destruct (observe diseaseLogsAnswer (trace r1)) as [[reply | e] |];
      try (destruct (error reply)); congruence.
  - intros s Hs. rewrite Hs in HP1. apply HP1.
Qed.

(** On the sample farm: old and unrated logs do not count, one mild log
    calls for attention. *)
Example getCropStatus_samples :
  outcome (run world (getCropStatus wheat) (farm [])) = Returned healthy /\
  outcome (run world (getCropStatus wheat) (farm [leafRust mild 3])) = Returned attention /\
  outcome (run world (getCropStatus wheat) (farm [leafRust severe 3])) = Returned critical /\
  outcome (run world (getCropStatus wheat) (farm [leafRust unknown 3])) = Returned healthy /\
  outcome (run world (getCropStatus wheat) (farm [leafRust severe 40])) = Returned healthy /\
  outcome (run world (getCropStatus rice) (farm [leafRust severe 3])) = Returned healthy.
Proof. vm_compute. repeat split. Qed.

(** Two mild logs within the month on the sample farm: critical. *)
Lemma getCropStatus_thresholds_witness :
  outcome (run world (getCropStatus wheat) (farm [leafRust mild 3; leafRust mild 10]))
  = Returned critical.
Proof.
  refine (proj1 (getCropStatus_thresholds World world
                   (farm [leafRust mild 3; leafRust mild 10]) wheat
                   (mkPgResponse (Some [leafRust mild 3; leafRust mild 10]) None)
                   _ _ _) _).
  - vm_compute. reflexivity.
  - vm_compute. reflexivity.
  - reflexivity.
  - left. simpl. lia.
Defined.

(** The database refuses the query although a severe log is stored:
    healthy. *)
Lemma getCropStatus_query_failure_witness :
  outcome (run world (getCropStatus wheat) (farmDown [leafRust severe 1]))
  = Returned healthy.
Proof.
  apply (getCropStatus_query_failure World world (farmDown [leafRust severe 1]) wheat).
  vm_compute. discriminate.
Defined.

(** C4 fails as stated: a manual status stored on the crop changes what
    is answered for it although the disease logs stay what they were. *)
Lemma getCropStatus_not_a_function_of_logs :
  ~ (forall (w1 w2 : World) (crop : CropCycle),
        disease_logs w1 = disease_logs w2 ->
        outcome (run world (getCropStatus crop) w1)
        = outcome (run world (getCropStatus crop) w2)).
Proof.
  intros H.
  specialize (H (farm [])
                (withCropCycles (farm []) [setManualStatus critical noon wheat; rice])
                wheat eq_refl).
  vm_compute in H. discriminate H.
Qed.

(** A manual status on the rice does not change the status of the wheat. *)
Lemma getCropStatus_depends_on_logs_unless_overridden_witness :
  outcome (run world (getCropStatus wheat) (farm [leafRust moderate 2]))
  = outcome (run world (getCropStatus wheat)
               (withCropCycles (farm [leafRust moderate 2])
                  [wheat; setManualStatus critical noon rice])).
Proof.
  apply (proj1 (getCropStatus_depends_on_logs_unless_overridden World World world world
                  (farm [leafRust moderate 2])
                  (withCropCycles (farm [leafRust moderate 2])
                     [wheat; setManualStatus critical noon rice])
                  wheat)).
  - vm_compute. reflexivity.
  - vm_compute. reflexivity.
  - vm_compute. reflexivity.
Defined.

(** ** Sorting *)

Lemma In_insertWith {T : Type} (cmp : T -> T -> Z) (x y : T) (l : list T) :
  In y (insertWith cmp x l) <-> y = x \/ In y l.
Proof.
  induction l as [| z l IH]; simpl.
  - intuition.
  - destruct (cmp x z <=? 0); simpl; rewrite ?IH; intuition.
Qed.


(** ** markCropAsHarvested *)


(** An update that selects no row goes through and changes nothing. *)
Lemma updateRows_none (selected : CropCycle -> bool) (set : CropCycle -> CropCycle)
    (rows : list CropCycle) :
  (forall c, In c rows -> selected c = false) ->
  updateRows selected set rows = inr rows.
Proof.
  induction rows as [| x rows IH]; simpl; intros Hnone; [reflexivity |].
  rewrite (Hnone x (or_introl eq_refl)).
  rewrite IH; [reflexivity |]. intros c Hc. apply Hnone. right. exact Hc.
Qed.




(** ** updateUserLocation *)

(** Take the environment's next answer, or split on what the code
    inspects. *)
Ltac post_split :=
  simpl;
  match goal with
  | |- forall r : result _, _ => intros [? | ?]
  | |- forall b : bool, _ => intros []
  | |- forall o : option _, _ => intros [? | ]
  | |- forall g : GeoOutcome, _ => intros [| ? ? ? | ?]
  | |- forall _, _ => intro
  | |- context [match error ?x with _ => _ end] => destruct (error x) eqn:?
  | |- context [match json ?x with _ => _ end] => destruct (json x) eqn:?
  | |- context [if ok ?x then _ else _] => destruct (ok x) eqn:?
  | |- context [if negb (ok ?x) then _ else _] => destruct (ok x) eqn:?
  | |- context [match ?x with _ => _ end] => is_var x; destruct x
  | |- context [if ?x <? ?y then _ else _] => destruct (x <? y) eqn:?
  end.

Lemma updateUserLocation_post :
  Post updateUserLocation
    (fun tr o =>
       occurs noPosition tr ->
       (forall u a, observe locationSave tr = Some (u, a) ->
                    u = mkLocationUpdate 28.6872 77.2140 1000
                          (Some "Delhi") (Some "Delhi") (Some "India")
                          (lu_location_updated_at u)) /\
       (locationSaved tr ->
        exists stamp,
          o = Returned (Some (mkUserLocation 28.6872 77.2140 (Some 1000%Q)
                                (Some "Delhi") (Some "Delhi") (Some "India")
                                (Some stamp)))) /\
       (~ locationSaved tr -> o = Returned None)).
Proof.
  unfold updateUserLocation, cooldownActive, locateAndSave, getCurrentLocation,
    reverseGeocode, saveLocationToDatabase, getCurrentUser, locationSaved.
  repeat post_split.
  all: try tauto.
  all: split; [| split].
  all: try (intros u a Hobs; try discriminate Hobs;
            injection Hobs as <- <-; reflexivity).
  all: try (intros Hsaved; try discriminate Hsaved; try contradiction;
            eexists; reflexivity).
  all: try (intros Hnot; try reflexivity; exfalso; apply Hnot;
            first [assumption | reflexivity]).
Qed.

(** C10, as amended.  When the browser gives no position to a call of
    [updateUserLocation] (a signed-in user was found before it was asked),
    the coordinates sent to the database are the fixed Delhi fallback; when
    that save comes back without error the call returns the fallback
    location with the time of return, and otherwise it returns [null]. *)
Theorem updateUserLocation_fallback (W : Type) (h : Handler W) (w : W) :
  let r := run h updateUserLocation w in
  occurs noPosition (trace r) ->
  (forall u a, observe locationSave (trace r) = Some (u, a) ->
               u = mkLocationUpdate 28.6872 77.2140 1000
                     (Some "Delhi") (Some "Delhi") (Some "India")
                     (lu_location_updated_at u)) /\
  (locationSaved (trace r) ->
   exists stamp,
     outcome r = Returned (Some (mkUserLocation 28.6872 77.2140 (Some 1000%Q)
                                   (Some "Delhi") (Some "Delhi") (Some "India")
                                   (Some stamp)))) /\
  (~ locationSaved (trace r) -> outcome r = Returned None).
Proof.
  intros r. exact (Post_run h updateUserLocation _ w updateUserLocation_post).
Qed.

(** On the sample farm, whose browser has no geolocation, the call returns
    the Delhi fallback. *)
Lemma updateUserLocation_fallback_witness :
  exists stamp,
    outcome (run world updateUserLocation (farm []))
    = Returned (Some (mkUserLocation 28.6872 77.2140 (Some 1000%Q)
                        (Some "Delhi") (Some "Delhi") (Some "India")
                        (Some stamp))).
Proof.
  refine (proj1 (proj2 (updateUserLocation_fallback World world (farm []) _)) _).
  - vm_compute. tauto.
  - vm_compute. reflexivity.
Defined.

(** C10 fails as stated: with a signed-in user and no geolocation, a
    database that refuses the save makes the call return [null]. *)
Lemma updateUserLocation_fallback_can_return_null :
  ~ (forall (w : World) (u : SupabaseUser),
        session w = Some u ->
        geolocation w = GeoUnsupported ->
        locationUpdateInProgress w = false ->
        permissionDenied w = false ->
        exists stamp,
          outcome (run world updateUserLocation w)
          = Returned (Some (toUserLocation fallbackLocation stamp))).
Proof.
  intros H.
  destruct (H (farmDown []) farmer eq_refl eq_refl eq_refl eq_refl) as [stamp Hout].
  vm_compute in Hout. discriminate Hout.
Qed.

(** ** The in-progress flag *)

Lemma advance_holding {A : Type} (p : Prog A) :
  forall w : World,
    Holding p ->
    locationUpdateInProgress w = true ->
    match advance p w with
    | (Done _, w') => locationUpdateInProgress w' = false
    | (Waiting q k, w') =>
        locationUpdateInProgress w' = true /\ forall r, Holding (k r)
    end.
Proof.
  induction p as [a | e | op k IH | q k IH]; intros w Hh Hflag; simpl in *.
  - contradiction.
  - contradiction.
  - destruct op; simpl in *; try (apply IH; [apply Hh | assumption]).
    destruct b; [contradiction |].
    specialize (Hh tt). destruct (k tt); simpl in *; try contradiction; reflexivity.
  - split; assumption.
Qed.

Lemma updateUserLocation_when_busy (w : World) :
  locationUpdateInProgress w = true ->
  advance updateUserLocation w = (Done (Returned None), w).
Proof.
  intros Hflag. unfold updateUserLocation. simpl. rewrite Hflag. reflexivity.
Qed.

Ltac holding_split :=
  simpl;
  match goal with
  | |- True => exact I
  | |- forall r : result _, _ => intros [? | ?]
  | |- forall o : option _, _ => intros [? | ]
  | |- forall g : GeoOutcome, _ => intros [| ? ? ? | ?]
  | |- forall _, _ => intro
  | |- context [match error ?x with _ => _ end] => destruct (error x)
  | |- context [match json ?x with _ => _ end] => destruct (json x)
  | |- context [if ok ?x then _ else _] => destruct (ok x)
  | |- context [if negb (ok ?x) then _ else _] => destruct (ok x)
  | |- context [match ?x with _ => _ end] => is_var x; destruct x
  end.

Lemma updateUserLocation_when_free (w : World) :
  locationUpdateInProgress w = false ->
  match advance updateUserLocation w with
  | (Done o, w') => o = Returned None /\ locationUpdateInProgress w' = false
  | (Waiting q k, w') =>
      locationUpdateInProgress w' = true /\ forall r, Holding (k r)
  end.
Proof.
  intros Hflag.
  unfold updateUserLocation, cooldownActive, locateAndSave, getCurrentLocation,
    reverseGeocode, saveLocationToDatabase, getCurrentUser.
  simpl. rewrite Hflag. simpl.
  destruct (permissionDenied w); simpl.
  - destruct (clock w - lastPermissionCheck w <? PERMISSION_CHECK_COOLDOWN); simpl.
    + split; [reflexivity | assumption].
    + split; [reflexivity |]. repeat holding_split.
  - split; [reflexivity |]. repeat holding_split.
Qed.

Lemma singleton_split {T : Type} (t x : T) (pre post : list T) :
  [t] = pre ++ x :: post -> pre = [] /\ post = [] /\ x = t.
Proof.
  destruct pre as [| a [| b pre]]; simpl; intros H.
  - injection H as -> <-. auto.
  - injection H as _ H. discriminate.
  - injection H as _ H. discriminate.
Qed.

Lemma step_keeps_OneInFlight (m m' : Machine) :
  OneInFlight m -> step m m' -> OneInFlight m'.
Proof.
  intros Hinv Hstep. destruct Hstep as [w ts | w pre post t r | w ts | w w' ts Hsame];
    unfold OneInFlight in *; cbn [store inflight] in *.
  - destruct Hinv as [[Hflag Hts] | [Hflag [t [Hts Hh]]]].
    + subst ts. pose proof (updateUserLocation_when_free w Hflag) as H.
      destruct (advance updateUserLocation w) as [[o | q k] w1]; simpl in *.
      * left. split; [apply H | reflexivity].
      * right. split; [apply H |]. eexists. split; [reflexivity |]. apply H.
    + rewrite (updateUserLocation_when_busy w Hflag). simpl. rewrite app_nil_r.
      right. split; [assumption |]. exists t. auto.
  - destruct Hinv as [[Hflag Hts] | [Hflag [t0 [Hts Hh]]]].
    + destruct pre; discriminate.
    + symmetry in Hts. apply singleton_split in Hts. destruct Hts as [-> [-> ->]].
      pose proof (advance_holding (resume t0 r) w (Hh r) Hflag) as H.
      destruct (advance (resume t0 r) w) as [[o | q k] w1]; simpl in *.
      * left. split; [exact H | reflexivity].
      * right. split; [apply H |]. eexists. split; [reflexivity |]. apply H.
  - exact Hinv.
  - destruct Hsame as [Hflag _]. rewrite Hflag. exact Hinv.
Qed.

Lemma reachable_OneInFlight (m : Machine) : reachable m -> OneInFlight m.
Proof.
  induction 1 as [w Hflag | m m' Hreach IH Hstep].
  - left. auto.
  - eapply step_keeps_OneInFlight; eauto.
Qed.

(** C8.  In every reachable state of the guard-flag machine at most one
    location update is in flight: a call made while the flag is up returns
    [null] on the spot, parks nothing and changes nothing; the flag is up
    exactly while a call is parked; and whenever the parked call ends, by
    return or by throw, the flag is down again. *)
Theorem at_most_one_location_update (m : Machine) :
  reachable m ->
  (List.length (inflight m) <= 1)%nat /\
  (locationUpdateInProgress (store m) = true ->
   advance updateUserLocation (store m) = (Done (Returned None), store m)) /\
  (locationUpdateInProgress (store m) = true <-> inflight m <> []) /\
  (forall pre t post r o w',
      inflight m = pre ++ t :: post ->
      advance (resume t r) (store m) = (Done o, w') ->
      locationUpdateInProgress w' = false).
Proof.
  intros Hreach. apply reachable_OneInFlight in Hreach.
  destruct Hreach as [[Hflag Hts] | [Hflag [t [Hts Hh]]]].
  - rewrite Hts, Hflag. simpl. repeat split.
    + lia.
    + discriminate.
    + discriminate.
    + intros H. now contradiction H.
    + intros pre t post r o w' H. destruct pre; discriminate.
  - rewrite Hts, Hflag. simpl. repeat split.
    + lia.
    + intros _. apply updateUserLocation_when_busy. exact Hflag.
    + discriminate.
    + intros pre t' post r o w' Hsplit Hadv.
      apply singleton_split in Hsplit. destruct Hsplit as [-> [-> ->]].
      pose proof (advance_holding (resume t r) (store m) (Hh r) Hflag) as H.
      rewrite Hadv in H. exact H.
Qed.

(** After a first call on the sample farm one update is parked, and a
    second call returns [null] at once. *)
Lemma at_most_one_location_update_witness :
  let m := mkMachine (snd (advance updateUserLocation (farm [])))
                     (parked (fst (advance updateUserLocation (farm [])))) in
  List.length (inflight m) = 1%nat /\
  advance updateUserLocation (store m) = (Done (Returned None), store m).
Proof.
  pose proof (at_most_one_location_update _
                (reach_step _ _ (reach_load (farm []) eq_refl)
                   (step_call (farm []) []))) as H.
  split.
  - vm_compute. reflexivity.
  - apply (proj1 (proj2 H)). vm_compute. reflexivity.
Defined.

(** ** Outcomes that do not depend on the trace *)

Lemma Ensures_run {W A : Type} (h : Handler W) (p : Prog A) (P : Outcome A -> Prop) (w : W) :
  Ensures p P -> P (outcome (run h p w)).
Proof.
  intros H. exact (Post_run h p _ w H).
Qed.

(** Whatever the first part returns, the rest ensures [P]; and [P] accepts
    a throw. *)
Lemma Ensures_bind_any {A B : Type} (p : Prog A) (f : A -> Prog B) (P : Outcome B -> Prop) :
  (forall a, Ensures (f a) P) ->
  (forall e, P (Threw e)) ->
  Ensures (bind p f) P.
Proof.
  intros Hf He. unfold Ensures. apply Post_bind.
  eapply Post_mono; [| apply Post_top].
  intros tr [a | e] _; simpl.
  - apply Hf.
  - apply He.
Qed.

(** [try { p } catch { return d }] always returns, and what it returns
    satisfies [P] when the returns of [p] and [d] do. *)
Lemma Ensures_catch_default {A : Type} (p : Prog A) (d : A) (P : A -> Prop) :
  Ensures p (fun o => match o with Returned a => P a | Threw _ => True end) ->
  P d ->
  Ensures (try_catch p (fun _ => Ret d)) (fun o => exists a, o = Returned a /\ P a).
Proof.
  intros Hp Hd. unfold Ensures. apply Post_try_catch.
  eapply Post_mono; [| exact Hp].
  intros tr [a | e] H; simpl; eauto.
Qed.

(** ** Sorted lists *)

Section Sorting.

Variable T : Type.
Variable key : T -> Z.

Let cmp (a b : T) : Z := key a - key b.
Let le (a b : T) : Prop := key a <= key b.

Lemma insertWith_sorted (x : T) (l : list T) :
  StronglySorted le l -> StronglySorted le (insertWith cmp x l).
Proof.
  induction l as [| y l IH]; simpl; intros Hs.
  - constructor; [constructor | constructor].
  - inversion Hs as [| y' l' Hl Hy]; subst.
    destruct (cmp x y <=? 0) eqn:Hc.
    + apply Z.leb_le in Hc. unfold cmp in Hc.
      constructor; [exact Hs |].
      constructor; [unfold le; lia |].
      eapply Forall_impl; [| exact Hy]. unfold le. intros a Ha. lia.
    + apply Z.leb_gt in Hc. unfold cmp in Hc.
      constructor; [apply IH; exact Hl |].
      apply Forall_forall. intros a Ha. apply In_insertWith in Ha.
      destruct Ha as [-> | Ha].
      * unfold le. lia.
      * rewrite Forall_forall in Hy. apply Hy. exact Ha.
Qed.

Lemma sortWith_sorted (l : list T) : StronglySorted le (sortWith cmp l).
Proof.
  induction l as [| x l IH]; simpl.
  - constructor.
  - apply insertWith_sorted. exact IH.
Qed.

Lemma firstn_subset (n : nat) (l : list T) (a : T) :
  In a (firstn n l) -> In a l.
Proof.
  revert l. induction n as [| n IH]; intros [| x l]; simpl; try tauto.
  intros [-> | Ha]; [left; reflexivity | right; apply IH; exact Ha].
Qed.

Lemma firstn_sorted (n : nat) (l : list T) :
  StronglySorted le l -> StronglySorted le (firstn n l).
Proof.
  revert l. induction n as [| n IH]; intros l Hs; simpl.
  - constructor.
  - destruct l as [| x l]; [constructor |].
    inversion Hs as [| x' l' Hl Hx]; subst.
    constructor; [apply IH; exact Hl |].
    apply Forall_forall. intros a Ha.
    rewrite Forall_forall in Hx. apply Hx.
    eapply firstn_subset; exact Ha.
Qed.

(** In a sorted list, an element with a smaller key stands before any
    element with a larger one. *)
Lemma sorted_precedes (l : list T) :
  StronglySorted le l ->
  forall i j a b,
    nth_error l i = Some a -> nth_error l j = Some b ->
    key a < key b -> (i < j)%nat.
Proof.
  induction 1 as [| x l Hs IH Hx]; intros i j a b Hi Hj Hlt.
  - destruct i; discriminate.
  - destruct i as [| i], j as [| j]; simpl in *.
    + injection Hi as ->. injection Hj as ->. lia.
    + lia.
    + injection Hj as ->. apply nth_error_In in Hi.
      rewrite Forall_forall in Hx. specialize (Hx a Hi). unfold le in Hx. lia.
    + apply -> Nat.succ_lt_mono. eapply IH; eauto.
Qed.

End Sorting.

(** ** generateSmartAlerts *)

Lemma sortedAndCut_final (l : list SmartAlert) :
  sortedAndCut (firstn 6 (sortByPriority l)).
Proof.
  split.
  - apply (firstn_sorted SmartAlert (fun a => priorityOrder (priority a))).
    apply (sortWith_sorted SmartAlert (fun a => priorityOrder (priority a))).
  - apply firstn_le_length.
Qed.

Lemma sortedAndCut_nil : sortedAndCut [].
Proof.
  split; [constructor | simpl; lia].
Qed.

Lemma generateSmartAlerts_ensures (rt : JsRuntime) (latitude longitude : Q) :
  Ensures (generateSmartAlerts rt latitude longitude)
    (fun o => exists l, o = Returned l /\ sortedAndCut l).
Proof.
  unfold generateSmartAlerts.
  apply Ensures_catch_default; [| apply sortedAndCut_nil].
  apply Ensures_bind_any; [| trivial].
  intros [forecast |]; [| exact sortedAndCut_nil].
  apply Ensures_bind_any; [| trivial]. intros crops.
  apply Ensures_bind_any; [| trivial]. intros soilData.
  apply Ensures_bind_any; [| trivial]. intros user.
  apply Ensures_bind_any; [| trivial]. intros recentDiseases.
  apply Ensures_bind_any; [| trivial]. intros alerts.
  apply sortedAndCut_final.
Qed.

(** C2.  Whatever the forecast, the crops, the soil data and the recent
    diseases, [generateSmartAlerts] returns a list in the order of the
    priority map: every critical alert stands before every high one, every
    high one before every medium one, every medium one before every low
    one. *)
Theorem generateSmartAlerts_sorted_by_priority
    (rt : JsRuntime) (W : Type) (h : Handler W) (w : W) (latitude longitude : Q) :
  exists l,
    outcome (run h (generateSmartAlerts rt latitude longitude) w) = Returned l /\
    StronglySorted byPriority l /\
    (forall i j a b,
        nth_error l i = Some a -> nth_error l j = Some b ->
        priorityOrder (priority a) < priorityOrder (priority b) ->
        (i < j)%nat) /\
    (forall i j a b,
        nth_error l i = Some a -> nth_error l j = Some b ->
        moreUrgent (priority a) (priority b) ->
        (i < j)%nat) /\
    (forall i j a b,
        nth_error l i = Some a -> nth_error l j = Some b -> (i < j)%nat ->
        (priority b = Critical -> priority a = Critical) /\
        (priority b = High -> priority a = Critical \/ priority a = High) /\
        (priority a = Low -> priority b = Low) /\
        (priority a = Medium -> priority b = Medium \/ priority b = Low)).
Proof.
  destruct (Ensures_run h _ _ w (generateSmartAlerts_ensures rt latitude longitude))
    as [l [Hout [Hsorted _]]].
  pose proof (sorted_precedes SmartAlert (fun a => priorityOrder (priority a)) l Hsorted)
    as Hbefore.
  assert (Hurgent : forall i j a b,
             nth_error l i = Some a -> nth_error l j = Some b ->
             moreUrgent (priority a) (priority b) -> (i < j)%nat).
  { intros i j a b Hi Hj Hu. apply (Hbefore i j a b Hi Hj).
    destruct (priority a), (priority b); simpl in *; try contradiction; lia. }
  exists l. split; [exact Hout |]. split; [exact Hsorted |].
  split; [exact Hbefore |]. split; [exact Hurgent |].
  intros i j a b Hi Hj Hij.
  assert (Hnot : ~ moreUrgent (priority b) (priority a)).
  { intros Hu. pose proof (Hurgent j i b a Hj Hi Hu). lia. }
  destruct (priority a), (priority b); simpl in Hnot;
    repeat split; intros H; try discriminate H; try tauto.
Qed.

(** C9.  Whatever the inputs, [generateSmartAlerts] returns at most six
    alerts. *)
Theorem generateSmartAlerts_at_most_six
    (rt : JsRuntime) (W : Type) (h : Handler W) (w : W) (latitude longitude : Q) :
  exists l,
    outcome (run h (generateSmartAlerts rt latitude longitude) w) = Returned l /\
    (List.length l <= 6)%nat.
Proof.
  destruct (Ensures_run h _ _ w (generateSmartAlerts_ensures rt latitude longitude))
    as [l [Hout [_ Hlen]]].
  exists l. split; assumption.
Qed.

(** The rules give fifteen alerts for the rough week; six are handed out,
    the critical ones first. *)
Example ruleAlerts_roughWeek :
  List.length (ruleAlerts sampleRuntime roughWeek [wheat; rice] None []) = 15%nat.
Proof. vm_compute. reflexivity. Qed.

Example generateSmartAlerts_roughWeek :
  option_map (map (fun a => (alert_id a, priority a)))
    (match outcome (run world (generateSmartAlerts sampleRuntime 28.6 77.2)
                      (farmWithWeather roughWeek)) with
     | Returned l => Some l
     | Threw _ => None
     end)
  = Some [("heavy-rain-2026-11-02", Critical); ("heat-2026-11-02", Critical);
          ("wind-2026-11-02", Critical); ("heavy-rain-2026-11-03", Critical);
          ("heat-2026-11-03", Critical); ("wind-2026-11-03", Critical)].
Proof. vm_compute. reflexivity. Qed.

(** ** The rules of one forecast day *)

Lemma jsGt_spec (a b : Q) : jsGt a b = true <-> (b < a)%Q.
Proof.
  unfold jsGt. rewrite negb_true_iff. split.
  - intros H. apply Qnot_le_lt. intros Hle.
    apply Qle_bool_iff in Hle. congruence.
  - intros H. destruct (Qle_bool a b) eqn:Hle; [| reflexivity].
    apply Qle_bool_iff in Hle. exfalso. exact (Qlt_not_le _ _ H Hle).
Qed.

Lemma jsLt_spec (a b : Q) : jsLt a b = true <-> (a < b)%Q.
Proof.
  unfold jsLt. apply jsGt_spec.
Qed.

Lemma In_if_singleton {T : Type} (c : bool) (a b : T) :
  In a (if c then [b] else []) <-> c = true /\ a = b.
Proof.
  destruct c; simpl; intuition congruence.
Qed.

(** Two alerts with different identifiers are different alerts. *)
Ltac id_clash :=
  match goal with
  | H : _ = _ :> SmartAlert |- _ =>
      apply (f_equal alert_id) in H; simpl in H; discriminate H
  end.

(** Membership in the pushes of one loop turn, rule by rule. *)
Lemma In_dayAlerts (rt : JsRuntime) (i : nat) (d : ForecastDay) (crops : list CropCycle)
    (recentDiseases : list DiseaseLog) (a : SmartAlert) :
  In a (dayAlerts rt i d crops recentDiseases) <->
  (jsGt (totalprecip_mm (day d)) 50 = true /\ a = generateHeavyRainAlert rt d crops) \/
  (jsGt (totalprecip_mm (day d)) 50 = false /\
   jsGt (daily_chance_of_rain (day d)) 70 && jsGt (totalprecip_mm (day d)) 5 = true /\
   a = generateRainAlert rt d crops) \/
  (jsGt (maxtemp_c (day d)) 35 = true /\ a = generateHeatAlert rt d crops) \/
  (jsLt (mintemp_c (day d)) 10 = true /\ a = generateColdAlert rt d crops) \/
  (jsGt (maxwind_kph (day d)) 40 = true /\ a = generateWindAlert rt d crops) \/
  (Nat.eqb i 0 && jsGt (avghumidity (day d)) 80 && Nat.ltb 0 (List.length recentDiseases) = true /\
   a = generateDiseaseRiskAlert rt d crops recentDiseases) \/
  (Nat.ltb i 2 && jsGt (uv (day d)) 8 = true /\ a = generateUVAlert rt d).
Proof.
  unfold dayAlerts. rewrite !in_app_iff, !In_if_singleton.
  destruct (jsGt (totalprecip_mm (day d)) 50); [| rewrite In_if_singleton];
    simpl; intuition congruence.
Qed.

(** The forecast loop pushes, day after day, what [dayAlerts] gives. *)
Lemma forecastLoop_alerts (rt : JsRuntime) (days : list ForecastDay) (crops : list CropCycle)
    (recentDiseases : list DiseaseLog) :
  forall (i : nat) (st : LoopState) (a : SmartAlert),
    In a (alerts (forecastLoop rt i days crops recentDiseases st)) <->
    In a (alerts st) \/
    exists k d, nth_error days k = Some d /\
                In a (dayAlerts rt (i + k) d crops recentDiseases).
Proof.
  induction days as [| d days IH]; intros i st a; simpl.
  - split; [auto |]. intros [H | [k [d [Hk _]]]]; [exact H |]. destruct k; discriminate.
  - rewrite IH. unfold loopBody at 1. simpl. rewrite in_app_iff. split.
    + intros [[H | H] | [k [d' [Hk H]]]].
      * left. exact H.
      * right. exists 0%nat, d. rewrite Nat.add_0_r. auto.
      * right. exists (S k), d'. rewrite Nat.add_succ_r. auto.
    + intros [H | [[| k] [d' [Hk H]]]].
      * left. left. exact H.
      * simpl in Hk. injection Hk as <-. rewrite Nat.add_0_r in H. left. right. exact H.
      * simpl in Hk. right. exists k, d'. rewrite Nat.add_succ_r in H. auto.
Qed.

(** C3, as amended.  In one turn of the forecast loop the heat, cold and
    wind alerts are each pushed exactly when their own field passes its
    threshold, and the UV alert exactly when the UV index does on one of the
    first two days; the heavy-rain alert is pushed exactly when more than
    50 mm are expected, and the regular rain alert only when the heavy-rain
    alert is not: never both. *)
Theorem dayAlerts_thresholds (rt : JsRuntime) (i : nat) (d : ForecastDay)
    (crops : list CropCycle) (recentDiseases : list DiseaseLog) :
  let pushed a := In a (dayAlerts rt i d crops recentDiseases) in
  (pushed (generateHeavyRainAlert rt d crops) <-> (50 < totalprecip_mm (day d))%Q) /\
  (pushed (generateRainAlert rt d crops) <->
   ~ (50 < totalprecip_mm (day d))%Q /\
   (70 < daily_chance_of_rain (day d))%Q /\ (5 < totalprecip_mm (day d))%Q) /\
  (pushed (generateHeatAlert rt d crops) <-> (35 < maxtemp_c (day d))%Q) /\
  (pushed (generateColdAlert rt d crops) <-> (mintemp_c (day d) < 10)%Q) /\
  (pushed (generateWindAlert rt d crops) <-> (40 < maxwind_kph (day d))%Q) /\
  (pushed (generateUVAlert rt d) <-> (i < 2)%nat /\ (8 < uv (day d))%Q) /\
  ~ (pushed (generateHeavyRainAlert rt d crops) /\ pushed (generateRainAlert rt d crops)).
Proof.
  intros pushed. unfold pushed.
  assert (Hheavy : In (generateHeavyRainAlert rt d crops) (dayAlerts rt i d crops recentDiseases)
                   <-> (50 < totalprecip_mm (day d))%Q).
  { rewrite In_dayAlerts, <- jsGt_spec. split.
    - intros H. decompose [or and] H; try assumption; id_clash.
    - intros H. left. split; [exact H | reflexivity]. }
  assert (Hrain : In (generateRainAlert rt d crops) (dayAlerts rt i d crops recentDiseases)
                  <-> ~ (50 < totalprecip_mm (day d))%Q /\
                      (70 < daily_chance_of_rain (day d))%Q /\
                      (5 < totalprecip_mm (day d))%Q).
  { rewrite In_dayAlerts, <- !jsGt_spec. split.
    - intros H. decompose [or and] H; try id_clash.
      match goal with Hc : _ && _ = true |- _ => apply andb_true_iff in Hc; destruct Hc end.
      repeat split; try assumption. congruence.
    - intros [Hno [Hc Hp]]. right. left. repeat split.
      + destruct (jsGt (totalprecip_mm (day d)) 50); [contradiction Hno |]; reflexivity.
      + rewrite Hc, Hp. reflexivity. }
  assert (Hheat : In (generateHeatAlert rt d crops) (dayAlerts rt i d crops recentDiseases)
                  <-> (35 < maxtemp_c (day d))%Q).
  { rewrite In_dayAlerts, <- jsGt_spec. split.
    - intros H. decompose [or and] H; try assumption; id_clash.
    - intros H. do 2 right. left. auto. }
  assert (Hcold : In (generateColdAlert rt d crops) (dayAlerts rt i d crops recentDiseases)
                  <-> (mintemp_c (day d) < 10)%Q).
  { rewrite In_dayAlerts, <- jsLt_spec. split.
    - intros H. decompose [or and] H; try assumption; id_clash.
    - intros H. do 3 right. left. auto. }
  assert (Hwind : In (generateWindAlert rt d crops) (dayAlerts rt i d crops recentDiseases)
                  <-> (40 < maxwind_kph (day d))%Q).
  { rewrite In_dayAlerts, <- jsGt_spec. split.
    - intros H. decompose [or and] H; try assumption; id_clash.
    - intros H. do 4 right. left. auto. }
  assert (Huv : In (generateUVAlert rt d) (dayAlerts rt i d crops recentDiseases)
                <-> (i < 2)%nat /\ (8 < uv (day d))%Q).
  { rewrite In_dayAlerts, <- jsGt_spec, <- Nat.ltb_lt, <- andb_true_iff. split.
    - intros H. decompose [or and] H; try assumption; id_clash.
    - intros H. do 6 right. auto. }
  repeat (split; [assumption |]).
  intros [H1 H2]. apply Hheavy in H1. apply Hrain in H2. tauto.
Qed.

(** C3 fails as stated: on a day with 60 mm of rain at an 80 % chance the
    heavy-rain alert is pushed and the regular rain alert is not. *)
Lemma heavy_rain_day_has_no_rain_alert :
  ~ (forall (rt : JsRuntime) (i : nat) (d : ForecastDay) (crops : list CropCycle)
            (recentDiseases : list DiseaseLog),
        (50 < totalprecip_mm (day d))%Q ->
        (70 < daily_chance_of_rain (day d))%Q ->
        In (generateHeavyRainAlert rt d crops) (dayAlerts rt i d crops recentDiseases) /\
        In (generateRainAlert rt d crops) (dayAlerts rt i d crops recentDiseases)).
Proof.
  intros H.
  destruct (H sampleRuntime 0%nat stormy [wheat] [] eq_refl eq_refl) as [_ Hrain].
  apply In_dayAlerts in Hrain.
  vm_compute in Hrain.
  decompose [or and] Hrain; discriminate.
Qed.

(** ** generateAdvice *)

Lemma last_event_app (tr1 tr2 : list Event) :
  tr2 <> [] -> last_event (tr1 ++ tr2) = last_event tr2.
Proof.
  intros Hne. induction tr1 as [| ev tr1 IH]; simpl; [reflexivity |].
  rewrite IH. destruct (tr1 ++ tr2) eqn:Happ; [| reflexivity].
  apply app_eq_nil in Happ. destruct Happ as [_ ->]. contradiction.
Qed.

(** Sequencing for properties of the last exchange: the second part always
    talks to the environment, so its last exchange is the last of all;
    when the first part throws, its own last exchange counts. *)
Lemma Post_bind_last {A B : Type} (p : Prog A) (f : A -> Prog B)
    (Psi : Event -> Outcome B -> Prop) :
  Post p (fun tr1 o1 =>
            match o1 with
            | Returned a =>
                Post (f a) (fun tr2 o2 =>
                              tr2 <> [] /\ forall ev, last_event tr2 = Some ev -> Psi ev o2)
            | Threw e =>
                tr1 <> [] /\ forall ev, last_event tr1 = Some ev -> Psi ev (Threw e)
            end) ->
  Post (bind p f) (fun tr o => tr <> [] /\ forall ev, last_event tr = Some ev -> Psi ev o).
Proof.
  intros HP. apply Post_bind. eapply Post_mono; [| exact HP].
  intros tr1 [a | e] H; simpl in *.
  - eapply Post_mono; [| exact H].
    intros tr2 o2 [Hne Hlast]. split.
    + intros Happ. apply app_eq_nil in Happ. destruct Happ as [_ ->]. contradiction.
    + rewrite last_event_app by exact Hne. exact Hlast.
  - exact H.
Qed.

Lemma Post_total_bind_last {A B : Type} (p : Prog A) (f : A -> Prog B)
    (Psi : Event -> Outcome B -> Prop) :
  Total p ->
  (forall a, Post (f a) (fun tr2 o2 =>
                           tr2 <> [] /\ forall ev, last_event tr2 = Some ev -> Psi ev o2)) ->
  Post (bind p f) (fun tr o => tr <> [] /\ forall ev, last_event tr = Some ev -> Psi ev o).
Proof.
  intros Htotal Hf. apply Post_bind_last.
  eapply Post_mono; [| exact Htotal].
  intros tr o [a ->]. apply Hf.
Qed.

Lemma Total_catch_default {A : Type} (p : Prog A) (d : A) :
  Total (try_catch p (fun _ => Ret d)).
Proof.
  unfold Total. apply Post_try_catch.
  eapply Post_mono; [| apply Post_top].
  intros tr [a | e] _; simpl; eauto.
Qed.

Lemma Total_initializeService : Total initializeService.
Proof.
  unfold Total, initializeService. simpl. intros [].
  - simpl. eauto.
  - simpl. intros key. destruct (String.eqb key ""); simpl.
    + intros []. eauto.
    + intros [m | e]; simpl; intros; eauto.
Qed.

Lemma fallback_message (context : FarmerContext) :
  message (getFallbackResponse context) = fallbackMessages (languageOf context).
Proof.
  unfold getFallbackResponse. simpl. destruct (languageOf context); reflexivity.
Qed.

Lemma languageOf_enrichContext (context : FarmerContext) (dbContext : DbContext) (l : Language) :
  valueOf (preferredLanguage (farmerProfile context)) = Some l ->
  languageOf (enrichContext context dbContext) = l.
Proof.
  intros H. unfold languageOf, enrichContext. simpl. rewrite H. reflexivity.
Qed.

Section GenerateAdvice.

Variable rt : JsRuntime.
Variable buildImageAnalysisPrompt : string -> FarmerContext -> result string.
Variable buildFarmingPrompt : string -> FarmerContext -> option string -> result string.
Variable parseResponse : string -> FarmerContext -> CropAdvisoryResponse.
Variable trim : string -> string.

Lemma adviseWithModel_post (userQuestion : string) (enrichedContext : FarmerContext)
    (tableSchema imageBase64 : option string) :
  Post (adviseWithModel buildImageAnalysisPrompt buildFarmingPrompt parseResponse trim
          userQuestion enrichedContext tableSchema imageBase64)
    (fun tr o =>
       tr <> [] /\
       forall ev, last_event tr = Some ev ->
                  modelFailure trim ev ->
                  o = Returned (getFallbackResponse enrichedContext)).
Proof.
  unfold adviseWithModel. simpl.
  intros [m |]; simpl.
  2: { split; [discriminate |]. reflexivity. }
  intros key. destruct (String.eqb key "") eqn:Hkey; simpl.
  { split; [discriminate |]. reflexivity. }
  assert (Hkey' : key <> "") by (apply String.eqb_neq; exact Hkey).
  destruct (truthy imageBase64); simpl.
  - destruct (buildImageAnalysisPrompt userQuestion enrichedContext) as [text | e]; simpl.
    + intros [g | e]; simpl; [| split; [discriminate | reflexivity]].
      destruct (response g) as [[generated | e] |] eqn:Hresp; simpl;
        try (split; [discriminate | reflexivity]).
      destruct (String.eqb generated "" || String.eqb (trim generated) "") eqn:Hblank; simpl.
      * split; [discriminate | reflexivity].
      * split; [discriminate |]. intros ev Hev Hfail. injection Hev as <-.
        simpl in Hfail. rewrite Hresp in Hfail.
        apply orb_false_iff in Hblank. destruct Hblank as [H1 H2].
        apply String.eqb_neq in H1. apply String.eqb_neq in H2. tauto.
    + split; [discriminate |]. intros ev Hev Hfail. injection Hev as <-.
      simpl in Hfail. contradiction.
  - destruct (buildFarmingPrompt userQuestion enrichedContext tableSchema) as [text | e]; simpl.
    + intros [g | e]; simpl; [| split; [discriminate | reflexivity]].
      destruct (response g) as [[generated | e] |] eqn:Hresp; simpl;
        try (split; [discriminate | reflexivity]).
      destruct (String.eqb generated "" || String.eqb (trim generated) "") eqn:Hblank; simpl.
      * split; [discriminate | reflexivity].
      * split; [discriminate |]. intros ev Hev Hfail. injection Hev as <-.
        simpl in Hfail. rewrite Hresp in Hfail.
        apply orb_false_iff in Hblank. destruct Hblank as [H1 H2].
        apply String.eqb_neq in H1. apply String.eqb_neq in H2. tauto.
    + split; [discriminate |]. intros ev Hev Hfail. injection Hev as <-.
      simpl in Hfail. contradiction.
Qed.

(** When the upload step throws, what it last heard was the auth provider. *)
Lemma storeImage_post (imageBase64 : option string) :
  Post (storeImage imageBase64)
    (fun tr o =>
       match o with
       | Returned _ => True
       | Threw _ =>
           tr <> [] /\ forall ev, last_event tr = Some ev -> ~ modelFailure trim ev
       end).
Proof.
  unfold storeImage.
  assert (Hup : forall uid, Total (uploadImageToSupabase (orEmpty imageBase64) uid))
    by (intros uid; apply Total_catch_default).
  revert Hup. generalize (uploadImageToSupabase (orEmpty imageBase64)). intros upload Hup.
  destruct (truthy imageBase64); simpl; [| exact I].
  intros [[u |] | e]; simpl.
  - eapply Post_mono; [| apply Hup].
    intros tr o [a ->]. exact I.
  - exact I.
  - split; [discriminate |]. intros ev Hev. injection Hev as <-. simpl. tauto.
Qed.

(** What follows the merge: the upload step and the guarded call of the
    model. *)
Lemma afterMerge_post (userQuestion : string) (enrichedContext : FarmerContext)
    (tableSchema imageBase64 : option string) :
  Post (storeImage imageBase64 ;;
        adviseWithModel buildImageAnalysisPrompt buildFarmingPrompt parseResponse trim
          userQuestion enrichedContext tableSchema imageBase64)
    (fun tr o =>
       tr <> [] /\
       forall ev, last_event tr = Some ev ->
                  modelFailure trim ev ->
                  o = Returned (getFallbackResponse enrichedContext)).
Proof.
  change (Post ?p _) with
    (Post p (fun tr o =>
               tr <> [] /\
               forall ev, last_event tr = Some ev ->
                 (fun ev o => modelFailure trim ev ->
                              o = Returned (getFallbackResponse enrichedContext)) ev o)).
  apply Post_bind_last.
  eapply Post_mono; [| apply storeImage_post].
  intros tr1 [imageUrl | e] H.
  - apply adviseWithModel_post.
  - destruct H as [Hne Hlast]. split; [exact Hne |].
    intros ev Hev Hfail. exfalso. eapply Hlast; eauto.
Qed.

End GenerateAdvice.

(** ** The parts of a run of [generateAdvice] *)

Lemma run_bind {W A B : Type} (h : Handler W) (p : Prog A) (f : A -> Prog B) (w : W) :
  run h (bind p f) w
  = match outcome (run h p w) with
    | Returned a =>
        let rest := run h (f a) (final (run h p w)) in
        mkRun (outcome rest) (final rest) (trace (run h p w) ++ trace rest)
    | Threw e => mkRun (Threw e) (final (run h p w)) (trace (run h p w))
    end.
Proof.
  revert w. induction p as [a | e | op k IH | q k IH]; intros w; simpl.
  - destruct (run h (f a) w); reflexivity.
  - reflexivity.
  - destruct (on_op h op w) as [v w']. rewrite IH.
    destruct (outcome (run h (k v) w')); reflexivity.
  - destruct (on_req h q w) as [r w']. rewrite IH.
    destruct (outcome (run h (k r) w')); reflexivity.
Qed.

Lemma Total_run {W A : Type} (h : Handler W) (p : Prog A) (w : W) :
  Total p -> exists a, outcome (run h p w) = Returned a.
Proof.
  intros H. exact (Post_run h p _ w H).
Qed.

Lemma Total_ensureInitialized : Total ensureInitialized.
Proof.
  unfold Total, ensureInitialized. simpl. intros [].
  - simpl. eauto.
  - apply Total_initializeService.
Qed.

(** A run of [generateAdvice] is a run of the set-up, then of
    [fetchFarmContext], then of the rest on the context merged with what
    [fetchFarmContext] returned. *)
Lemma generateAdvice_run
    (rt : JsRuntime)
    (buildImageAnalysisPrompt : string -> FarmerContext -> result string)
    (buildFarmingPrompt : string -> FarmerContext -> option string -> result string)
    (parseResponse : string -> FarmerContext -> CropAdvisoryResponse)
    (trim : string -> string)
    (W : Type) (h : Handler W) (w : W)
    (userQuestion : string) (context : FarmerContext)
    (tableSchema imageBase64 : option string) :
  let started := run h ensureInitialized w in
  let fetched := run h (fetchFarmContext rt) (final started) in
  exists dbContext,
    outcome fetched = Returned dbContext /\
    let rest :=
      run h (storeImage imageBase64 ;;
             adviseWithModel buildImageAnalysisPrompt buildFarmingPrompt parseResponse trim
               userQuestion (enrichContext context dbContext) tableSchema imageBase64)
        (final fetched) in
    run h (generateAdvice rt buildImageAnalysisPrompt buildFarmingPrompt parseResponse trim
             userQuestion context tableSchema imageBase64) w
    = mkRun (outcome rest) (final rest) (trace started ++ trace fetched ++ trace rest).
Proof.
  cbv zeta.
  destruct (Total_run h (fetchFarmContext rt) (final (run h ensureInitialized w))
              (Total_catch_default _ _))
    as [dbContext Hdb].
  exists dbContext. split; [exact Hdb |].
  assert (Hsplit :
            run h (generateAdvice rt buildImageAnalysisPrompt buildFarmingPrompt
                     parseResponse trim userQuestion context tableSchema imageBase64) w
            = run h (bind ensureInitialized
                       (fun _ =>
                          bind (fetchFarmContext rt)
                            (fun dbContext =>
                               storeImage imageBase64 ;;
                               adviseWithModel buildImageAnalysisPrompt buildFarmingPrompt
                                 parseResponse trim userQuestion
                                 (enrichContext context dbContext)
                                 tableSchema imageBase64))) w).
  { unfold generateAdvice, ensureInitialized, perform.
    cbn [run bind]. destruct (on_op h GetIsInitialized w) as [i w1].
    rewrite !run_bind.
    destruct (outcome (run h (if negb i then initializeService else Ret tt) w1));
      reflexivity. }
  rewrite Hsplit. rewrite run_bind.
  destruct (Total_run h ensureInitialized w Total_ensureInitialized) as [[] Hstart].
  rewrite Hstart. cbv zeta. rewrite run_bind.
  rewrite Hdb. cbv zeta. cbn [outcome final trace].
  rewrite app_assoc. reflexivity.
Qed.

Lemma languageOf_merged (context : FarmerContext) (dbContext : DbContext) :
  languageOf (enrichContext context dbContext) = preferredOf context dbContext.
Proof.
  unfold languageOf, preferredOf, enrichContext. simpl.
  destruct (valueOf (preferredLanguage (farmerProfile context))); [reflexivity |].
  destruct (db_farmerProfile dbContext) as [p |]; reflexivity.
Qed.

(** The profile [fetchFarmContext] returns carries the language of the
    user's row. *)
Lemma fetchFarmContext_language (rt : JsRuntime) :
  Post (fetchFarmContext rt)
    (fun tr o =>
       forall dbContext p,
         o = Returned dbContext -> db_farmerProfile dbContext = Some p ->
         preferredLanguage p = Present (Some (storedLanguage tr))).
Proof.
  unfold fetchFarmContext, getCurrentUser, storedLanguage. simpl.
  intros [[u |] | e]; simpl; try (intros db p H; injection H as <-; discriminate).
  intros [userReply | e]; simpl; [| intros db p H; injection H as <-; discriminate].
  intros [soilReply | e]; simpl; [| intros db p H; injection H as <-; discriminate].
  intros [cropReply | e]; simpl; [| intros db p H; injection H as <-; discriminate].
  intros db p H Hp. injection H as <-. simpl in Hp. injection Hp as <-. reflexivity.
Qed.

Lemma fallback_language (context : FarmerContext) :
  detectedLanguage (getFallbackResponse context) = languageCode (languageOf context).
Proof. reflexivity. Qed.

Lemma fallbackMessages_injective (a b : Language) :
  fallbackMessages a = fallbackMessages b -> a = b.
Proof.
  destruct a, b; intros H; try reflexivity; discriminate H.
Qed.

(** C6.  When the generative-AI call of [generateAdvice] fails (model or
    key not configured, timeout or thrown error, no response, unreadable or
    empty text), the call returns the canned fallback response and does not
    propagate the error.  Its message is the fixed string of the farmer's
    preferred language, one string per language: the language chosen in
    the UI, else the language of the context [fetchFarmContext] returned in
    this run, which is the [preferred_language] of the user's row, else
    mixed. *)
Theorem generateAdvice_fallback_on_model_failure
    (rt : JsRuntime)
    (buildImageAnalysisPrompt : string -> FarmerContext -> result string)
    (buildFarmingPrompt : string -> FarmerContext -> option string -> result string)
    (parseResponse : string -> FarmerContext -> CropAdvisoryResponse)
    (trim : string -> string)
    (W : Type) (h : Handler W) (w : W)
    (userQuestion : string) (context : FarmerContext)
    (tableSchema imageBase64 : option string) :
  let r := run h (generateAdvice rt buildImageAnalysisPrompt buildFarmingPrompt
                    parseResponse trim userQuestion context tableSchema imageBase64) w in
  let fetched := run h (fetchFarmContext rt) (final (run h ensureInitialized w)) in
  forall ev,
    last_event (trace r) = Some ev ->
    modelFailure trim ev ->
    exists dbContext,
      outcome fetched = Returned dbContext /\
      (forall p, db_farmerProfile dbContext = Some p ->
                 preferredLanguage p = Present (Some (storedLanguage (trace fetched)))) /\
      let enriched := enrichContext context dbContext in
      let language := preferredOf context dbContext in
      outcome r = Returned (getFallbackResponse enriched) /\
      message (getFallbackResponse enriched) = fallbackMessages language /\
      detectedLanguage (getFallbackResponse enriched) = languageCode language /\
      message (getFallbackResponse enriched) = fallbackMessages (languageOf enriched) /\
      (forall l, valueOf (preferredLanguage (farmerProfile context)) = Some l ->
                 languageOf enriched = l) /\
      (forall a b, fallbackMessages a = fallbackMessages b -> a = b).
Proof.
  intros r fetched ev Hev Hfail.
  destruct (generateAdvice_run rt buildImageAnalysisPrompt buildFarmingPrompt parseResponse
              trim W h w userQuestion context tableSchema imageBase64)
    as [dbContext [Hdb Hrun]].
  fold fetched in Hdb. cbv zeta in Hrun. fold fetched in Hrun. fold r in Hrun.
  exists dbContext. split; [exact Hdb |]. split.
  { intros p Hp.
    exact (Post_run h _ _ _ (fetchFarmContext_language rt) dbContext p Hdb Hp). }
  cbv zeta.
  pose proof (Post_run h _ _ (final fetched)
                (afterMerge_post buildImageAnalysisPrompt buildFarmingPrompt parseResponse
                   trim userQuestion (enrichContext context dbContext)
                   tableSchema imageBase64)) as [Hne Hlast].
  rewrite Hrun in Hev. cbn [trace] in Hev.
  rewrite app_assoc, last_event_app in Hev by exact Hne.
  split; [rewrite Hrun; cbn [outcome]; exact (Hlast ev Hev Hfail) |].
  split; [rewrite fallback_message, languageOf_merged; reflexivity |].
  split; [rewrite fallback_language, languageOf_merged; reflexivity |].
  split; [apply fallback_message |].
  split; [intros l Hl; apply languageOf_enrichContext; exact Hl |].
  exact fallbackMessages_injective.
Qed.

(** The model is out of reach.  A farmer who chose no language in the UI
    and has Tamil stored gets the Tamil fallback. *)
Lemma generateAdvice_fallback_on_model_failure_witness :
  exists reply,
    outcome (run world (generateAdvice sampleRuntime questionAsPrompt questionAsTextPrompt
                          replyAsMessage noTrim "When should I irrigate?" silentFarmer
                          None None) tamilFarm)
    = Returned reply /\
    message reply = fallbackMessages ta /\
    detectedLanguage reply = "ta".
Proof.
  destruct (generateAdvice_fallback_on_model_failure sampleRuntime questionAsPrompt
              questionAsTextPrompt replyAsMessage noTrim World world tamilFarm
              "When should I irrigate?" silentFarmer None None
              (Asked (GenerateContent (mkModel "gemini-2.0-flash-exp")
                        (mkContents "When should I irrigate?" None) 25000)
                     offline))
    as [dbContext [Hdb [_ [Hout [Hmsg [Hcode _]]]]]].
  - vm_compute. reflexivity.
  - exact I.
  - vm_compute in Hdb. injection Hdb as <-.
    eexists. split; [exact Hout |]. split.
    + rewrite Hmsg. reflexivity.
    + rewrite Hcode. reflexivity.
Defined.

(** With no model configured the same farmer gets the same fallback. *)
Example generateAdvice_without_model :
  outcome (run world (generateAdvice sampleRuntime questionAsPrompt questionAsTextPrompt
                        replyAsMessage noTrim "When should I irrigate?" tamilFarmer
                        None None) (farm []))
  = Returned (getFallbackResponse tamilFarmer) /\
  message (getFallbackResponse tamilFarmer) = fallbackMessages ta.
Proof. vm_compute. split; reflexivity. Qed.

(** * Further properties *)

(** ** The status table *)

(** X1.  The classification of the returned rows, case by case: critical for
    two rows or more or a severe one, attention for a single mild or
    moderate row, healthy for no row and for a single row whose severity is
    unknown or missing. *)
Theorem statusFromLogs_table (logs : list DiseaseLog) :
  (statusFromLogs (Some logs) = critical <->
   (2 <= List.length logs)%nat \/ Exists (fun d => severity d = Some severe) logs) /\
  (statusFromLogs (Some logs) = attention <->
   exists d, logs = [d] /\ (severity d = Some mild \/ severity d = Some moderate)) /\
  (statusFromLogs (Some logs) = healthy <->
   logs = [] \/
   exists d, logs = [d] /\ (severity d = None \/ severity d = Some unknown)).
Proof.
  destruct logs as [| d [| d' logs]].
  - simpl. repeat split; try discriminate; auto.
    + intros [H | H]; [lia | inversion H].
    + intros [d [H _]]. discriminate.
  - unfold statusFromLogs, hasSeverity. simpl.
    destruct (severity d) as [[] |] eqn:Hs; simpl; repeat split;
      try discriminate; try reflexivity; auto;
      try (intros [H | H]; [lia | inversion H as [? ? H1 | ? ? H1]; subst;
                                   [congruence | inversion H1]]);
      try (intros [x [Hx [H | H]]]; injection Hx as <-; congruence);
      try (intros [H | [x [Hx [H | H]]]];
           [discriminate | injection Hx as <-; congruence
            | injection Hx as <-; congruence]);
      try (intros _; exists d; split; [reflexivity | auto]);
      try (intros _; right; exists d; split; [reflexivity | auto]);
      try (intros _; right; constructor; exact Hs).
  - simpl. repeat split; try discriminate; auto.
    + intros _. left. lia.
    + intros [x [H _]]. discriminate.
    + intros [H | [x [H _]]]; discriminate.
Qed.

Lemma Permutation_filter_length {T : Type} (f : T -> bool) (l l' : list T) :
  Permutation l l' -> List.length (filter f l) = List.length (filter f l').
Proof.
  induction 1 as [| x l l' _ IH | x y l | l l' l'' _ IH1 _ IH2]; simpl.
  - reflexivity.
  - destruct (f x); simpl; congruence.
  - destruct (f x), (f y); reflexivity.
  - congruence.
Qed.

(** X2.  The status does not depend on the order of the rows: the query
    sorts them by date, the classification only counts them. *)
Theorem statusFromLogs_order_irrelevant (logs logs' : list DiseaseLog) :
  Permutation logs logs' ->
  statusFromLogs (Some logs) = statusFromLogs (Some logs').
Proof.
  intros Hperm. unfold statusFromLogs.
  rewrite (Permutation_length Hperm).
  rewrite !(Permutation_filter_length _ logs logs' Hperm). reflexivity.
Qed.

Lemma statusFromLogs_order_irrelevant_witness :
  statusFromLogs (Some [leafRust mild 1; leafRust severe 2])
  = statusFromLogs (Some [leafRust severe 2; leafRust mild 1]).
Proof.
  apply statusFromLogs_order_irrelevant. apply perm_swap.
Defined.

(** X3.  One more disease log never makes the status better: with
    healthy below attention below critical, the status with an added row is
    at least the status without it. *)
Theorem statusFromLogs_never_improves (logs : list DiseaseLog) (d : DiseaseLog) :
  (statusRank (statusFromLogs (Some logs))
   <= statusRank (statusFromLogs (Some (d :: logs))))%nat.
Proof.
  destruct logs as [| a [| b logs]].
  - simpl. lia.
  - unfold statusFromLogs. simpl.
    destruct (hasSeverity severe a), (hasSeverity moderate a), (hasSeverity mild a);
      simpl; lia.
  - simpl. lia.
Qed.

(** ** Runs against the reference environment *)

Ltac run_world :=
  cbn [run bind try_catch try_finally await perform manualOverride getCurrentUser
       world on_req on_op world_req world_op Resp OpResp
       outcome final trace data error fst snd map single
       ms_manual_status ms_manual_status_updated_at id].


(** ** The tables *)

Lemma withCropCycles_same (w : World) : withCropCycles w (crop_cycles w) = w.
Proof. destruct w; reflexivity. Qed.

(** ** A manual status against the trigger *)



(** ** Harvesting what is not there *)

(** X5.  [markCropAsHarvested] answers [true] whenever the update comes
    back without an error, also when it matched no row: for a crop id the
    signed-in user has no crop cycle under, the answer is [true] and every
    table is as before. *)
Theorem markCropAsHarvested_true_without_a_row
    (w : World) (u : SupabaseUser) (cropId : Z) :
  session w = Some u ->
  db_error w = None ->
  (forall c, In c (crop_cycles w) -> crop_id c = cropId -> user_id c <> su_id u) ->
  outcome (run world (markCropAsHarvested cropId) w) = Returned true /\
  final (run world (markCropAsHarvested cropId) w) = w.
Proof.
  intros Hs He Hnone.
  assert (Hrows : updateCropCycles w cropId (su_id u) setInactive = inr (crop_cycles w)).
  { unfold updateCropCycles. apply updateRows_none. intros c Hc.
    destruct (crop_id c =? cropId) eqn:Hid.
    - apply Z.eqb_eq in Hid. apply (Hnone c Hc) in Hid.
      apply String.eqb_neq in Hid. rewrite Hid, andb_false_r. reflexivity.
    - rewrite andb_false_r. reflexivity. }
  unfold markCropAsHarvested. run_world. rewrite Hs. run_world.
  unfold cropCyclesUpdate. rewrite He, Hrows. run_world.
  split; [reflexivity |]. apply withCropCycles_same.
Qed.

(** The sample farm has no crop cycle 7. *)
Lemma markCropAsHarvested_true_without_a_row_witness :
  outcome (run world (markCropAsHarvested 7) (farm [])) = Returned true /\
  final (run world (markCropAsHarvested 7) (farm [])) = farm [].
Proof.
  apply (markCropAsHarvested_true_without_a_row (farm []) farmer 7 eq_refl eq_refl).
  intros c [<- | [<- | []]]; discriminate.
Defined.

(** ** Without a session *)

(** X7.  When the user lookup finds nobody, the three writers and readers
    of [crop-db] give their failure value ([[]] or [false]) and send
    nothing to the database: the lookup is the only exchange of the
    run. *)
Theorem crop_db_signed_out
    (W : Type) (h : Handler W) (w w' : W) (r : result (option SupabaseUser))
    (cropId : Z) (status : CropStatus) :
  on_req h AuthGetUser w = (r, w') ->
  noUser r ->
  run h getActiveCrops w = mkRun (Returned []) w' [Asked AuthGetUser r] /\
  run h (markCropAsHarvested cropId) w = mkRun (Returned false) w' [Asked AuthGetUser r] /\
  run h (updateCropStatus cropId status) w = mkRun (Returned false) w' [Asked AuthGetUser r].
Proof.
  intros Hreq Hnone.
  unfold getActiveCrops, markCropAsHarvested, updateCropStatus, getCurrentUser.
  simpl. rewrite Hreq.
  destruct r as [[u |] | e]; [contradiction | |]; repeat split.
Qed.

Lemma crop_db_signed_out_witness :
  run world getActiveCrops visitor
  = mkRun (Returned []) visitor [Asked AuthGetUser (Resolved None)] /\
  run world (markCropAsHarvested 1) visitor
  = mkRun (Returned false) visitor [Asked AuthGetUser (Resolved None)] /\
  run world (updateCropStatus 1 critical) visitor
  = mkRun (Returned false) visitor [Asked AuthGetUser (Resolved None)].
Proof.
  apply (crop_db_signed_out World world visitor visitor (Resolved None) 1 critical).
  - reflexivity.
  - exact I.
Defined.

(** X8.  The same for the location save, the soil read and the farm
    context of the advisory service: with nobody signed in they answer
    [false], [null] and the empty context, and the lookup is the only
    exchange of the run. *)
Theorem reads_signed_out
    (rt : JsRuntime) (W : Type) (h : Handler W) (w w' : W)
    (r : result (option SupabaseUser)) (locationData : LocationData) :
  on_req h AuthGetUser w = (r, w') ->
  noUser r ->
  run h (saveLocationToDatabase locationData) w
  = mkRun (Returned false) w' [Asked AuthGetUser r] /\
  run h getSoilDataFromDatabase w = mkRun (Returned None) w' [Asked AuthGetUser r] /\
  run h (fetchFarmContext rt) w = mkRun (Returned emptyDbContext) w' [Asked AuthGetUser r].
Proof.
  intros Hreq Hnone.
  unfold saveLocationToDatabase, getSoilDataFromDatabase, fetchFarmContext, getCurrentUser.
  simpl. rewrite Hreq.
  destruct r as [[u |] | e]; [contradiction | |]; repeat split.
Qed.

Lemma reads_signed_out_witness :
  run world (saveLocationToDatabase fallbackLocation) visitor
  = mkRun (Returned false) visitor [Asked AuthGetUser (Resolved None)] /\
  run world getSoilDataFromDatabase visitor
  = mkRun (Returned None) visitor [Asked AuthGetUser (Resolved None)] /\
  run world (fetchFarmContext sampleRuntime) visitor
  = mkRun (Returned emptyDbContext) visitor [Asked AuthGetUser (Resolved None)].
Proof.
  apply (reads_signed_out sampleRuntime World world visitor visitor (Resolved None)
           fallbackLocation).
  - reflexivity.
  - exact I.
Defined.

(** ** Saving and showing a location *)

(** X9.  [saveLocationToDatabase] never throws; it answers [true] exactly
    when the update of [users] came back without an error, and what it
    writes are the coordinates and accuracy it was given, with an empty or
    missing place name written as [null]. *)
Theorem saveLocationToDatabase_true_iff_saved (locationData : LocationData) :
  Post (saveLocationToDatabase locationData)
    (fun tr o =>
       (exists b, o = Returned b /\ (b = true <-> locationSaved tr)) /\
       forall u a, observe locationSave tr = Some (u, a) ->
                   lu_latitude u = latitude locationData /\
                   lu_longitude u = longitude locationData /\
                   lu_location_accuracy u = accuracy locationData /\
                   lu_city u <> Some "" /\ lu_state u <> Some "" /\ lu_country u <> Some "").
Proof.
  assert (Hnull : forall s, orNull s <> Some "").
  { intros [[| c s] |]; discriminate. }
  unfold saveLocationToDatabase, getCurrentUser, locationSaved.
  repeat post_split.
  all: split; [eexists; split; [reflexivity |] |].
  all: try (split; [intros H; try discriminate H; try reflexivity; try assumption
                   | intros H; try contradiction; try reflexivity; try congruence]).
  all: try (intros u' a' Hobs; try discriminate Hobs; injection Hobs as <- <-;
            cbn; repeat split; apply Hnull).
Qed.

(** X10.  [getCurrentLocation] hands on the browser's coordinates and
    accuracy whatever the geocoder does, and without a position (no
    geolocation in the browser, or the error callback) it answers [null]
    and contacts nobody else.  A geocoder that does not deliver leaves the
    place names undefined.  (The browser reports through its two
    callbacks; a rejected request has no counterpart there and nothing is
    said of it.) *)
Theorem getCurrentLocation_keeps_coordinates :
  Post getCurrentLocation
    (fun tr o =>
       match observe geolocationAnswer tr with
       | Some (Resolved (GeoPosition lat lon acc)) =>
           asked tr = [NavigatorGeolocation; NominatimReverse lat lon] /\
           exists c s k,
             o = Returned (Some (mkLocationData lat lon acc c s k)) /\
             (occurs geocoderFailed tr -> c = None /\ s = None /\ k = None)
       | Some (Resolved _) => o = Returned None /\ asked tr = [NavigatorGeolocation]
       | Some (Rejected _) => True
       | None => False
       end).
Proof.
  unfold getCurrentLocation, reverseGeocode.
  repeat post_split.
  all: try (split; reflexivity).
  all: try reflexivity.
  all: split; [reflexivity |].
  all: do 3 eexists; split; [reflexivity |].
  all: cbn; intros H; try (repeat split; reflexivity).
  all: exfalso; decompose [or ex] H; try contradiction; congruence.
Qed.

(** ** The flags of [updateUserLocation] *)

(** X11.  [updateUserLocation] never throws.  A call that raises the
    in-progress flag lowers it as its last action, however the call ends;
    a call that does not raise it (an update is in progress, or the
    permission cooldown is active) sends no request and answers [null]. *)
Theorem updateUserLocation_never_throws :
  Post updateUserLocation
    (fun tr o =>
       (exists a, o = Returned a) /\
       (occurs (flagSet true) tr ->
        exists ev, last_event tr = Some ev /\ flagSet false ev) /\
       (~ occurs (flagSet true) tr -> asked tr = [] /\ o = Returned None)).
Proof.
  unfold updateUserLocation, cooldownActive, locateAndSave, getCurrentLocation,
    reverseGeocode, saveLocationToDatabase, getCurrentUser.
  repeat post_split.
  all: split; [eexists; reflexivity |].
  all: split;
    [intros H; first [solve [cbn in H; tauto] | eexists; split; reflexivity]
    | intros H; first [solve [split; reflexivity] | exfalso; apply H; cbn; tauto]].
Qed.

(** With the permission denied and the last check less than a minute
    old, the call stops after reading the clock and the two variables. *)
Lemma updateUserLocation_skipped (w : World) :
  locationUpdateInProgress w = false ->
  permissionDenied w = true ->
  clock w - lastPermissionCheck w < PERMISSION_CHECK_COOLDOWN ->
  run world updateUserLocation w
  = mkRun (Returned None) w
      [Did GetLocationUpdateInProgress false;
       Did DateNow (clock w);
       Did GetPermissionDenied true;
       Did GetLastPermissionCheck (lastPermissionCheck w)].
Proof.
  intros Hfree Hdenied Hcool. apply Z.ltb_lt in Hcool.
  unfold updateUserLocation, cooldownActive. run_world.
  rewrite Hfree. run_world. rewrite Hdenied. run_world. rewrite Hcool. reflexivity.
Qed.

(** X12.  While the permission cooldown is active (the permission was
    denied and less than a minute has passed since the last check) a call
    of [updateUserLocation] answers [null]: no request is sent and nothing
    changes, neither a variable nor a table. *)
Theorem updateUserLocation_cooldown (w : World) :
  locationUpdateInProgress w = false ->
  permissionDenied w = true ->
  clock w - lastPermissionCheck w < PERMISSION_CHECK_COOLDOWN ->
  let r := run world updateUserLocation w in
  outcome r = Returned None /\ asked (trace r) = [] /\ final r = w.
Proof.
  intros Hfree Hdenied Hcool r. subst r.
  rewrite (updateUserLocation_skipped w Hfree Hdenied Hcool).
  repeat split.
Qed.

(** Thirty seconds after a refusal on the sample farm. *)
Lemma updateUserLocation_cooldown_witness :
  outcome (run world updateUserLocation
             (withClock (withLocationVars (farm []) false true noon) (noon + 30000)))
  = Returned None.
Proof.
  apply (updateUserLocation_cooldown
           (withClock (withLocationVars (farm []) false true noon) (noon + 30000))
           eq_refl eq_refl eq_refl).
Defined.

Lemma updateUserLocation_refused (w : World) (u : SupabaseUser) :
  session w = Some u ->
  locationUpdateInProgress w = false ->
  permissionDenied w = false ->
  (geolocation w = GeoUnsupported \/ exists code, geolocation w = GeoPositionError code) ->
  let r := run world updateUserLocation w in
  locationUpdateInProgress (final r) = false /\
  permissionDenied (final r) = true /\
  lastPermissionCheck (final r) = clock w /\
  clock (final r) = clock w.
Proof.
  intros Hs Hfree Hdenied Hgeo r. subst r.
  unfold updateUserLocation, cooldownActive, locateAndSave, getCurrentLocation,
    saveLocationToDatabase.
  destruct w as [ses clk crops logs soils profile loc dberr geo feed busy denied lastCheck
                   init mdl key];
    cbn in Hs, Hfree, Hdenied, Hgeo; subst.
  destruct Hgeo as [-> | [code ->]]; cbn; unfold query; cbn;
    destruct dberr; cbn; rewrite ?String.eqb_refl; repeat split.
Qed.

(** X13.  A refusal is remembered: after a call of [updateUserLocation]
    that got no position from the browser, the permission is marked denied
    with the time of that call, and a second call less than a minute later
    answers [null] without sending a request. *)
Theorem updateUserLocation_remembers_refusal
    (w : World) (u : SupabaseUser) (later : Z) :
  session w = Some u ->
  locationUpdateInProgress w = false ->
  permissionDenied w = false ->
  (geolocation w = GeoUnsupported \/ exists code, geolocation w = GeoPositionError code) ->
  later - clock w < PERMISSION_CHECK_COOLDOWN ->
  let first := run world updateUserLocation w in
  let second := run world updateUserLocation (withClock (final first) later) in
  permissionDenied (final first) = true /\
  lastPermissionCheck (final first) = clock w /\
  outcome second = Returned None /\
  asked (trace second) = [] /\
  final second = withClock (final first) later.
Proof.
  intros Hs Hfree Hdenied Hgeo Hlater first second.
  destruct (updateUserLocation_refused w u Hs Hfree Hdenied Hgeo)
    as [Hflag [Hden [Hlast Hclock]]].
  fold first in Hflag, Hden, Hlast, Hclock.
  split; [exact Hden |]. split; [exact Hlast |].
  subst second. rewrite updateUserLocation_skipped.
  - repeat split.
  - exact Hflag.
  - exact Hden.
  - cbn [withClock clock lastPermissionCheck]. rewrite Hlast. exact Hlater.
Qed.

(** The sample farm has no geolocation: a second call ten seconds later
    is skipped. *)
Lemma updateUserLocation_remembers_refusal_witness :
  outcome (run world updateUserLocation
             (withClock (final (run world updateUserLocation (farm []))) (noon + 10000)))
  = Returned None.
Proof.
  refine (proj1 (proj2 (proj2 (updateUserLocation_remembers_refusal (farm []) farmer
                                 (noon + 10000) eq_refl eq_refl eq_refl
                                 (or_introl eq_refl) _)))).
  vm_compute. reflexivity.
Defined.

(** X14.  [resetPermissionDenied] lifts the cooldown at once: the next call
    of [updateUserLocation], whatever the clock says, goes on to look up
    the user. *)
Theorem resetPermissionDenied_lifts_cooldown (w : World) :
  locationUpdateInProgress w = false ->
  let reset := run world resetPermissionDenied w in
  permissionDenied (final reset) = false /\
  exists rest,
    asked (trace (run world updateUserLocation (final reset))) = AuthGetUser :: rest.
Proof.
  intros Hfree reset. subst reset. split; [reflexivity |].
  unfold resetPermissionDenied, updateUserLocation, cooldownActive, locateAndSave.
  destruct w; cbn in Hfree; subst. cbn.
  eexists. reflexivity.
Qed.

(** Right after a refusal on the sample farm, a reset makes the next
    call ask again. *)
Lemma resetPermissionDenied_lifts_cooldown_witness :
  exists rest,
    asked (trace (run world updateUserLocation
                    (final (run world resetPermissionDenied
                              (withLocationVars (farm []) false true noon)))))
    = AuthGetUser :: rest.
Proof.
  exact (proj2 (resetPermissionDenied_lifts_cooldown
                  (withLocationVars (farm []) false true noon) eq_refl)).
Defined.

(** X15.  The two [formatLocation] functions agree: the text
    [user-location] shows for what [updateUserLocation] returns is the text
    [GeolocationService] shows for the location it was made from, the place
    names that are set joined by commas, or else the two coordinates with
    four decimals. *)
Theorem formatLocation_agree (rt : JsRuntime) (l : LocationData) (stamp : Z) :
  formatLocation rt (toUserLocation l stamp) = GeolocationService_formatLocation rt l.
Proof.
  unfold formatLocation, GeolocationService_formatLocation, toUserLocation.
  cbn [ul_city ul_state ul_country ul_latitude ul_longitude].
  destruct (city l) as [[| c1 s1] |], (state l) as [[| c2 s2] |],
    (country l) as [[| c3 s3] |]; reflexivity.
Qed.

(** ** The sort of the alerts *)

Lemma Priority_eqb_eq (a b : Priority) : Priority_eqb a b = true <-> a = b.
Proof.
  destruct a, b; simpl; split; intros H; try reflexivity; discriminate.
Qed.

Lemma ofPriority_insertWith (p : Priority) (x : SmartAlert) (l : list SmartAlert) :
  ofPriority p
    (insertWith (fun a b => priorityOrder (priority a) - priorityOrder (priority b)) x l)
  = ofPriority p (x :: l).
Proof.
  induction l as [| y l IH]; [reflexivity |].
  cbn [insertWith].
  destruct (priorityOrder (priority x) - priorityOrder (priority y) <=? 0) eqn:Hcmp;
    [reflexivity |].
  apply Z.leb_gt in Hcmp.
  unfold ofPriority in *. cbn [filter] in *. rewrite IH.
  destruct (Priority_eqb (priority x) p) eqn:Hx, (Priority_eqb (priority y) p) eqn:Hy;
    try reflexivity.
  apply Priority_eqb_eq in Hx, Hy. rewrite Hx, Hy in Hcmp. lia.
Qed.

Lemma insertWith_perm {T : Type} (cmp : T -> T -> Z) (x : T) (l : list T) :
  Permutation (x :: l) (insertWith cmp x l).
Proof.
  induction l as [| y l IH]; simpl; [reflexivity |].
  destruct (cmp x y <=? 0); [reflexivity |].
  rewrite perm_swap. now constructor.
Qed.

Lemma sortWith_perm {T : Type} (cmp : T -> T -> Z) (l : list T) :
  Permutation l (sortWith cmp l).
Proof.
  induction l as [| x l IH]; simpl; [constructor |].
  rewrite <- insertWith_perm. now constructor.
Qed.

(** X16.  The sort of [generateSmartAlerts] only reorders: the sorted list
    has the alerts of the unsorted one, each as often, and alerts of the
    same priority keep the order in which the rules pushed them. *)
Theorem sortByPriority_stable (l : list SmartAlert) :
  Permutation l (sortByPriority l) /\
  forall p, ofPriority p (sortByPriority l) = ofPriority p l.
Proof.
  split; [apply sortWith_perm |].
  intros p. induction l as [| x l IH]; [reflexivity |].
  unfold sortByPriority in *. cbn [sortWith].
  rewrite ofPriority_insertWith. unfold ofPriority in *. cbn [filter].
  rewrite IH. reflexivity.
Qed.

(** ** Without a forecast *)

(** X17.  When the weather request brings no forecast, [generateSmartAlerts]
    answers the empty list and asks for nothing else: no crops, no soil
    data, no disease logs. *)
Theorem generateSmartAlerts_without_forecast
    (rt : JsRuntime) (W : Type) (h : Handler W) (w w' : W) (latitude longitude : Q)
    (r : result (HttpReply DetailedWeatherForecast)) :
  on_req h (WeatherApiForecast (latitude, longitude) 7) w = (r, w') ->
  noForecast r ->
  run h (generateSmartAlerts rt latitude longitude) w
  = mkRun (Returned []) w' [Asked (WeatherApiForecast (latitude, longitude) 7) r].
Proof.
  intros Hreq Hnone.
  unfold generateSmartAlerts, getDetailedForecastByCoordinates, getDetailedForecast.
  cbn [bind await try_catch run]. rewrite Hreq.
  destruct r as [reply | e]; cbn [bind try_catch run].
  - destruct Hnone as [Hok | [e He]].
    + rewrite Hok. reflexivity.
    + destruct (ok reply); cbn [negb]; [rewrite He |]; reflexivity.
  - reflexivity.
Qed.

(** The sample farm has no route to the weather API. *)
Lemma generateSmartAlerts_without_forecast_witness :
  run world (generateSmartAlerts sampleRuntime 28.6 77.2) (farm [])
  = mkRun (Returned []) (farm []) [Asked (WeatherApiForecast (28.6%Q, 77.2%Q) 7) offline].
Proof.
  apply (generateSmartAlerts_without_forecast sampleRuntime World world (farm []) (farm [])
           28.6 77.2 offline).
  - reflexivity.
  - exact I.
Defined.

(** ** How many alerts *)

Lemma length_insertWith {T : Type} (cmp : T -> T -> Z) (x : T) (l : list T) :
  List.length (insertWith cmp x l) = S (List.length l).
Proof.
  induction l as [| y l IH]; simpl; [reflexivity |].
  destruct (cmp x y <=? 0); simpl; congruence.
Qed.

Lemma length_sortWith {T : Type} (cmp : T -> T -> Z) (l : list T) :
  List.length (sortWith cmp l) = List.length l.
Proof.
  induction l as [| x l IH]; simpl; [reflexivity |].
  rewrite length_insertWith. congruence.
Qed.

Lemma length_pushIf (needed : Z) (cond : bool) (a : SmartAlert) (fillers : list SmartAlert) :
  List.length (pushIf needed cond a fillers)
  = if (Z.of_nat (List.length fillers) <? needed) && cond
    then S (List.length fillers) else List.length fillers.
Proof.
  unfold pushIf. destruct ((Z.of_nat (List.length fillers) <? needed) && cond).
  - rewrite length_app. simpl. lia.
  - reflexivity.
Qed.

(** With fewer than three alerts so far, the fillers bring the list to
    three or four. *)
Lemma generateFillerAlerts_tops_up (rt : JsRuntime) (forecast : DetailedWeatherForecast)
    (crops : list CropCycle) (soilData : option SoilData) (n : nat) :
  (n < 3)%nat ->
  Ensures (generateFillerAlerts rt forecast crops soilData (Z.of_nat n))
    (fun o => match o with
              | Returned fillers => (3 <= n + List.length fillers <= 4)%nat
              | Threw _ => True
              end).
Proof.
  intros Hn. unfold Ensures, generateFillerAlerts.
  assert (Hneeded : Z.max 0 (4 - Z.of_nat n) = 4 - Z.of_nat n) by lia.
  rewrite Hneeded.
  assert (H0 : (4 - Z.of_nat n =? 0) = false) by (apply Z.eqb_neq; lia).
  rewrite H0.
  destruct (forecastday forecast) as [| today_ [| tomorrow rest]]; [exact I | exact I |].
  cbn [Post]. rewrite length_firstn.
  destruct soilData as [s |]; rewrite !length_pushIf; cbn [List.length];
    destruct (Nat.ltb 0 (List.length crops));
    destruct n as [| [| [| n]]]; try lia; vm_compute; lia.
Qed.

(** X18.  [generateSmartAlerts] answers with no alert, or with at least
    three and at most six: a list of fewer than three rule alerts is
    topped up with informational ones, and a failure on the way gives the
    empty list. *)
Theorem generateSmartAlerts_none_or_three_to_six (rt : JsRuntime) (latitude longitude : Q) :
  Ensures (generateSmartAlerts rt latitude longitude)
    (fun o => exists l, o = Returned l /\
                        (l = [] \/ (3 <= List.length l <= 6)%nat)).
Proof.
  unfold generateSmartAlerts.
  apply Ensures_catch_default; [| left; reflexivity].
  apply Ensures_bind_any; [| trivial].
  intros [forecast |]; [| left; reflexivity].
  apply Ensures_bind_any; [| trivial]. intros crops.
  apply Ensures_bind_any; [| trivial]. intros soilData.
  apply Ensures_bind_any; [| trivial]. intros user.
  apply Ensures_bind_any; [| trivial]. intros recentDiseases.
  set (found := ruleAlerts rt forecast crops soilData recentDiseases).
  assert (Hcut : forall l, (3 <= List.length l)%nat ->
                           (3 <= List.length (firstn 6 (sortByPriority l)) <= 6)%nat).
  { intros l Hl. rewrite length_firstn. unfold sortByPriority.
    rewrite length_sortWith. lia. }
  destruct (Z.of_nat (List.length found) <? 3) eqn:Hfew.
  - apply Z.ltb_lt in Hfew.
    unfold Ensures. apply Post_bind. apply Post_bind.
    eapply Post_mono;
      [| apply (generateFillerAlerts_tops_up rt forecast crops soilData (List.length found));
         lia].
    intros tr [fillers | e] H; simpl; [| exact I].
    right. apply Hcut. rewrite length_app. lia.
  - apply Z.ltb_ge in Hfew. unfold Ensures. simpl.
    right. apply Hcut. lia.
Qed.

(** ** What the rules read of the soil *)

(** X19.  The object [getSoilDataFromDatabase] returns has no member
    [total_nitrogen] or [organic_carbon], so [generateFertilizerAlert]
    reads both as 0: for every soil record there is a fertilizer alert of
    high priority among the rule alerts, and its text reports zero nitrogen
    and zero organic carbon. *)
Theorem fertilizer_alert_for_every_soil
    (rt : JsRuntime) (soilData : SoilData) (forecast : DetailedWeatherForecast)
    (crops : list CropCycle) (recentDiseases : list DiseaseLog) :
  exists a,
    generateFertilizerAlert rt soilData crops = Some a /\
    In a (ruleAlerts rt forecast crops (Some soilData) recentDiseases) /\
    alert_type a = fertilizer /\
    priority a = High /\
    description a
    = template ["Low soil nutrients detected. Nitrogen: ";
                js_toFixed rt 1 (0 * 1000)%Q; " g/kg, Organic Carbon: ";
                js_toFixed rt 1 0%Q; " g/kg."].
Proof.
  eexists. split; [reflexivity |]. split; [| repeat split].
  unfold ruleAlerts.
  change (generateFertilizerAlert rt soilData crops) with
    (Some (mkSmartAlert "fertilizer-alert" fertilizer "Soil Nutrient Alert"
             (template ["Low soil nutrients detected. Nitrogen: ";
                        js_toFixed rt 1 (0 * 1000)%Q; " g/kg, Organic Carbon: ";
                        js_toFixed rt 1 0%Q; " g/kg."])
             High
             "Apply nitrogen fertilizer (Urea/DAP). Add organic matter (compost/manure). Consider soil testing."
             (cropNames crops) (js_isoDay rt (js_today rt)) None)).
  cbv zeta. cbv beta. cbn iota.
  rewrite in_app_iff. left. rewrite in_app_iff. right. left. reflexivity.
Qed.

(** X20.  Nor has it a member [sand_pct]: the irrigation alert is the same
    with and without soil data, and always speaks of slow-draining
    soils. *)
Theorem irrigation_alert_ignores_soil
    (d : ForecastDay) (crops : list CropCycle) (soilData : option SoilData) :
  generateIrrigationAlert d crops soilData = generateIrrigationAlert d crops None /\
  description (generateIrrigationAlert d crops soilData)
  = "No significant rain expected for next several days. Soil moisture may be low, especially for slow-draining soils." /\
  actionRequired (generateIrrigationAlert d crops soilData)
  = "Check soil moisture and water crops if needed. Water moderately.".
Proof.
  destruct soilData as [s |]; repeat split.
Qed.

(** ** The irrigation rule *)

Lemma forecastLoop_daysWithoutRain (rt : JsRuntime) (days : list ForecastDay)
    (crops : list CropCycle) (recentDiseases : list DiseaseLog) :
  forall (i : nat) (st : LoopState),
    daysWithoutRain (forecastLoop rt i days crops recentDiseases st)
    = daysWithoutRain st + Z.of_nat (List.length (filter withoutRain days)).
Proof.
  induction days as [| d days IH]; intros i st; cbn [forecastLoop filter].
  - cbn [List.length]. lia.
  - rewrite IH. unfold loopBody at 1. cbn [daysWithoutRain]. unfold withoutRain at 2.
    destruct (jsGt (daily_chance_of_rain (day d)) 30 || jsGt (totalprecip_mm (day d)) 1);
      cbn [negb List.length]; lia.
Qed.

Lemma dayAlerts_types (rt : JsRuntime) (i : nat) (d : ForecastDay) (crops : list CropCycle)
    (recentDiseases : list DiseaseLog) (a : SmartAlert) :
  In a (dayAlerts rt i d crops recentDiseases) ->
  alert_type a = weather \/ alert_type a = disease.
Proof.
  intros H. apply In_dayAlerts in H.
  destruct H as [[_ ->] | [[_ [_ ->]] | [[_ ->] | [[_ ->] | [[_ ->] | [[_ ->] | [_ ->]]]]]]];
    cbn; auto.
Qed.

Lemma harvestAlerts_types (rt : JsRuntime) (crops : list CropCycle) (a : SmartAlert) :
  In a (generateHarvestAlerts rt crops) -> alert_type a = harvest.
Proof.
  unfold generateHarvestAlerts. rewrite in_flat_map. intros [crop [_ H]].
  unfold harvestAlertFor in H.
  destruct (truthy (expected_harvest_date crop)); [| contradiction].
  destruct (option_map mathCeil _) as [n |]; [| contradiction].
  destruct ((0 <? n) && (n <=? 14)); [| contradiction].
  destruct H as [<- | []]. reflexivity.
Qed.

(** X21.  Among the rule alerts there is an irrigation alert exactly when
    at least three forecast days are without rain (chance of rain at most
    30 % and at most 1 mm) and some day is dry (chance below 20 % and less
    than 2 mm); it is then the one alert for the first dry day. *)
Theorem irrigation_alert_rule
    (rt : JsRuntime) (forecast : DetailedWeatherForecast) (crops : list CropCycle)
    (soilData : option SoilData) (recentDiseases : list DiseaseLog) (a : SmartAlert) :
  In a (ruleAlerts rt forecast crops soilData recentDiseases) /\ alert_type a = irrigation <->
  (3 <= List.length (filter withoutRain (forecastday forecast)))%nat /\
  exists d, find dryDay (forecastday forecast) = Some d /\
            a = generateIrrigationAlert d crops soilData.
Proof.
  unfold ruleAlerts. cbv zeta.
  rewrite forecastLoop_daysWithoutRain. cbn [daysWithoutRain].
  set (loop := alerts (forecastLoop rt 0 (forecastday forecast) crops recentDiseases
                         (mkLoopState [] false 0))).
  assert (Hloop : forall x, In x loop -> alert_type x <> irrigation).
  { intros x Hx. apply forecastLoop_alerts in Hx.
    destruct Hx as [[] | [k [d [_ Hx]]]].
    apply dayAlerts_types in Hx. destruct Hx as [-> | ->]; discriminate. }
  assert (Hfert : forall s x, generateFertilizerAlert rt s crops = Some x ->
                              alert_type x <> irrigation).
  { intros s x Hx. unfold generateFertilizerAlert in Hx.
    destruct (_ || _); [| discriminate]. injection Hx as <-. discriminate. }
  assert (Hharv : forall x, In x (generateHarvestAlerts rt crops) ->
                            alert_type x <> irrigation).
  { intros x Hx. apply harvestAlerts_types in Hx. rewrite Hx. discriminate. }
  change (fun d : ForecastDay => jsLt (daily_chance_of_rain (day d)) 20
                                 && jsLt (totalprecip_mm (day d)) 2) with dryDay.
  set (irrigated :=
         if 3 <=? 0 + Z.of_nat (List.length (filter withoutRain (forecastday forecast)))
         then match find dryDay (forecastday forecast) with
              | Some nextDryDay => loop ++ [generateIrrigationAlert nextDryDay crops soilData]
              | None => loop
              end
         else loop).
  assert (Hirr : In a irrigated /\ alert_type a = irrigation <->
                 (3 <= List.length (filter withoutRain (forecastday forecast)))%nat /\
                 exists d, find dryDay (forecastday forecast) = Some d /\
                           a = generateIrrigationAlert d crops soilData).
  { subst irrigated.
    destruct (3 <=? 0 + Z.of_nat (List.length (filter withoutRain (forecastday forecast))))
      eqn:Hdry.
    - apply Z.leb_le in Hdry.
      destruct (find dryDay (forecastday forecast)) as [d |].
      + rewrite in_app_iff. split.
        * intros [[Hin | [<- | []]] Ht].
          -- exfalso. exact (Hloop a Hin Ht).
          -- split; [lia |]. exists d. split; reflexivity.
        * intros [_ [d' [Hd ->]]]. injection Hd as <-.
          split; [right; left; reflexivity | reflexivity].
      + split.
        * intros [Hin Ht]. exfalso. exact (Hloop a Hin Ht).
        * intros [_ [d [Hd _]]]. discriminate.
    - apply Z.leb_gt in Hdry. split.
      + intros [Hin Ht]. exfalso. exact (Hloop a Hin Ht).
      + intros [H _]. lia. }
  rewrite <- Hirr. rewrite in_app_iff.
  destruct soilData as [s |].
  - destruct (generateFertilizerAlert rt s crops) as [x |] eqn:Hx.
    + rewrite in_app_iff. split.
      * intros [[[Hin | [<- | []]] | Hin] Ht].
        -- tauto.
        -- exfalso. exact (Hfert s _ Hx Ht).
        -- exfalso. exact (Hharv a Hin Ht).
      * tauto.
    + split.
      * intros [[Hin | Hin] Ht]; [tauto |]. exfalso. exact (Hharv a Hin Ht).
      * tauto.
  - split.
    + intros [[Hin | Hin] Ht]; [tauto |]. exfalso. exact (Hharv a Hin Ht).
    + tauto.
Qed.

(** ** What [generateAdvice] answers *)

Lemma adviseWithModel_answers
    (buildImageAnalysisPrompt : string -> FarmerContext -> result string)
    (buildFarmingPrompt : string -> FarmerContext -> option string -> result string)
    (parseResponse : string -> FarmerContext -> CropAdvisoryResponse)
    (trim : string -> string)
    (userQuestion : string) (enrichedContext : FarmerContext)
    (tableSchema imageBase64 : option string) :
  Post (adviseWithModel buildImageAnalysisPrompt buildFarmingPrompt parseResponse trim
          userQuestion enrichedContext tableSchema imageBase64)
    (fun tr o =>
       tr <> [] /\
       forall ev, last_event tr = Some ev ->
         o = Returned (getFallbackResponse enrichedContext) \/
         exists text, modelReplied text ev /\ text <> "" /\ trim text <> "" /\
                      o = Returned (parseResponse text enrichedContext)).
Proof.
  assert (Hgen : forall (m : Model) (c : Contents) (pre : list Event),
             Post (try_catch
                     (generated <- await (GenerateContent m c 25000) ;;
                      match response generated with
                      | None => Throw (JsError "No response from model")
                      | Some (Rejected e) => Throw e
                      | Some (Resolved generatedText) =>
                          if String.eqb generatedText "" || String.eqb (trim generatedText) ""
                          then Throw (JsError "Empty response from model")
                          else Ret (parseResponse generatedText enrichedContext)
                      end)
                     (fun _ => Ret (getFallbackResponse enrichedContext)))
               (fun tr o =>
                  pre ++ tr <> [] /\
                  forall ev, last_event (pre ++ tr) = Some ev ->
                    o = Returned (getFallbackResponse enrichedContext) \/
                    exists text, modelReplied text ev /\ text <> "" /\ trim text <> "" /\
                                 o = Returned (parseResponse text enrichedContext))).
  { intros m c pre. simpl. intros [g | e]; simpl.
    2: { split; [intros H; apply app_eq_nil in H; destruct H; discriminate |].
         intros ev _. left. reflexivity. }
    destruct (response g) as [[generated | e] |] eqn:Hresp; simpl;
      try (split; [intros H; apply app_eq_nil in H; destruct H; discriminate |];
           intros ev _; left; reflexivity).
    destruct (String.eqb generated "" || String.eqb (trim generated) "") eqn:Hblank; simpl.
    - split; [intros H; apply app_eq_nil in H; destruct H; discriminate |].
      intros ev _. left. reflexivity.
    - split; [intros H; apply app_eq_nil in H; destruct H; discriminate |].
      intros ev Hev. rewrite last_event_app in Hev by discriminate.
      injection Hev as <-. right. exists generated.
      apply orb_false_iff in Hblank. destruct Hblank as [H1 H2].
      apply String.eqb_neq in H1. apply String.eqb_neq in H2.
      split; [exact Hresp | auto]. }
  unfold adviseWithModel. simpl.
  intros [m |]; simpl; [| split; [discriminate | intros ev _; left; reflexivity]].
  intros key. destruct (String.eqb key ""); simpl;
    [split; [discriminate | intros ev _; left; reflexivity] |].
  destruct (truthy imageBase64); simpl.
  - destruct (buildImageAnalysisPrompt userQuestion enrichedContext) as [text | e]; simpl.
    + pose proof (Hgen m (mkContents text imageBase64)
                    [Did GetModel (Some m); Did GetApiKey key]) as H. simpl in H.
      exact H.
    + split; [discriminate | intros ev _; left; reflexivity].
  - destruct (buildFarmingPrompt userQuestion enrichedContext tableSchema) as [text | e]; simpl.
    + pose proof (Hgen m (mkContents text None)
                    [Did GetModel (Some m); Did GetApiKey key]) as H. simpl in H.
      exact H.
    + split; [discriminate | intros ev _; left; reflexivity].
Qed.

(** The upload step throws only with an image attached, and then what it
    last heard was the rejection of the user lookup. *)
Lemma storeImage_throws (imageBase64 : option string) :
  Post (storeImage imageBase64)
    (fun tr o =>
       match o with
       | Returned _ => True
       | Threw e =>
           tr <> [] /\
           forall ev, last_event tr = Some ev ->
                      truthy imageBase64 = true /\ ev = Asked AuthGetUser (Rejected e)
       end).
Proof.
  unfold storeImage.
  assert (Hup : forall uid, Total (uploadImageToSupabase (orEmpty imageBase64) uid))
    by (intros uid; apply Total_catch_default).
  revert Hup. generalize (uploadImageToSupabase (orEmpty imageBase64)). intros upload Hup.
  destruct (truthy imageBase64); simpl; [| exact I].
  intros [[u |] | e]; simpl.
  - eapply Post_mono; [| apply Hup].
    intros tr o [a ->]. exact I.
  - exact I.
  - split; [discriminate |]. intros ev Hev. injection Hev as <-. split; reflexivity.
Qed.

Lemma afterMerge_answers
    (buildImageAnalysisPrompt : string -> FarmerContext -> result string)
    (buildFarmingPrompt : string -> FarmerContext -> option string -> result string)
    (parseResponse : string -> FarmerContext -> CropAdvisoryResponse)
    (trim : string -> string)
    (userQuestion : string) (enrichedContext : FarmerContext)
    (tableSchema imageBase64 : option string) :
  Post (storeImage imageBase64 ;;
        adviseWithModel buildImageAnalysisPrompt buildFarmingPrompt parseResponse trim
          userQuestion enrichedContext tableSchema imageBase64)
    (fun tr o =>
       tr <> [] /\
       forall ev, last_event tr = Some ev ->
                  answered parseResponse trim imageBase64 enrichedContext ev o).
Proof.
  apply Post_bind_last.
  eapply Post_mono; [| apply storeImage_throws].
  intros tr1 [imageUrl | e] H.
  - eapply Post_mono; [| apply adviseWithModel_answers].
    intros tr2 o2 [Hne Hans]. split; [exact Hne |].
    intros ev Hev. destruct (Hans ev Hev) as [-> | [text [Hm [H1 [H2 ->]]]]].
    + left. reflexivity.
    + right. exists text. auto.
  - exact H.
Qed.

Lemma last_event_nonempty (tr : list Event) :
  tr <> [] -> exists ev, last_event tr = Some ev.
Proof.
  induction tr as [| ev tr IH]; intros Hne; [contradiction |].
  destruct tr as [| ev' tr]; [exists ev; reflexivity |].
  destruct IH as [x Hx]; [discriminate |]. exists x. exact Hx.
Qed.

Lemma enrichContext_mergedOver (context : FarmerContext) (dbContext : DbContext) :
  mergedOver context dbContext (enrichContext context dbContext).
Proof.
  destruct context as [uid sid [n l f g x] [] wd ch].
  destruct dbContext as [i [[n' l' f' g' x'] |] [[] |]].
  all: unfold mergedOver, enrichContext, preferredOf, spread, orElse, valueOf; simpl.
  all: repeat split; try reflexivity.
  all: repeat match goal with
              | |- context [match ?m with _ => _ end] => is_var m; destruct m
              end; reflexivity.
Qed.

(** X22.  [generateAdvice] answers with the fallback response or with the
    parse of the text the model replied with in the last exchange, a text
    that is neither empty nor blank; both are made for the context of the UI
    laid over the context that [fetchFarmContext] returned in this run.  It
    throws in one case only: an image is attached and the user lookup
    before the upload is rejected. *)
Theorem generateAdvice_answers
    (rt : JsRuntime)
    (buildImageAnalysisPrompt : string -> FarmerContext -> result string)
    (buildFarmingPrompt : string -> FarmerContext -> option string -> result string)
    (parseResponse : string -> FarmerContext -> CropAdvisoryResponse)
    (trim : string -> string)
    (W : Type) (h : Handler W) (w : W)
    (userQuestion : string) (context : FarmerContext)
    (tableSchema imageBase64 : option string) :
  let r := run h (generateAdvice rt buildImageAnalysisPrompt buildFarmingPrompt
                    parseResponse trim userQuestion context tableSchema imageBase64) w in
  let fetched := run h (fetchFarmContext rt) (final (run h ensureInitialized w)) in
  exists dbContext enriched ev,
    outcome fetched = Returned dbContext /\
    mergedOver context dbContext enriched /\
    last_event (trace r) = Some ev /\
    match outcome r with
    | Returned a =>
        a = getFallbackResponse enriched \/
        exists text, modelReplied text ev /\ text <> "" /\ trim text <> "" /\
                     a = parseResponse text enriched
    | Threw e => truthy imageBase64 = true /\ ev = Asked AuthGetUser (Rejected e)
    end.
Proof.
  intros r fetched.
  destruct (generateAdvice_run rt buildImageAnalysisPrompt buildFarmingPrompt parseResponse
              trim W h w userQuestion context tableSchema imageBase64)
    as [dbContext [Hdb Hrun]].
  fold fetched in Hdb. cbv zeta in Hrun. fold fetched in Hrun. fold r in Hrun.
  pose proof (Post_run h _ _ (final fetched)
                (afterMerge_answers buildImageAnalysisPrompt buildFarmingPrompt parseResponse
                   trim userQuestion (enrichContext context dbContext)
                   tableSchema imageBase64)) as [Hne Hlast].
  destruct (last_event_nonempty _ Hne) as [ev Hev].
  exists dbContext, (enrichContext context dbContext), ev.
  split; [exact Hdb |]. split; [apply enrichContext_mergedOver |].
  rewrite Hrun. cbn [trace outcome].
  split; [rewrite app_assoc, last_event_app by exact Hne; exact Hev |].
  exact (Hlast ev Hev).
Qed.

(** ** The set-up of the advisory service *)

(** X23.  [initializeService] never throws and always leaves the service
    marked initialized, with or without a model; the only request it can
    send is for the generative model, and only with a non-empty API
    key. *)
Theorem initializeService_always_initialized :
  Post initializeService
    (fun tr o =>
       o = Returned tt /\
       (exists ev, last_event tr = Some ev /\ initialized ev) /\
       forall q, In q (asked tr) -> exists key, q = GetGenerativeModel key /\ key <> "").
Proof.
  unfold initializeService. simpl. intros [].
  - simpl. split; [reflexivity |]. split; [eexists; split; reflexivity |].
    intros q [].
  - simpl. intros key. destruct (String.eqb key "") eqn:Hkey; simpl.
    + intros []. split; [reflexivity |]. split; [eexists; split; reflexivity |].
      intros q [].
    + apply String.eqb_neq in Hkey.
      intros [m | e]; simpl; intros; (split; [reflexivity |]);
        (split; [eexists; split; reflexivity |]);
        intros q [<- | []]; exists key; auto.
Qed.

(** X24.  [uploadImageToSupabase] never throws.  When it answers with a
    URL, it decoded the payload of the image, uploaded a file named after
    the user and the time of the upload, and asked for the public URL of
    that same file. *)
Theorem uploadImageToSupabase_url_of_the_upload (imageBase64 userId : string) :
  Post (uploadImageToSupabase imageBase64 userId)
    (fun tr o =>
       exists a,
         o = Returned a /\
         forall url, a = Some url ->
           exists bytes timestamp,
             observe nowRead tr = Some timestamp /\
             let filename :=
               template ["crop-images/"; userId; "/"; zText timestamp; ".jpg"] in
             asked tr = [Atob (base64Payload imageBase64);
                         Storage_Upload filename bytes;
                         Storage_GetPublicUrl filename]).
Proof.
  unfold uploadImageToSupabase. simpl.
  intros [bytes | e]; simpl.
  2: { eexists. split; [reflexivity |]. discriminate. }
  intros timestamp [r | e]; simpl.
  2: { eexists. split; [reflexivity |]. discriminate. }
  destruct (error r); simpl.
  { eexists. split; [reflexivity |]. discriminate. }
  intros [url | e]; simpl.
  2: { eexists. split; [reflexivity |]. discriminate. }
  eexists. split; [reflexivity |]. intros url' _.
  exists bytes, timestamp. split; reflexivity.
Qed.

(** ** The soil record *)

(** X25.  [getSoilDataFromDatabase] never throws, and the record it hands
    out never has a pH of 0 nor an empty soil type: a missing or zero pH
    reads as 7, a missing or empty type as ['Unknown']. *)
Theorem getSoilDataFromDatabase_defaults :
  Ensures getSoilDataFromDatabase
    (fun o => exists a, o = Returned a /\
                        forall s, a = Some s -> ~ (pH s == 0)%Q /\ soilType s <> "").
Proof.
  assert (HpH : forall x, ~ (numOr x 7 == 0)%Q).
  { intros [v |]; simpl; [| discriminate].
    destruct (Qeq_bool v 0) eqn:Hv; [discriminate |].
    intros H. apply Qeq_bool_iff in H. congruence. }
  assert (Htype : forall x, strOr x "Unknown" <> "").
  { intros [[| c s] |]; discriminate. }
  unfold getSoilDataFromDatabase.
  apply Ensures_catch_default.
  2: { intros s H. discriminate H. }
  unfold Ensures, getCurrentUser. simpl.
  intros [[u |] | e]; simpl; try (intros s H; discriminate H); try exact I.
  intros [r | e]; simpl; [| exact I].
  destruct (error r); simpl; [intros s H; discriminate H |].
  destruct (data r) as [[| record rest] |]; simpl; try (intros s H; discriminate H).
  intros s H. injection H as <-. simpl. split; [apply HpH | apply Htype].
Qed.

(** ** What the crop functions send *)

(** X26.  [getCropStatus] only reads and never throws: it asks for the
    manual status of the given crop and then, at most, for the disease logs
    of that crop since the instant 30 days back that it computed. *)
Theorem getCropStatus_only_reads (crop : CropCycle) :
  Post (getCropStatus crop)
    (fun tr o =>
       (exists s, o = Returned s) /\
       (asked tr = [CropCycles_SelectManualStatus (crop_id crop)] \/
        exists since,
          observe (daysAgoRead 30) tr = Some since /\
          asked tr = [CropCycles_SelectManualStatus (crop_id crop);
                      DiseaseLogs_SelectForCrop (crop_id crop) since])).
Proof.
  unfold getCropStatus. simpl.
  intros [m | e]; simpl; [| split; [eauto | left; reflexivity]].
  destruct (data m) as [row |]; simpl;
    [destruct (ms_manual_status row) as [s |]; simpl;
     [destruct (ms_manual_status_updated_at row) as [t |]; simpl;
      [intros d; destruct (d <? t); simpl;
       [split; [eauto | left; reflexivity] |] |] |] |].
  all: intros d30 [r | e]; simpl; [destruct (error r); simpl |].
  all: split; [eauto | right; exists d30; split; reflexivity].
Qed.

(** X27.  [markCropAsHarvested] and [updateCropStatus] never throw; they
    send at most one update, naming the crop they were given and the user
    the lookup just found, and they answer [true] exactly when that update
    came back without an error.  [updateCropStatus] writes the status it
    was given with the time it read. *)
Theorem crop_writes_name_crop_and_user (cropId : Z) (status : CropStatus) :
  let wrote (tr : list Event) (o : Outcome bool) :=
    (exists b, o = Returned b /\ (b = true <-> cropWritten tr)) /\
    (forall c uid a, observe cropWrite tr = Some (c, uid, a) ->
                     c = cropId /\ observe userFound tr = Some uid) /\
    (List.length (asked tr) <= 2)%nat in
  Post (markCropAsHarvested cropId) wrote /\
  Post (updateCropStatus cropId status)
    (fun tr o =>
       wrote tr o /\
       forall s t, observe statusWrite tr = Some (s, t) ->
                   s = status /\ observe nowRead tr = Some t).
Proof.
  cbv zeta. split.
  - unfold markCropAsHarvested, getCurrentUser, cropWritten.
    repeat post_split.
    all: split; [eexists; split; [reflexivity |] | split].
    all: try (simpl; lia).
    all: try (intros c uid a H; try discriminate H; injection H as <- <- <-;
              split; reflexivity).
    all: simpl; split; intros H;
      first [discriminate H | reflexivity | assumption | contradiction | congruence].
  - unfold updateCropStatus, getCurrentUser, cropWritten.
    repeat post_split.
    all: split; [split; [eexists; split; [reflexivity |] | split] |].
    all: try (simpl; lia).
    all: try (intros c uid a H; try discriminate H; injection H as <- <- <-;
              split; reflexivity).
    all: try (intros s' t' H; try discriminate H; injection H as <- <-;
              split; reflexivity).
    all: simpl; split; intros H;
      first [discriminate H | reflexivity | assumption | contradiction | congruence].
Qed.

(** ** The window of the disease logs *)

(** X28.  Logs outside the window do not count: adding disease logs that
    are older than 30 days, belong to another crop cycle or to none, or are
    another user's, leaves the answer of [getCropStatus] as it was. *)
Theorem getCropStatus_ignores_other_logs
    (w : World) (crop : CropCycle) (others : list DiseaseLog) :
  (forall d, In d others ->
             detection_date d < clock w - 30 * msPerDay \/
             crop_cycle_id d <> Some (crop_id crop) \/
             visibleTo w (dl_user_id d) = false) ->
  outcome (run world (getCropStatus crop) (withDiseaseLogs w (others ++ disease_logs w)))
  = outcome (run world (getCropStatus crop) w).
Proof.
  intros Hout.
  assert (Hfilter :
            filter (fun d => visibleTo w (dl_user_id d)
                             && match crop_cycle_id d with
                                | Some c => c =? crop_id crop
                                | None => false
                                end
                             && (clock w - 30 * msPerDay <=? detection_date d))
                   (others ++ disease_logs w)
            = filter (fun d => visibleTo w (dl_user_id d)
                               && match crop_cycle_id d with
                                  | Some c => c =? crop_id crop
                                  | None => false
                                  end
                               && (clock w - 30 * msPerDay <=? detection_date d))
                     (disease_logs w)).
  { rewrite filter_app.
    rewrite (filter_ext_in _ (fun _ => false) others); [rewrite filter_false; reflexivity |].
    intros d Hd. destruct (Hout d Hd) as [Hold | [Hcrop | Hvis]].
    - assert (H : (clock w - 30 * msPerDay <=? detection_date d) = false)
        by (apply Z.leb_gt; exact Hold).
      rewrite H. apply andb_false_r.
    - destruct (crop_cycle_id d) as [c |].
      + destruct (c =? crop_id crop) eqn:Hc.
        * apply Z.eqb_eq in Hc. congruence.
        * rewrite andb_false_r. reflexivity.
      + rewrite andb_false_r. reflexivity.
    - rewrite Hvis. reflexivity. }
  unfold getCropStatus. run_world.
  change (db_error (withDiseaseLogs w (others ++ disease_logs w))) with (db_error w).
  change (crop_cycles (withDiseaseLogs w (others ++ disease_logs w))) with (crop_cycles w).
  change (visibleTo (withDiseaseLogs w (others ++ disease_logs w))) with (visibleTo w).
  destruct (db_error w) as [e |] eqn:He; run_world.
  2: destruct (single _) as [[[[s |] [t |]] |] err]; run_world.
  2: change (clock (withDiseaseLogs w (others ++ disease_logs w))) with (clock w);
     destruct (clock w - 7 * msPerDay <? t); run_world; [reflexivity |].
  all: unfold query;
    change (db_error (withDiseaseLogs w (others ++ disease_logs w))) with (db_error w);
    rewrite He; run_world;
    change (visibleTo (withDiseaseLogs w (others ++ disease_logs w))) with (visibleTo w);
    change (clock (withDiseaseLogs w (others ++ disease_logs w))) with (clock w);
    change (disease_logs (withDiseaseLogs w (others ++ disease_logs w)))
      with (others ++ disease_logs w);
    rewrite ?Hfilter; reflexivity.
Qed.

(** A rust found 45 days ago, and one on the rice, do not touch the wheat. *)
Lemma getCropStatus_ignores_other_logs_witness :
  outcome (run world (getCropStatus wheat)
             (withDiseaseLogs (farm [leafRust mild 3])
                ([leafRust severe 45;
                  mkDiseaseLog "farmer-1" (Some 2) "Blast" (Some severe) noon]
                 ++ [leafRust mild 3])))
  = outcome (run world (getCropStatus wheat) (farm [leafRust mild 3])).
Proof.
  apply (getCropStatus_ignores_other_logs (farm [leafRust mild 3]) wheat).
  intros d [<- | [<- | []]].
  - left. vm_compute. reflexivity.
  - right. left. discriminate.
Defined.
